(** * Cluster-identity bootstrap (lib/auth/init.go)

    A shallow embedding of [Init], [InitKeys], [writeKeys], [ReadKeys],
    [HaveKeys], [InitSecret], [ReadSecret], [secretKeyPath], [keysPath] and
    [pathExists], together with a model of the collaborators they call
    (filesystem, lock service, CA service, provisioning and trust stores,
    sealing service, key and certificate generation).

    Go functions become programs of a state monad over [World] that also
    records the sequence of collaborator calls ([trace]) and can panic.
    Go's multiple return values are kept as tuples, a nil pointer, interface
    or error as [None]. *)

From Stdlib Require Import ZArith Ascii String List Bool Lia.
From stdpp Require Import base option gmap sets list strings.

Local Open Scope string_scope.
Local Open Scope Z_scope.

(** ** Data model *)

(** Go's [[]byte]; [[]byte(s)] and [string(b)] are the identity. *)
Definition bytes := string.

Inductive Errno := ENOENT | EACCES | EISDIR | ENOTDIR.

(** The values of Go's [error] interface that occur in a run. *)
Inductive error :=
| Errorf (msg : string)                         (* fmt.Errorf(msg) *)
| NotFoundError (msg : string)                  (* teleport.NotFoundError *)
| PathError (op path : string) (errno : Errno)  (* os.PathError *)
| LockTimeout (name : string)                   (* lock not acquired in time *)
| CollabError (msg : string)                    (* any other collaborator failure *)
| TraceErr (inner : error).                     (* what trace.Wrap builds *)

(** The spec's error taxonomy (section 7), as far as this file produces it. *)
Inductive ErrKind :=
| ConfigurationError | NotFoundKind | LockTimeoutError | IOError | OtherError.

(** services.CA: a certificate-authority key pair. *)
Record CA := mkCA { ca_pub : bytes; ca_priv : bytes }.

Inductive CAType := HostCAType | UserCAType.

(** services.RemoteCert: a trusted authority record. *)
Record RemoteCert := mkRemoteCert { rc_Type : string; rc_FQDN : string; rc_Value : bytes }.

(** secret.SecretService, the sealing service built from raw key bytes. *)
Record SecretService := mkSecretService { ss_KeyBytes : bytes }.

(** ssh.Signer built by sshutils.NewSigner from a key and a certificate. *)
Record Signer := mkSigner { signer_key : bytes; signer_cert : bytes }.

(** AuthServer as NewAuthServer(cfg.Backend, cfg.Authority, scrt) builds it:
    the backend is the [World], the authority is the [Env]. *)
Record AuthServer := mkAuthServer { asrv_scrt : option SecretService }.

(** InitConfig. [Backend] and [Authority] are the [World] and the [Env].
    [AllowedTokens] is the Go map listed in the order in which this run's
    [range] visits it (Go leaves that order unspecified). *)
Record InitConfig := mkInitConfig {
  FQDN : string;
  AuthDomain : string;
  DataDir : string;
  SecretKey : string;
  AllowedTokens : list (string * string);
  TrustedAuthorities : list RemoteCert;
  HostCA : option CA;
  UserCA : option CA
}.

(** A path of the filesystem holds a regular file, a directory, or cannot be
    looked up at all (permission denied on the way to it). *)
Inductive Node := File (data : bytes) (perm : Z) | Dir | Denied.

(** The persisted state: the local filesystem and the shared backend. *)
Record World := mkWorld {
  fs : gmap string Node;
  locks : gset string;                      (* cluster locks currently held *)
  hostCA : option CA;
  userCA : option CA;
  tokens : gmap string (string * Z);        (* token id -> (domain, ttl) *)
  remoteCerts : list (RemoteCert * Z);      (* upserted records, newest first *)
  entropy : nat                             (* draws made from the random source *)
}.

(** Calls to collaborators, in the order a run makes them. [EvInitKeys]
    marks the entry into [InitKeys]. *)
Inductive Event :=
| EvMkdirAll (path : string) (perm : Z)
| EvStat (path : string)
| EvReadFile (path : string)
| EvReadPath (path : string)
| EvWriteFile (path : string) (data : bytes) (perm : Z)
| EvAcquireLock (name : string) (timeout : Z)
| EvReleaseLock (name : string)
| EvNewKey
| EvGetHostCAPub
| EvGetUserCAPub
| EvUpsertHostCA (ca : CA)
| EvUpsertUserCA (ca : CA)
| EvResetHostCA (pass : string)
| EvResetUserCA (pass : string)
| EvDecodeSID (token : string)
| EvUpsertToken (id fqdn : string) (ttl : Z)
| EvUpsertRemoteCert (cert : RemoteCert) (ttl : Z)
| EvGenerateKeyPair (pass : string)
| EvGenerateHostCert (pub : bytes) (id hostname : string) (ttl : Z)
| EvInitKeys (fqdn dataDir : string).

Inductive Res (A : Type) := Ok (a : A) | Err (e : error).
Arguments Ok {A} a.
Arguments Err {A} e.

(** The pure behaviour of the libraries outside this file: key encoding, the
    sealing service, key, certificate and CA generation as functions of the
    random draw, and what trace.Wrap returns for a nil error. *)
Record Env := mkEnv {
  wrap_nil : option error;
  env_NewKey : nat -> Res bytes;
  env_KeyToEncodedString : bytes -> string;
  env_EncodedStringToKey : string -> Res bytes;
  env_secretNew : bytes -> Res SecretService;
  env_DecodeSID : string -> SecretService -> Res string;
  env_GenerateKeyPair : string -> nat -> Res (bytes * bytes);
  env_GenerateCA : CAType -> string -> nat -> Res CA;
  env_SignHostCert : CA -> bytes -> string -> string -> Z -> Res bytes;
  env_NewSigner : bytes -> bytes -> Res Signer
}.

(** Failures of the backend and authority calls of one run: the message of
    the error a call fails with, if it fails. *)
Definition Faults := Event -> option string.

Definition NoFaults (flt : Faults) : Prop := forall ev, flt ev = None.

(** ** The monad of Go function bodies *)

Inductive Outcome (A : Type) := Ret (a : A) | Panic (msg : string).
Arguments Ret {A} a.
Arguments Panic {A} msg.

Record Run (A : Type) := mkRun { out : Outcome A; final : World; trace : list Event }.
Arguments mkRun {A} out final trace.
Arguments out {A} r.
Arguments final {A} r.
Arguments trace {A} r.

Definition M (A : Type) := World -> Run A.

Definition ret {A} (a : A) : M A := fun w => mkRun (Ret a) w [].

Definition panic {A} (msg : string) : M A := fun w => mkRun (Panic msg) w [].

Definition bind {A B} (m : M A) (f : A -> M B) : M B := fun w =>
  match m w with
  | mkRun (Ret a) w1 t1 =>
      match f a w1 with
      | mkRun o w2 t2 => mkRun o w2 (t1 ++ t2)
      end
  | mkRun (Panic msg) w1 t1 => mkRun (Panic msg) w1 t1
  end.

(** [defer d] before [body]: [d] runs when [body] returns or panics. *)
Definition defer {A B} (d : M B) (body : M A) : M A := fun w =>
  match body w with
  | mkRun o w1 t1 =>
      match d w1 with
      | mkRun _ w2 t2 => mkRun o w2 (t1 ++ t2)
      end
  end.

Notation "'do' p <- m ; k" := (bind m (fun p => k))
  (at level 10, p pattern, m at level 100, k at level 200).

(** A block of a Go function either falls through or executes [return]. *)
Inductive Ctl (R A : Type) := Next (a : A) | Return_ (r : R).
Arguments Next {R A} a.
Arguments Return_ {R A} r.

(** ** Collaborators *)

Definition set_fs (f : gmap string Node) (w : World) : World :=
  mkWorld f (locks w) (hostCA w) (userCA w) (tokens w) (remoteCerts w) (entropy w).
Definition set_locks (l : gset string) (w : World) : World :=
  mkWorld (fs w) l (hostCA w) (userCA w) (tokens w) (remoteCerts w) (entropy w).
Definition set_hostCA (c : option CA) (w : World) : World :=
  mkWorld (fs w) (locks w) c (userCA w) (tokens w) (remoteCerts w) (entropy w).
Definition set_userCA (c : option CA) (w : World) : World :=
  mkWorld (fs w) (locks w) (hostCA w) c (tokens w) (remoteCerts w) (entropy w).
Definition set_tokens (t : gmap string (string * Z)) (w : World) : World :=
  mkWorld (fs w) (locks w) (hostCA w) (userCA w) t (remoteCerts w) (entropy w).
Definition set_remoteCerts (r : list (RemoteCert * Z)) (w : World) : World :=
  mkWorld (fs w) (locks w) (hostCA w) (userCA w) (tokens w) r (entropy w).
Definition draw (w : World) : World :=
  mkWorld (fs w) (locks w) (hostCA w) (userCA w) (tokens w) (remoteCerts w) (S (entropy w)).

Definition Second : Z := 1000000000.
Definition ModeDir : Z := Z.shiftl 1 31.
Definition perm0777 : Z := 511.
Definition perm0600 : Z := 384.

(** Modelled from the spec: fmt.Sprintf("%v.key", fqdn) and
    filepath.Join(dir, name) of the Go library, on a path that needs no
    cleaning. *)
Definition Join (dir name : string) : string :=
  if String.eqb dir "" then name else dir ++ "/" ++ name.

(** Modelled from the spec: trace.Wrap (vendored, not in this file) wraps the
    error it is given; what it returns for nil is left to [wrap_nil]. *)
Definition Wrap (env : Env) (err : option error) : option error :=
  match err with
  | Some e => Some (TraceErr e)
  | None => wrap_nil env
  end.

(** The type assertion of [e] to a pointer to teleport.NotFoundError. *)
Definition isNotFoundError (e : error) : bool :=
  match e with NotFoundError _ => true | _ => false end.

(** [err != nil]. *)
Definition notNil {A} (o : option A) : bool :=
  match o with Some _ => true | None => false end.

(** os.IsNotExist. *)
Definition IsNotExist (e : error) : bool :=
  match e with PathError _ _ ENOENT => true | _ => false end.

(** The kind of section 7 an error belongs to. *)
Definition kind_of (e : error) : ErrKind :=
  match e with
  | Errorf _ => ConfigurationError
  | NotFoundError _ => NotFoundKind
  | PathError _ _ ENOENT => NotFoundKind
  | PathError _ _ _ => IOError
  | LockTimeout _ => LockTimeoutError
  | _ => OtherError
  end.

Section Collaborators.

Variable env : Env.
Variable flt : Faults.

(** Modelled from the spec: the filesystem calls of the Go library (os.Stat,
    os.MkdirAll, ioutil.ReadFile, ioutil.WriteFile) and utils.ReadPath, over
    a map from paths to nodes; the root and the working directory are
    there. *)
Definition Stat (path : string) : M (option error) := fun w =>
  mkRun (Ret match fs w !! path with
             | None => Some (PathError "stat" path ENOENT)
             | Some Denied => Some (PathError "stat" path EACCES)
             | Some _ => None
             end) w [EvStat path].

(** os.IsPathSeparator. *)
Definition isSep (c : Ascii.ascii) : bool := Ascii.eqb c "/"%char.

Fixpoint dropWhile {A} (f : A -> bool) (l : list A) : list A :=
  match l with
  | [] => []
  | a :: l' => if f a then dropWhile f l' else l
  end.

(** The parent os.MkdirAll creates before [path]: [path] without its
    trailing separators, its last element and the separator before it,
    when more than the root is left. *)
Definition parentDir (path : string) : option string :=
  let r := rev (list_ascii_of_string path) in
  let r1 := dropWhile isSep r in
  let r2 := dropWhile (fun c => negb (isSep c)) r1 in
  let j := length r2 in
  if (1 <? j)%nat then Some (String.substring 0 (j - 1) path) else None.

(** [path] and the directories above it, innermost first. *)
Fixpoint dirChain (fuel : nat) (path : string) : list string :=
  path :: match fuel with
          | O => []
          | S n => match parentDir path with
                   | Some p => dirChain n p
                   | None => []
                   end
          end.

Definition dirsOf (path : string) : list string :=
  dirChain (String.length path) path.

(** Modelled from the spec: the recursion of os.MkdirAll along [chain]: a
    directory that is there ends it, a file fails it, and a path that is
    missing is made once the directories above it are. *)
Fixpoint mkdirChain (chain : list string) (m : gmap string Node)
  : gmap string Node * option error :=
  match chain with
  | [] => (m, None)
  | p :: up =>
      match m !! p with
      | Some Dir => (m, None)
      | Some (File _ _) => (m, Some (PathError "mkdir" p ENOTDIR))
      | _ =>
          match mkdirChain up m with
          | (m1, Some e) => (m1, Some e)
          | (m1, None) =>
              match m1 !! p with
              | None => (<[p := Dir]> m1, None)
              | Some Dir => (m1, None)
              | Some (File _ _) => (m1, Some (PathError "mkdir" p ENOTDIR))
              | Some Denied => (m1, Some (PathError "mkdir" p EACCES))
              end
          end
      end
  end.

(** Modelled from the spec: os.MkdirAll creates [path] and every missing
    directory above it. *)
Definition MkdirAll (path : string) (perm : Z) : M (option error) := fun w =>
  match mkdirChain (dirsOf path) (fs w) with
  | (m, err) => mkRun (Ret err) (set_fs m w) [EvMkdirAll path perm]
  end.

Definition read_node (op path : string) (w : World) : bytes * option error :=
  match fs w !! path with
  | Some (File data _) => (data, None)
  | None => ("", Some (PathError op path ENOENT))
  | Some Dir => ("", Some (PathError op path EISDIR))
  | Some Denied => ("", Some (PathError op path EACCES))
  end.

Definition ReadFile (path : string) : M (bytes * option error) := fun w =>
  mkRun (Ret (read_node "open" path w)) w [EvReadFile path].

Definition ReadPath (path : string) : M (bytes * option error) := fun w =>
  mkRun (Ret (read_node "open" path w)) w [EvReadPath path].

(** WriteFile creates a missing file with [perm]; it truncates an existing
    one and leaves its permissions as they are. *)
Definition WriteFile (path : string) (data : bytes) (perm : Z) : M (option error) := fun w =>
  match fs w !! path with
  | None => mkRun (Ret None) (set_fs (<[path := File data perm]> (fs w)) w)
                  [EvWriteFile path data perm]
  | Some (File _ p) => mkRun (Ret None) (set_fs (<[path := File data p]> (fs w)) w)
                             [EvWriteFile path data perm]
  | Some Dir => mkRun (Ret (Some (PathError "open" path EISDIR))) w [EvWriteFile path data perm]
  | Some Denied => mkRun (Ret (Some (PathError "open" path EACCES))) w [EvWriteFile path data perm]
  end.

(** Modelled from the spec: the lock service, acquire(name, timeout) and
    release(name). A lock that is held is not acquired within the timeout. *)
Definition AcquireLock (name : string) (timeout : Z) : M (option error) := fun w =>
  match flt (EvAcquireLock name timeout) with
  | Some msg => mkRun (Ret (Some (CollabError msg))) w [EvAcquireLock name timeout]
  | None =>
      if decide (name ∈ locks w)
      then mkRun (Ret (Some (LockTimeout name))) w [EvAcquireLock name timeout]
      else mkRun (Ret None) (set_locks (locks w ∪ {[name]}) w) [EvAcquireLock name timeout]
  end.

Definition ReleaseLock (name : string) : M (option error) := fun w =>
  match flt (EvReleaseLock name) with
  | Some msg => mkRun (Ret (Some (CollabError msg))) w [EvReleaseLock name]
  | None => mkRun (Ret None) (set_locks (locks w ∖ {[name]}) w) [EvReleaseLock name]
  end.

(** Modelled from the spec: the sealing-service library; secret.NewKey draws
    from the random source. *)
Definition NewKey : M (bytes * option error) := fun w =>
  match env_NewKey env (entropy w) with
  | Ok k => mkRun (Ret (k, None)) (draw w) [EvNewKey]
  | Err e => mkRun (Ret ("", Some e)) w [EvNewKey]
  end.

Definition KeyToEncodedString (k : bytes) : string := env_KeyToEncodedString env k.

Definition EncodedStringToKey (s : string) : bytes * option error :=
  match env_EncodedStringToKey env s with
  | Ok k => (k, None)
  | Err e => ("", Some e)
  end.

Definition secretNew (key : bytes) : option SecretService * option error :=
  match env_secretNew env key with
  | Ok s => (Some s, None)
  | Err e => (None, Some e)
  end.

Definition DecodeSID (token : string) (scrt : option SecretService)
  : M (string * option error) := fun w =>
  match scrt with
  | None => mkRun (Panic "nil pointer dereference") w [EvDecodeSID token]
  | Some s =>
      mkRun (Ret match env_DecodeSID env token s with
                 | Ok pid => (pid, None)
                 | Err e => ("", Some e)
                 end) w [EvDecodeSID token]
  end.

(** Modelled from the spec: the authority/CA service of section 6. A probe of
    an absent CA fails with NotFoundError; a call the backend fails fails
    with another error and changes nothing. *)
Definition GetHostCAPub : M (bytes * option error) := fun w =>
  mkRun (Ret match flt EvGetHostCAPub with
             | Some msg => ("", Some (CollabError msg))
             | None => match hostCA w with
                       | Some ca => (ca_pub ca, None)
                       | None => ("", Some (NotFoundError "host CA not found"))
                       end
             end) w [EvGetHostCAPub].

Definition GetUserCAPub : M (bytes * option error) := fun w =>
  mkRun (Ret match flt EvGetUserCAPub with
             | Some msg => ("", Some (CollabError msg))
             | None => match userCA w with
                       | Some ca => (ca_pub ca, None)
                       | None => ("", Some (NotFoundError "user CA not found"))
                       end
             end) w [EvGetUserCAPub].

Definition UpsertHostCA (ca : CA) : M (option error) := fun w =>
  match flt (EvUpsertHostCA ca) with
  | Some msg => mkRun (Ret (Some (CollabError msg))) w [EvUpsertHostCA ca]
  | None => mkRun (Ret None) (set_hostCA (Some ca) w) [EvUpsertHostCA ca]
  end.

Definition UpsertUserCA (ca : CA) : M (option error) := fun w =>
  match flt (EvUpsertUserCA ca) with
  | Some msg => mkRun (Ret (Some (CollabError msg))) w [EvUpsertUserCA ca]
  | None => mkRun (Ret None) (set_userCA (Some ca) w) [EvUpsertUserCA ca]
  end.

Definition ResetHostCA (pass : string) : M (option error) := fun w =>
  match flt (EvResetHostCA pass) with
  | Some msg => mkRun (Ret (Some (CollabError msg))) w [EvResetHostCA pass]
  | None =>
      match env_GenerateCA env HostCAType pass (entropy w) with
      | Ok ca => mkRun (Ret None) (draw (set_hostCA (Some ca) w)) [EvResetHostCA pass]
      | Err e => mkRun (Ret (Some e)) w [EvResetHostCA pass]
      end
  end.

Definition ResetUserCA (pass : string) : M (option error) := fun w =>
  match flt (EvResetUserCA pass) with
  | Some msg => mkRun (Ret (Some (CollabError msg))) w [EvResetUserCA pass]
  | None =>
      match env_GenerateCA env UserCAType pass (entropy w) with
      | Ok ca => mkRun (Ret None) (draw (set_userCA (Some ca) w)) [EvResetUserCA pass]
      | Err e => mkRun (Ret (Some e)) w [EvResetUserCA pass]
      end
  end.

Definition GenerateKeyPair (pass : string) : M (bytes * bytes * option error) := fun w =>
  match env_GenerateKeyPair env pass (entropy w) with
  | Ok (k, pub) => mkRun (Ret (k, pub, None)) (draw w) [EvGenerateKeyPair pass]
  | Err e => mkRun (Ret ("", "", Some e)) w [EvGenerateKeyPair pass]
  end.

(** The host certificate is signed with the host CA the backend holds. *)
Definition GenerateHostCert (pub : bytes) (id hostname : string) (ttl : Z)
  : M (bytes * option error) := fun w =>
  mkRun (Ret match flt (EvGenerateHostCert pub id hostname ttl) with
             | Some msg => ("", Some (CollabError msg))
             | None =>
                 match hostCA w with
                 | None => ("", Some (NotFoundError "host CA not found"))
                 | Some ca =>
                     match env_SignHostCert env ca pub id hostname ttl with
                     | Ok c => (c, None)
                     | Err e => ("", Some e)
                     end
                 end
             end) w [EvGenerateHostCert pub id hostname ttl].

(** Modelled from the spec: the provisioning store, upsertToken(id, domain,
    ttl), keyed by the token id. *)
Definition UpsertToken (id fqdn : string) (ttl : Z) : M (option error) := fun w =>
  match flt (EvUpsertToken id fqdn ttl) with
  | Some msg => mkRun (Ret (Some (CollabError msg))) w [EvUpsertToken id fqdn ttl]
  | None => mkRun (Ret None) (set_tokens (<[id := (fqdn, ttl)]> (tokens w)) w)
                  [EvUpsertToken id fqdn ttl]
  end.

(** Modelled from the spec: the trust store, upsertRemoteCertificate(record,
    ttl). *)
Definition UpsertRemoteCert (cert : RemoteCert) (ttl : Z) : M (option error) := fun w =>
  match flt (EvUpsertRemoteCert cert ttl) with
  | Some msg => mkRun (Ret (Some (CollabError msg))) w [EvUpsertRemoteCert cert ttl]
  | None => mkRun (Ret None) (set_remoteCerts ((cert, ttl) :: remoteCerts w) w)
                  [EvUpsertRemoteCert cert ttl]
  end.

(** Modelled from the spec: sshutils.NewSigner parses a key and a
    certificate. *)
Definition NewSigner (key cert : bytes) : option Signer * option error :=
  match env_NewSigner env key cert with
  | Ok s => (Some s, None)
  | Err e => (None, Some e)
  end.

End Collaborators.

(** ** The functions of init.go *)

Section Program.

Variable env : Env.
Variable flt : Faults.

Definition Result : Type := option AuthServer * option Signer * option error.

Definition secretKeyPath (dataDir : string) : string :=
  Join dataDir "teleport.secret".

Definition keysPath (fqdn dataDir : string) : string * string :=
  (Join dataDir (fqdn ++ ".key"), Join dataDir (fqdn ++ ".cert")).

Definition pathExists (path : string) : M (bool * option error) :=
  do err <- Stat path;
  match err with
  | Some e => if IsNotExist e then ret (false, None) else ret (false, Some e)
  | None => ret (true, None)
  end.

Definition ReadSecret (dataDir : string) : M (option SecretService * option error) :=
  let keyPath := secretKeyPath dataDir in
  do (bytes_, err) <- ReadFile keyPath;
  match err with
  | Some e => ret (None, Some e)
  | None =>
      let (key, err) := EncodedStringToKey env bytes_ in
      match err with
      | Some e => ret (None, Some e)
      | None => ret (secretNew env key)
      end
  end.

Definition InitSecret (dataDir secretKey : string)
  : M (option SecretService * option error) :=
  let keyPath := secretKeyPath dataDir in
  do (exists_, err) <- pathExists keyPath;
  match err with
  | Some e => ret (None, Some e)
  | None =>
      do c <- (if negb exists_ then
                 do c <- (if String.eqb secretKey "" then
                            do (k, err) <- NewKey env;
                            match err with
                            | Some e => ret (Return_ (None, Some e))
                            | None => ret (Next (KeyToEncodedString env k))
                            end
                          else ret (Next secretKey));
                 match c with
                 | Return_ r => ret (Return_ r)
                 | Next secretKey =>
                     do err <- WriteFile keyPath secretKey perm0600;
                     match err with
                     | Some e => ret (Return_ (None, Some e))
                     | None => ret (Next tt)
                     end
                 end
               else ret (Next tt));
      match c with
      | Return_ r => ret r
      | Next _ => ReadSecret dataDir
      end
  end.

Definition writeKeys (fqdn dataDir : string) (key cert : bytes) : M (option error) :=
  let (kp, cp) := keysPath fqdn dataDir in
  do err <- WriteFile kp key perm0600;
  match err with
  | Some e => ret (Some e)
  | None =>
      do err <- WriteFile cp cert perm0600;
      match err with
      | Some e => ret (Some e)
      | None => ret None
      end
  end.

Definition ReadKeys (fqdn dataDir : string) : M (option Signer * option error) :=
  let (kp, cp) := keysPath fqdn dataDir in
  do (key, err) <- ReadPath kp;
  match err with
  | Some e => ret (None, Some e)
  | None =>
      do (cert, err) <- ReadPath cp;
      match err with
      | Some e => ret (None, Some e)
      | None => ret (NewSigner env key cert)
      end
  end.

Definition HaveKeys (fqdn dataDir : string) : M (bool * option error) :=
  let (kp, cp) := keysPath fqdn dataDir in
  do (exists_, err) <- pathExists kp;
  if negb exists_ || notNil err then ret (exists_, err) else
  do (exists_, err) <- pathExists cp;
  if negb exists_ || notNil err then ret (exists_, err) else
  ret (true, None).

(** initialize this node's host certificate signed by host authority *)
Definition InitKeys (fqdn dataDir : string) : M (option Signer * option error) :=
  do _ <- (fun w => mkRun (Ret tt) w [EvInitKeys fqdn dataDir]);
  if String.eqb fqdn "" then ret (None, Some (Errorf "fqdn can not be empty")) else
  let (kp, cp) := keysPath fqdn dataDir in
  do (keyExists, err) <- pathExists kp;
  match err with
  | Some e => ret (None, Some e)
  | None =>
      do (certExists, err) <- pathExists cp;
      match err with
      | Some e => ret (None, Some e)
      | None =>
          do c <- (if negb keyExists || negb certExists then
                     do (kpub, err) <- GenerateKeyPair env "";
                     let (k, pub) := kpub in
                     match err with
                     | Some e => ret (Return_ (None, Some e))
                     | None =>
                         do (c, err) <- GenerateHostCert env flt pub fqdn fqdn 0;
                         match err with
                         | Some e => ret (Return_ (None, Some e))
                         | None =>
                             do err <- writeKeys fqdn dataDir k c;
                             match err with
                             | Some e => ret (Return_ (None, Some e))
                             | None => ret (Next tt)
                             end
                         end
                     end
                   else ret (Next tt));
          match c with
          | Return_ r => ret r
          | Next _ => ReadKeys fqdn dataDir
          end
      end
  end.

(** Lines 89-107 of [Init]: the host CA. [err] is the variable of that name
    in scope there, the error [InitSecret] returned. *)
Definition hostCABlock (cfg : InitConfig) (err : option error) (firstStart : bool)
  : M (Ctl Result bool) :=
  do (_, e) <- GetHostCAPub flt;
  match e with
  | Some e =>
      if isNotFoundError e then
        match HostCA cfg with
        | Some ca =>
            do err <- UpsertHostCA flt ca;
            match err with
            | Some e' => ret (Return_ (None, None, Wrap env (Some e')))
            | None => ret (Next true)
            end
        | None =>
            do err <- ResetHostCA env flt "";
            match err with
            | Some e' => ret (Return_ (None, None, Some e'))
            | None => ret (Next true)
            end
        end
      else ret (Return_ (None, None, Wrap env err))
  | None => ret (Next firstStart)
  end.

(** Lines 112-130 of [Init]: the user CA. The test of line 115 reads
    [cfg.HostCA]; line 117 dereferences [cfg.UserCA]. *)
Definition userCABlock (cfg : InitConfig) (err : option error) (firstStart : bool)
  : M (Ctl Result bool) :=
  do (_, e) <- GetUserCAPub flt;
  match e with
  | Some e =>
      if isNotFoundError e then
        if notNil (HostCA cfg) then
          match UserCA cfg with
          | None => panic "invalid memory address or nil pointer dereference"
          | Some ca =>
              do err <- UpsertUserCA flt ca;
              match err with
              | Some e' => ret (Return_ (None, None, Wrap env (Some e')))
              | None => ret (Next true)
              end
          end
        else
          do err <- ResetUserCA env flt "";
          match err with
          | Some e' => ret (Return_ (None, None, Wrap env (Some e')))
          | None => ret (Next true)
          end
      else ret (Return_ (None, None, Wrap env err))
  | None => ret (Next firstStart)
  end.

(** Lines 135-144: the loop over [cfg.AllowedTokens]. *)
Fixpoint tokensLoop (scrt : option SecretService) (toks : list (string * string))
  : M (Ctl Result unit) :=
  match toks with
  | [] => ret (Next tt)
  | (fqdn, token) :: rest =>
      do (pid, err) <- DecodeSID env token scrt;
      match err with
      | Some e => ret (Return_ (None, None, Wrap env (Some e)))
      | None =>
          do err <- UpsertToken flt pid fqdn (600 * Second);
          match err with
          | Some e => ret (Return_ (None, None, Wrap env (Some e)))
          | None => tokensLoop scrt rest
          end
      end
  end.

(** Lines 149-154: the loop over [cfg.TrustedAuthorities]. *)
Fixpoint certsLoop (certs : list RemoteCert) : M (Ctl Result unit) :=
  match certs with
  | [] => ret (Next tt)
  | cert :: rest =>
      do err <- UpsertRemoteCert flt cert 0;
      match err with
      | Some e => ret (Return_ (None, None, Wrap env (Some e)))
      | None => certsLoop rest
      end
  end.

(** Lines 132-156: what runs only on first start. *)
Definition provisionBlock (cfg : InitConfig) (scrt : option SecretService)
  (firstStart : bool) : M (Ctl Result unit) :=
  if firstStart then
    do c <- (if negb (length (AllowedTokens cfg) =? 0)%nat
             then tokensLoop scrt (AllowedTokens cfg) else ret (Next tt));
    match c with
    | Return_ r => ret (Return_ r)
    | Next _ =>
        if negb (length (TrustedAuthorities cfg) =? 0)%nat
        then certsLoop (TrustedAuthorities cfg) else ret (Next tt)
    end
  else ret (Next tt).

(** Lines 75-163 of [Init]: what runs while the lock is held. *)
Definition criticalSection (cfg : InitConfig) : M Result :=
  do (scrt, err) <- InitSecret (DataDir cfg) (SecretKey cfg);
  match err with
  | Some e => ret (None, None, Some e)
  | None =>
  let asrv := mkAuthServer scrt in
  let firstStart := false in
  do c <- hostCABlock cfg err firstStart;
  match c with
  | Return_ r => ret r
  | Next firstStart =>
  do c <- userCABlock cfg err firstStart;
  match c with
  | Return_ r => ret r
  | Next firstStart =>
  do c <- provisionBlock cfg scrt firstStart;
  match c with
  | Return_ r => ret r
  | Next _ =>
  do (signer, err) <- InitKeys (FQDN cfg) (DataDir cfg);
  match err with
  | Some e => ret (None, None, Some e)
  | None => ret (Some asrv, signer, None)
  end end end end end.

Definition Init (cfg : InitConfig) : M Result :=
  if String.eqb (AuthDomain cfg) "" then
    ret (None, None, Some (Errorf "node name can not be empty")) else
  if String.eqb (DataDir cfg) "" then
    ret (None, None, Some (Errorf "path can not be empty")) else
  do err <- MkdirAll (DataDir cfg) (Z.lor ModeDir perm0777);
  match err with
  | Some e => ret (None, None, Some e)
  | None =>
  do err <- AcquireLock flt (AuthDomain cfg) (60 * Second);
  match err with
  | Some e => ret (None, None, Some e)
  | None => defer (ReleaseLock flt (AuthDomain cfg)) (criticalSection cfg)
  end end.

End Program.

(** ** A concrete environment for examples *)

Definition tag (n : nat) : string := String.concat "" (repeat "i" n).

(** Keys are encoded with the prefix "enc:", tokens are well formed when they
    start with "tok:", and every generated value carries the number of the
    random draw it was made from. *)
Definition demoEnv : Env := {|
  wrap_nil := None;
  env_NewKey n := Ok ("key" ++ tag n);
  env_KeyToEncodedString k := "enc:" ++ k;
  env_EncodedStringToKey s :=
    if String.prefix "enc:" s
    then Ok (String.substring 4 (String.length s - 4) s)
    else Err (CollabError "bad key encoding");
  env_secretNew k := Ok (mkSecretService k);
  env_DecodeSID t s :=
    if String.prefix "tok:" t
    then Ok (String.substring 4 (String.length t - 4) t)
    else Err (CollabError "malformed token");
  env_GenerateKeyPair pass n := Ok ("priv" ++ tag n, "pub" ++ tag n);
  env_GenerateCA ty pass n := Ok (mkCA ("capub" ++ tag n) ("capriv" ++ tag n));
  env_SignHostCert ca pub id host ttl :=
    Ok ("cert:" ++ pub ++ ":" ++ id ++ ":" ++ ca_priv ca);
  env_NewSigner k c := Ok (mkSigner k c)
|}.

Definition noFaults : Faults := fun _ => None.

Definition emptyWorld : World := mkWorld ∅ ∅ None None ∅ [] 0.

Definition demoCfg : InitConfig :=
  mkInitConfig "node1" "example.com" "/var/lib/teleport" ""
    [("n2", "tok:abc")] [mkRemoteCert "host" "other.com" "pubkey"] None None.

(** A run that returned an auth server and a signer and no error. *)
Definition succeeded (r : Run Result) : Prop :=
  exists asrv signer, out r = Ret (Some asrv, Some signer, None).

(** The calls of the first-start provisioner. *)
Definition isProv (e : Event) : bool :=
  match e with
  | EvDecodeSID _ | EvUpsertToken _ _ _ | EvUpsertRemoteCert _ _ => true
  | _ => false
  end.

(** The calls that create or overwrite key material, CAs or secrets. *)
Definition isGeneration (e : Event) : bool :=
  match e with
  | EvNewKey | EvWriteFile _ _ _ | EvGenerateKeyPair _ | EvGenerateHostCert _ _ _ _
  | EvUpsertHostCA _ | EvUpsertUserCA _ | EvResetHostCA _ | EvResetUserCA _ => true
  | _ => false
  end.

Definition isInitKeys (e : Event) : bool :=
  match e with EvInitKeys _ _ => true | _ => false end.

Definition quiet (e : Event) : Prop := isProv e = false /\ isInitKeys e = false.

(** The backend part of two states is the same. *)
Definition same_backend (w w' : World) : Prop :=
  locks w' = locks w /\ hostCA w' = hostCA w /\ userCA w' = userCA w /\
  tokens w' = tokens w /\ remoteCerts w' = remoteCerts w.

(** What [criticalSection] returns once [InitKeys] has returned. *)
Definition finish (scrt : option SecretService)
  (o : Outcome (option Signer * option error)) : Outcome Result :=
  match o with
  | Ret (_, Some e) => Ret (None, None, Some e)
  | Ret (signer, None) => Ret (Some (mkAuthServer scrt), signer, None)
  | Panic msg => Panic msg
  end.

(** How a block that did not fall through ends the function. *)
Definition stopped {A} (o : Outcome (Ctl Result A)) (o' : Outcome Result) : Prop :=
  (exists r, o = Ret (Return_ r) /\ o' = Ret r) \/
  (exists msg, o = Panic msg /\ o' = Panic msg).

(** The runs of [criticalSection], by the block in which they end. *)
Inductive cs_run (env : Env) (flt : Faults) (cfg : InitConfig) (w : World)
  : Outcome Result -> World -> list Event -> Prop :=
| cs_secret oscrt e w1 t1 :
    InitSecret env (DataDir cfg) (SecretKey cfg) w = mkRun (Ret (oscrt, Some e)) w1 t1 ->
    cs_run env flt cfg w (Ret (None, None, Some e)) w1 t1
| cs_host scrt w1 t1 o2 w2 t2 o :
    InitSecret env (DataDir cfg) (SecretKey cfg) w = mkRun (Ret (scrt, None)) w1 t1 ->
    hostCABlock env flt cfg None false w1 = mkRun o2 w2 t2 ->
    stopped o2 o ->
    cs_run env flt cfg w o w2 (t1 ++ t2)
| cs_user scrt w1 t1 b1 w2 t2 o3 w3 t3 o :
    InitSecret env (DataDir cfg) (SecretKey cfg) w = mkRun (Ret (scrt, None)) w1 t1 ->
    hostCABlock env flt cfg None false w1 = mkRun (Ret (Next b1)) w2 t2 ->
    userCABlock env flt cfg None b1 w2 = mkRun o3 w3 t3 ->
    stopped o3 o ->
    cs_run env flt cfg w o w3 (t1 ++ t2 ++ t3)
| cs_prov scrt w1 t1 b1 w2 t2 b2 w3 t3 o4 w4 t4 o :
    InitSecret env (DataDir cfg) (SecretKey cfg) w = mkRun (Ret (scrt, None)) w1 t1 ->
    hostCABlock env flt cfg None false w1 = mkRun (Ret (Next b1)) w2 t2 ->
    userCABlock env flt cfg None b1 w2 = mkRun (Ret (Next b2)) w3 t3 ->
    provisionBlock env flt cfg scrt b2 w3 = mkRun o4 w4 t4 ->
    stopped o4 o ->
    cs_run env flt cfg w o w4 (t1 ++ t2 ++ t3 ++ t4)
| cs_keys scrt w1 t1 b1 w2 t2 b2 w3 t3 w4 t4 o5 w5 t5 :
    InitSecret env (DataDir cfg) (SecretKey cfg) w = mkRun (Ret (scrt, None)) w1 t1 ->
    hostCABlock env flt cfg None false w1 = mkRun (Ret (Next b1)) w2 t2 ->
    userCABlock env flt cfg None b1 w2 = mkRun (Ret (Next b2)) w3 t3 ->
    provisionBlock env flt cfg scrt b2 w3 = mkRun (Ret (Next tt)) w4 t4 ->
    InitKeys env flt (FQDN cfg) (DataDir cfg) w4 = mkRun o5 w5 t5 ->
    cs_run env flt cfg w (finish scrt o5) w5 (t1 ++ t2 ++ t3 ++ t4 ++ t5).

(** The runs of [Init], by the step in which they end. *)
Inductive init_run (env : Env) (flt : Faults) (cfg : InitConfig) (w : World)
  : Outcome Result -> World -> list Event -> Prop :=
| init_no_domain :
    AuthDomain cfg = "" ->
    init_run env flt cfg w (Ret (None, None, Some (Errorf "node name can not be empty"))) w []
| init_no_dir :
    AuthDomain cfg <> "" -> DataDir cfg = "" ->
    init_run env flt cfg w (Ret (None, None, Some (Errorf "path can not be empty"))) w []
| init_mkdir e w1 t1 :
    AuthDomain cfg <> "" -> DataDir cfg <> "" ->
    MkdirAll (DataDir cfg) (Z.lor ModeDir perm0777) w = mkRun (Ret (Some e)) w1 t1 ->
    init_run env flt cfg w (Ret (None, None, Some e)) w1 t1
| init_lock w1 t1 e w2 t2 :
    AuthDomain cfg <> "" -> DataDir cfg <> "" ->
    MkdirAll (DataDir cfg) (Z.lor ModeDir perm0777) w = mkRun (Ret None) w1 t1 ->
    AcquireLock flt (AuthDomain cfg) (60 * Second) w1 = mkRun (Ret (Some e)) w2 t2 ->
    init_run env flt cfg w (Ret (None, None, Some e)) w2 (t1 ++ t2)
| init_locked w1 t1 w2 t2 o w3 t3 orel w4 t4 :
    AuthDomain cfg <> "" -> DataDir cfg <> "" ->
    MkdirAll (DataDir cfg) (Z.lor ModeDir perm0777) w = mkRun (Ret None) w1 t1 ->
    AcquireLock flt (AuthDomain cfg) (60 * Second) w1 = mkRun (Ret None) w2 t2 ->
    cs_run env flt cfg w2 o w3 t3 ->
    ReleaseLock flt (AuthDomain cfg) w3 = mkRun orel w4 t4 ->
    init_run env flt cfg w o w4 (t1 ++ t2 ++ t3 ++ t4).

(** The persisted state from which a run of [Init] only reads. *)
Definition bootstrapped (env : Env) (cfg : InitConfig) (asrv : AuthServer)
  (signer : Signer) (w : World) : Prop :=
  AuthDomain cfg <> "" /\ DataDir cfg <> "" /\ FQDN cfg <> "" /\
  fs w !! DataDir cfg = Some Dir /\
  (exists scrt data perm key,
     asrv = mkAuthServer (Some scrt) /\
     fs w !! secretKeyPath (DataDir cfg) = Some (File data perm) /\
     env_EncodedStringToKey env data = Ok key /\
     env_secretNew env key = Ok scrt) /\
  is_Some (hostCA w) /\ is_Some (userCA w) /\
  (exists k pk c pc,
     fs w !! (keysPath (FQDN cfg) (DataDir cfg)).1 = Some (File k pk) /\
     fs w !! (keysPath (FQDN cfg) (DataDir cfg)).2 = Some (File c pc) /\
     env_NewSigner env k c = Ok signer).

(** Running [Init] twice succeeds both times with the same result and the
    same CAs, and the second run generates nothing. *)
Definition idempotent_bootstrap (env : Env) (flt : Faults) (cfg : InitConfig)
  (w : World) : Prop :=
  let r1 := Init env flt cfg w in
  let r2 := Init env flt cfg (final r1) in
  succeeded r1 /\ succeeded r2 /\ out r2 = out r1 /\
  hostCA (final r2) = hostCA (final r1) /\
  userCA (final r2) = userCA (final r1) /\
  Forall (fun e => isGeneration e = false) (trace r2).

(** A configuration whose token map holds a token that does not decode. *)
Definition badTokenCfg : InitConfig :=
  mkInitConfig "node1" "example.com" "/var/lib/teleport" ""
    [("n2", "tok:abc"); ("n3", "garbage")] [] None None.

(** A first-start run with a token that does not decode never reaches
    [InitKeys] and persists no token. *)
Definition no_partial_import (env : Env) (flt : Faults) (cfg : InitConfig)
  (w : World) : Prop :=
  hostCA w = None \/ userCA w = None ->
  (exists fqdn tok, In (fqdn, tok) (AllowedTokens cfg) /\
                    forall s, exists e, env_DecodeSID env tok s = Err e) ->
  let r := Init env flt cfg w in
  Forall (fun e => isInitKeys e = false) (trace r) /\
  tokens (final r) = tokens w.




Definition isUpsertUserCA (e : Event) : bool :=
  match e with EvUpsertUserCA _ => true | _ => false end.

(** The probes of the two CAs. *)
Definition isProbe (e : Event) : bool :=
  match e with EvGetHostCAPub | EvGetUserCAPub => true | _ => false end.

(** A run that probed for a user CA the backend does not have installs the
    user CA of the configuration, or generates one when there is none. *)
Definition user_ca_follows_UserCA (env : Env) (flt : Faults) (cfg : InitConfig)
  (w : World) : Prop :=
  userCA w = None ->
  let r := Init env flt cfg w in
  In EvGetUserCAPub (trace r) ->
  match UserCA cfg with
  | Some ca => In (EvUpsertUserCA ca) (trace r)
  | None => In (EvResetUserCA "") (trace r)
  end.

Definition suppliedUserCA : CA := mkCA "user-pub" "user-priv".

Definition suppliedHostCA : CA := mkCA "host-pub" "host-priv".

(** A configuration that brings a user CA and no host CA. *)
Definition userCAOnlyCfg : InitConfig :=
  mkInitConfig "node1" "example.com" "/var/lib/teleport" "" [] []
    None (Some suppliedUserCA).

(** A configuration that brings a host CA and no user CA. *)
Definition hostCAOnlyCfg : InitConfig :=
  mkInitConfig "node1" "example.com" "/var/lib/teleport" "" [] []
    (Some suppliedHostCA) None.

(** The error [e] carries the failure [msg] of a collaborator. *)
Definition carries (msg : string) (e : error) : Prop :=
  e = CollabError msg \/ e = TraceErr (CollabError msg).

(** A run whose CA probe failed with [msg] returns an error carrying it. *)
Definition probe_failure_surfaced (env : Env) (flt : Faults) (cfg : InitConfig)
  (w : World) : Prop :=
  forall msg,
    let r := Init env flt cfg w in
    (flt EvGetHostCAPub = Some msg /\ In EvGetHostCAPub (trace r)) \/
    (flt EvGetUserCAPub = Some msg /\ In EvGetUserCAPub (trace r)) ->
    exists e, out r = Ret (None, None, Some e) /\ carries msg e.

(** The backend fails the host CA probe, and nothing else. *)
Definition hostProbeFault : Faults := fun e =>
  match e with EvGetHostCAPub => Some "backend unavailable" | _ => None end.

(** The backend fails the user CA probe, and nothing else. *)
Definition userProbeFault : Faults := fun e =>
  match e with EvGetUserCAPub => Some "backend unavailable" | _ => None end.

(** os.Stat succeeds on the node: a regular file or a directory. *)
Definition statOk (o : option Node) : bool :=
  match o with Some (File _ _) | Some Dir => true | _ => false end.

(** A successful [InitKeys] that found a file missing leaves both files
    with mode 0600. *)
Definition persists_owner_only (env : Env) (flt : Faults) (fqdn dataDir : string)
  (w : World) : Prop :=
  fqdn <> "" ->
  fs w !! (keysPath fqdn dataDir).1 = None \/
  fs w !! (keysPath fqdn dataDir).2 = None ->
  forall signer,
    out (InitKeys env flt fqdn dataDir w) = Ret (Some signer, None) ->
    exists k c,
      fs (final (InitKeys env flt fqdn dataDir w)) !! (keysPath fqdn dataDir).1
      = Some (File k perm0600) /\
      fs (final (InitKeys env flt fqdn dataDir w)) !! (keysPath fqdn dataDir).2
      = Some (File c perm0600).

Definition perm0644 : Z := 420.

(** A host CA in the backend, a key file with mode 0644 on disk and no
    certificate. *)
Definition staleKeyWorld : World :=
  mkWorld (<[ "/var/lib/teleport/node1.key" := File "old" perm0644 ]> ∅)
          ∅ (Some (mkCA "capub" "capriv")) None ∅ [] 0.

(** The state in which the critical section of [Init] starts, when the
    data directory has been made and the lock acquired. *)
Definition csStart (cfg : InitConfig) (w : World) : World :=
  let w1 := final (MkdirAll (DataDir cfg) (Z.lor ModeDir perm0777) w) in
  set_locks (locks w1 ∪ {[AuthDomain cfg]}) w1.

(** The sealing service [InitSecret] hands to a run of [Init] that gets to
    its critical section. *)
Definition runSecret (env : Env) (cfg : InitConfig) (w : World)
  : option SecretService :=
  match out (InitSecret env (DataDir cfg) (SecretKey cfg) (csStart cfg w)) with
  | Ret (Some s, None) => Some s
  | _ => None
  end.

(** Nothing stops [Init] before its token loop: the two checked fields are
    set, the data directory can be made, the lock is free, no call to the
    backend or the authority fails, the secret [s] is established, a CA can
    be generated, and line 117 has a user CA to dereference. *)
Definition unobstructed (env : Env) (flt : Faults) (cfg : InitConfig)
  (w : World) (s : SecretService) : Prop :=
  AuthDomain cfg <> "" /\ DataDir cfg <> "" /\
  out (MkdirAll (DataDir cfg) (Z.lor ModeDir perm0777) w) = Ret None /\
  (AuthDomain cfg ∉ locks w) /\
  NoFaults flt /\
  runSecret env cfg w = Some s /\
  (forall ty n, exists ca, env_GenerateCA env ty "" n = Ok ca) /\
  (userCA w = None -> is_Some (HostCA cfg) -> is_Some (UserCA cfg)).

(** A path [WriteFile] can write to: free, or a regular file. *)
Definition writable (o : option Node) : Prop :=
  o = None \/ exists data perm, o = Some (File data perm).

(** ** Paths *)

Lemma Join_nonempty dir name :
  dir <> "" -> Join dir name = dir ++ "/" ++ name.
Proof.
  intros H. unfold Join. destruct (String.eqb_spec dir ""); congruence.
Qed.

Lemma length_append (s1 s2 : string) :
  String.length (s1 ++ s2) = (String.length s1 + String.length s2)%nat.
Proof. induction s1 as [|a s1 IH]; simpl; [reflexivity | now rewrite IH]. Qed.

(** Two decompositions of one string with tails of the same length have the
    same tail. *)
Lemma append_tail_inj (a c b d : string) :
  a ++ b = c ++ d -> String.length b = String.length d -> b = d.
Proof.
  revert c. induction a as [|x a IH]; intros [|y c] H Hl.
  - exact H.
  - exfalso. apply (f_equal String.length) in H.
    rewrite !length_append in H. simpl in H. lia.
  - exfalso. apply (f_equal String.length) in H.
    rewrite !length_append in H. simpl in H. lia.
  - injection H as _ H. eauto.
Qed.

Lemma Join_inj dir a b : Join dir a = Join dir b -> a = b.
Proof.
  unfold Join. destruct (String.eqb dir ""); [trivial |].
  intros H. apply String.app_inj in H. now apply (String.app_inj "/") in H.
Qed.

Lemma keysPath_distinct fqdn dataDir :
  (keysPath fqdn dataDir).1 <> (keysPath fqdn dataDir).2.
Proof.
  simpl. intros H. apply Join_inj, String.app_inj in H. discriminate.
Qed.

Lemma secretKeyPath_not_key fqdn dataDir :
  secretKeyPath dataDir <> (keysPath fqdn dataDir).1.
Proof.
  simpl. unfold secretKeyPath. intros H. apply Join_inj in H.
  change "teleport.secret" with ("teleport.se" ++ "cret") in H.
  apply append_tail_inj in H; [discriminate | reflexivity].
Qed.

Lemma secretKeyPath_not_cert fqdn dataDir :
  secretKeyPath dataDir <> (keysPath fqdn dataDir).2.
Proof.
  simpl. unfold secretKeyPath. intros H. apply Join_inj in H.
  change "teleport.secret" with ("teleport.s" ++ "ecret") in H.
  apply append_tail_inj in H; [discriminate | reflexivity].
Qed.

Lemma Join_not_dir dir name : dir <> "" -> Join dir name <> dir.
Proof.
  intros Hd H. rewrite (Join_nonempty _ _ Hd) in H.
  apply (f_equal String.length) in H. rewrite length_append in H.
  simpl in H. lia.
Qed.

Lemma noFaults_NoFaults : NoFaults noFaults.
Proof. intros ev. reflexivity. Qed.

(** ** Missing-field rejection *)

(** C9: [Init] with an empty domain name or an empty data directory returns
    a ConfigurationError and has no side effect: the world is unchanged and
    no collaborator is called, so no directory is created and no lock is
    acquired. *)
Theorem Init_missing_field env flt cfg w :
  AuthDomain cfg = "" \/ DataDir cfg = "" ->
  exists e,
    Init env flt cfg w = mkRun (Ret (None, None, Some e)) w [] /\
    kind_of e = ConfigurationError /\
    (e = Errorf "node name can not be empty" \/ e = Errorf "path can not be empty").
Proof.
  intros H. unfold Init.
  destruct (String.eqb_spec (AuthDomain cfg) "") as [Hd | Hd].
  - eexists. split; [reflexivity | split; [reflexivity | now left]].
  - destruct H as [H | H]; [contradiction |].
    rewrite H. simpl.
    eexists. split; [reflexivity | split; [reflexivity | now right]].
Qed.

Lemma Init_missing_field_witness :
  exists e,
    Init demoEnv noFaults
      (mkInitConfig "node1" "" "/var/lib/teleport" "" [] [] None None) emptyWorld
    = mkRun (Ret (None, None, Some e)) emptyWorld [] /\
    kind_of e = ConfigurationError /\
    (e = Errorf "node name can not be empty" \/ e = Errorf "path can not be empty").
Proof.
  apply (Init_missing_field demoEnv noFaults
           (mkInitConfig "node1" "" "/var/lib/teleport" "" [] [] None None) emptyWorld).
  left. reflexivity.
Defined.

(** ** Secret store *)

Lemma pathExists_eq path w :
  pathExists path w =
  mkRun (Ret match fs w !! path with
             | None => (false, None)
             | Some Denied => (false, Some (PathError "stat" path EACCES))
             | Some _ => (true, None)
             end) w [EvStat path].
Proof.
  unfold pathExists, bind, Stat, ret.
  destruct (fs w !! path) as [[| |]|]; reflexivity.
Qed.

Lemma ReadSecret_eq env dataDir w :
  ReadSecret env dataDir w =
  mkRun (Ret match read_node "open" (secretKeyPath dataDir) w with
             | (_, Some e) => (None, Some e)
             | (data, None) =>
                 match env_EncodedStringToKey env data with
                 | Ok key => secretNew env key
                 | Err e => (None, Some e)
                 end
             end) w [EvReadFile (secretKeyPath dataDir)].
Proof.
  unfold ReadSecret, bind, ReadFile, ret, EncodedStringToKey.
  destruct (read_node "open" (secretKeyPath dataDir) w) as [data [e|]]; simpl.
  - reflexivity.
  - destruct (env_EncodedStringToKey env data); reflexivity.
Qed.

(** With a node at the secret path, [InitSecret] only reads. *)
Lemma InitSecret_present env dataDir secretKey w :
  is_Some (fs w !! secretKeyPath dataDir) ->
  final (InitSecret env dataDir secretKey w) = w /\
  (forall secretKey',
     InitSecret env dataDir secretKey' w = InitSecret env dataDir secretKey w) /\
  (forall data perm,
     fs w !! secretKeyPath dataDir = Some (File data perm) ->
     InitSecret env dataDir secretKey w =
     mkRun (out (ReadSecret env dataDir w)) w
           [EvStat (secretKeyPath dataDir); EvReadFile (secretKeyPath dataDir)]).
Proof.
  intros [node Hn]. unfold InitSecret, bind. cbv zeta.
  rewrite !pathExists_eq, Hn.
  split; [| split].
  - destruct node; simpl; rewrite ?ReadSecret_eq; reflexivity.
  - intros k'. destruct node; reflexivity.
  - intros data perm [= ->]. simpl. rewrite ReadSecret_eq. reflexivity.
Qed.

(** A successful [InitSecret] leaves a decodable file behind, and the service
    it returns is the one built from that file. *)
Lemma InitSecret_ok env dataDir secretKey w s :
  out (InitSecret env dataDir secretKey w) = Ret (Some s, None) ->
  exists data perm key,
    fs (final (InitSecret env dataDir secretKey w)) !! secretKeyPath dataDir
      = Some (File data perm) /\
    env_EncodedStringToKey env data = Ok key /\
    env_secretNew env key = Ok s.
Proof.
  unfold InitSecret, bind. cbv zeta. rewrite pathExists_eq.
  destruct (fs w !! secretKeyPath dataDir) as [[data perm| |]|] eqn:Hn; simpl.
  - rewrite ReadSecret_eq. unfold read_node. rewrite Hn. simpl.
    destruct (env_EncodedStringToKey env data) as [key|] eqn:Hk; [| discriminate].
    unfold secretNew. destruct (env_secretNew env key) eqn:Hs; [| discriminate].
    intros [= <-]. eauto 6.
  - rewrite ReadSecret_eq. unfold read_node. rewrite Hn. discriminate.
  - discriminate.
  - destruct (String.eqb secretKey "").
    + unfold NewKey, ret. destruct (env_NewKey env (entropy w)) as [k|e]; simpl.
      * unfold WriteFile. simpl. rewrite Hn. simpl.
        rewrite ReadSecret_eq. unfold read_node. simpl.
        rewrite lookup_insert_eq. simpl.
        destruct (env_EncodedStringToKey env (KeyToEncodedString env k)) as [key|] eqn:Hk;
          [| discriminate].
        unfold secretNew. destruct (env_secretNew env key) eqn:Hs; [| discriminate].
        intros [= <-]. eauto 6.
      * discriminate.
    + unfold ret. simpl. unfold WriteFile. rewrite Hn. simpl.
      rewrite ReadSecret_eq. unfold read_node. simpl.
      rewrite lookup_insert_eq. simpl.
      destruct (env_EncodedStringToKey env secretKey) as [key|] eqn:Hk; [| discriminate].
      unfold secretNew. destruct (env_secretNew env key) eqn:Hs; [| discriminate].
      intros [= <-]. eauto 6.
Qed.

(** C7: once [InitSecret] has returned a sealing service, the secret file
    holds a key that decodes to the key material of that service;
    [ReadSecret] afterwards returns the same service and changes nothing;
    calling [InitSecret] again with any provided key changes nothing and
    returns the same service; and whatever sits at the secret path, a call
    of [InitSecret] leaves the whole persisted state as it was. *)
Theorem InitSecret_persistence env dataDir providedKey w s :
  out (InitSecret env dataDir providedKey w) = Ret (Some s, None) ->
  let w1 := final (InitSecret env dataDir providedKey w) in
  (exists data perm key,
     fs w1 !! secretKeyPath dataDir = Some (File data perm) /\
     env_EncodedStringToKey env data = Ok key /\
     env_secretNew env key = Ok s) /\
  ReadSecret env dataDir w1 =
    mkRun (Ret (Some s, None)) w1 [EvReadFile (secretKeyPath dataDir)] /\
  (forall otherKey,
     final (InitSecret env dataDir otherKey w1) = w1 /\
     out (InitSecret env dataDir otherKey w1) = Ret (Some s, None)) /\
  (forall w0 anyKey,
     is_Some (fs w0 !! secretKeyPath dataDir) ->
     final (InitSecret env dataDir anyKey w0) = w0).
Proof.
  intros Hok w1.
  destruct (InitSecret_ok _ _ _ _ _ Hok) as (data & perm & key & Hf & Hk & Hs).
  fold w1 in Hf.
  assert (Hread : ReadSecret env dataDir w1 =
                  mkRun (Ret (Some s, None)) w1 [EvReadFile (secretKeyPath dataDir)]).
  { rewrite ReadSecret_eq. unfold read_node. rewrite Hf, Hk.
    unfold secretNew. rewrite Hs. reflexivity. }
  split; [eauto 6 | split; [exact Hread | split]].
  - intros otherKey.
    destruct (InitSecret_present env dataDir otherKey w1) as (H1 & _ & H3);
      [rewrite Hf; eauto |].
    split; [exact H1 |].
    rewrite (H3 _ _ Hf), Hread. reflexivity.
  - intros w0 anyKey Hsome.
    apply (InitSecret_present env dataDir anyKey w0 Hsome).
Qed.

Lemma InitSecret_persistence_witness :
  let w1 := final (InitSecret demoEnv "" "" emptyWorld) in
  fs w1 !! "teleport.secret" = Some (File "enc:key" perm0600) /\
  ReadSecret demoEnv "" w1 =
    mkRun (Ret (Some (mkSecretService "key"), None)) w1 [EvReadFile "teleport.secret"] /\
  final (InitSecret demoEnv "" "enc:other" w1) = w1.
Proof.
  pose proof (InitSecret_persistence demoEnv "" "" emptyWorld (mkSecretService "key")
                eq_refl) as H.
  cbv zeta in H. destruct H as (_ & Hread & Hagain & _).
  split; [reflexivity | split; [exact Hread | apply Hagain]].
Defined.

(** C8: with no secret file, [ReadSecret] fails with a not-found error (the
    error of the failed open, for which os.IsNotExist holds), changes
    nothing and only tries to read the file. *)
Theorem ReadSecret_absent env dataDir w :
  fs w !! secretKeyPath dataDir = None ->
  exists e,
    ReadSecret env dataDir w =
      mkRun (Ret (None, Some e)) w [EvReadFile (secretKeyPath dataDir)] /\
    kind_of e = NotFoundKind /\
    IsNotExist e = true.
Proof.
  intros Hn. rewrite ReadSecret_eq. unfold read_node. rewrite Hn.
  eexists. split; [reflexivity | split; reflexivity].
Qed.

Lemma ReadSecret_absent_witness :
  exists e,
    ReadSecret demoEnv "/var/lib/teleport" emptyWorld =
      mkRun (Ret (None, Some e)) emptyWorld
            [EvReadFile (secretKeyPath "/var/lib/teleport")] /\
    kind_of e = NotFoundKind /\
    IsNotExist e = true.
Proof.
  apply (ReadSecret_absent demoEnv "/var/lib/teleport" emptyWorld).
  reflexivity.
Defined.

(** ** Node identity *)

(** One step of evaluating a program on a world: resolve a [match] whose
    scrutinee a hypothesis determines, then reduce. *)
Ltac run_step :=
  first
    [ rewrite pathExists_eq
    | match goal with
      | H : ?x = _ |- context [match ?x with _ => _ end] => rewrite H
      end
    | progress simpl ].

Ltac run := repeat run_step.

Lemma ReadKeys_eq env fqdn dataDir w :
  ReadKeys env fqdn dataDir w =
  match read_node "open" (keysPath fqdn dataDir).1 w with
  | (_, Some e) => mkRun (Ret (None, Some e)) w [EvReadPath (keysPath fqdn dataDir).1]
  | (key, None) =>
      mkRun (Ret match read_node "open" (keysPath fqdn dataDir).2 w with
                 | (_, Some e) => (None, Some e)
                 | (cert, None) => NewSigner env key cert
                 end) w
            [EvReadPath (keysPath fqdn dataDir).1; EvReadPath (keysPath fqdn dataDir).2]
  end.
Proof.
  unfold ReadKeys, bind, ReadPath, ret. simpl.
  destruct (read_node "open" _ w) as [key [e|]]; [reflexivity |].
  destruct (read_node "open" _ w) as [cert [e|]]; reflexivity.
Qed.

(** A successful [ReadKeys] found two regular files and built the signer
    from their bytes. *)
Lemma ReadKeys_ok env fqdn dataDir w signer :
  out (ReadKeys env fqdn dataDir w) = Ret (Some signer, None) ->
  exists k pk c pc,
    fs w !! (keysPath fqdn dataDir).1 = Some (File k pk) /\
    fs w !! (keysPath fqdn dataDir).2 = Some (File c pc) /\
    env_NewSigner env k c = Ok signer.
Proof.
  rewrite ReadKeys_eq. unfold read_node, NewSigner.
  destruct (fs w !! (keysPath fqdn dataDir).1) as [[k pk| |]|]; try discriminate.
  destruct (fs w !! (keysPath fqdn dataDir).2) as [[c pc| |]|]; try discriminate.
  simpl. destruct (env_NewSigner env k c) eqn:Hs; [| discriminate].
  intros [= <-]. eauto 8.
Qed.

Lemma ReadKeys_files env fqdn dataDir w k pk c pc :
  fs w !! (keysPath fqdn dataDir).1 = Some (File k pk) ->
  fs w !! (keysPath fqdn dataDir).2 = Some (File c pc) ->
  ReadKeys env fqdn dataDir w =
  mkRun (Ret (NewSigner env k c)) w
        [EvReadPath (keysPath fqdn dataDir).1; EvReadPath (keysPath fqdn dataDir).2].
Proof.
  intros Hk Hc. rewrite ReadKeys_eq. unfold read_node. rewrite Hk, Hc. reflexivity.
Qed.

Lemma ReadKeys_final env fqdn dataDir w :
  final (ReadKeys env fqdn dataDir w) = w.
Proof.
  rewrite ReadKeys_eq. destruct (read_node _ _ w) as [? [?|]]; reflexivity.
Qed.

Lemma ReadKeys_trace_ok env fqdn dataDir w signer :
  out (ReadKeys env fqdn dataDir w) = Ret (Some signer, None) ->
  trace (ReadKeys env fqdn dataDir w) =
  [EvReadPath (keysPath fqdn dataDir).1; EvReadPath (keysPath fqdn dataDir).2].
Proof.
  rewrite ReadKeys_eq. destruct (read_node _ _ w) as [? [?|]]; [discriminate | reflexivity].
Qed.

(** What a successful [writeKeys] leaves on disk. *)
Lemma writeKeys_ok fqdn dataDir key cert w :
  writable (fs w !! (keysPath fqdn dataDir).1) ->
  writable (fs w !! (keysPath fqdn dataDir).2) ->
  exists pk pc w',
    writeKeys fqdn dataDir key cert w =
      mkRun (Ret None) w'
            [EvWriteFile (keysPath fqdn dataDir).1 key perm0600;
             EvWriteFile (keysPath fqdn dataDir).2 cert perm0600] /\
    w' = set_fs (<[(keysPath fqdn dataDir).2 := File cert pc]>
                   (<[(keysPath fqdn dataDir).1 := File key pk]> (fs w))) w /\
    (fs w !! (keysPath fqdn dataDir).1 = None -> pk = perm0600) /\
    (fs w !! (keysPath fqdn dataDir).2 = None -> pc = perm0600) /\
    (forall d p, fs w !! (keysPath fqdn dataDir).1 = Some (File d p) -> pk = p) /\
    (forall d p, fs w !! (keysPath fqdn dataDir).2 = Some (File d p) -> pc = p).
Proof.
  pose proof (keysPath_distinct fqdn dataDir) as Hne.
  unfold writeKeys, bind, WriteFile, ret. simpl in *.
  intros [Hk | (dk & pk & Hk)] [Hc | (dc & pc & Hc)]; rewrite Hk; simpl;
    rewrite lookup_insert_ne by exact Hne; rewrite Hc; simpl.
  - exists perm0600, perm0600. eexists.
    repeat split; try reflexivity; intros; discriminate.
  - exists perm0600, pc. eexists.
    repeat split; try reflexivity; intros; congruence.
  - exists pk, perm0600. eexists.
    repeat split; try reflexivity; intros; congruence.
  - exists pk, pc. eexists.
    repeat split; try reflexivity; intros; congruence.
Qed.

(** Case analysis on the innermost scrutinee of the goal. *)
Ltac inner_case :=
  match goal with
  | |- context [match ?x with _ => _ end] =>
      lazymatch x with
      | context [match _ with _ => _ end] => fail
      | _ => destruct x eqn:?
      end
  end.

Lemma ReadKeys_run env fqdn dataDir w o w' t :
  ReadKeys env fqdn dataDir w = mkRun o w' t ->
  w' = w /\ (exists res, o = Ret res) /\
  Forall (fun e => isProv e = false /\ isInitKeys e = false) t.
Proof.
  rewrite ReadKeys_eq.
  destruct (read_node _ _ w) as [? [?|]]; intros [= <- <- <-];
    (split; [reflexivity | split; [eauto |]]); repeat constructor.
Qed.

(** [exists t0, a :: b :: ... :: T = t0 ++ T]. *)
Ltac split_tail :=
  solve
    [ exists []; reflexivity
    | match goal with
      | |- exists t0, ?a :: ?l = (t0 ++ ?T)%list =>
          let H := fresh in
          let t1 := fresh in
          assert (H : exists t0, l = (t0 ++ T)%list) by split_tail;
          destruct H as [t1 H]; exists (a :: t1); simpl; rewrite <- H; reflexivity
      end ].

(** [Forall P (a :: b :: ... :: T)] from [Forall P T] or for a closed list. *)
Ltac quiet_tail :=
  repeat first [ assumption
               | constructor; [split; reflexivity |]
               | constructor ].

Lemma InitKeys_run env flt fqdn dataDir w o w' t :
  InitKeys env flt fqdn dataDir w = mkRun o w' t ->
  (exists res, o = Ret res) /\
  same_backend w w' /\
  (forall q, q <> (keysPath fqdn dataDir).1 -> q <> (keysPath fqdn dataDir).2 ->
     fs w' !! q = fs w !! q) /\
  (exists t', t = EvInitKeys fqdn dataDir :: t' /\
              Forall (fun e => isProv e = false /\ isInitKeys e = false) t') /\
  (forall osig, o = Ret (osig, None) ->
     out (ReadKeys env fqdn dataDir w') = Ret (osig, None) /\
     exists t0, t = (t0 ++ trace (ReadKeys env fqdn dataDir w'))%list).
Proof.
  unfold InitKeys, bind, ret, writeKeys, bind, ret, keysPath.
  cbn [fst snd].
  set (kp := Join dataDir (fqdn ++ ".key")).
  set (cp := Join dataDir (fqdn ++ ".cert")).
  unfold GenerateKeyPair, GenerateHostCert, WriteFile.
  repeat first [rewrite pathExists_eq | progress cbn beta iota | inner_case].
  all: intros [= <- <- <-].
  all: try match goal with
           | H : ReadKeys _ _ _ _ = _ |- _ =>
               let Hq := fresh in
               pose proof (ReadKeys_run _ _ _ _ _ _ _ H) as (-> & [? ->] & Hq);
               rewrite H
           end.
  all: split; [eauto |].
  all: split; [repeat split; reflexivity |].
  all: split; [intros q Hq1 Hq2; simpl;
               rewrite ?lookup_insert_ne by congruence; reflexivity |].
  all: split; [eexists; split; [reflexivity |]; simpl; quiet_tail |].
  all: intros osig Ho;
    first [ discriminate Ho
          | injection Ho as ->; simpl; split; [reflexivity | split_tail] ].
Qed.

(** With both files in place [InitKeys] only reads them. *)
Lemma InitKeys_present env flt fqdn dataDir w k pk c pc :
  fqdn <> "" ->
  fs w !! (keysPath fqdn dataDir).1 = Some (File k pk) ->
  fs w !! (keysPath fqdn dataDir).2 = Some (File c pc) ->
  InitKeys env flt fqdn dataDir w =
  mkRun (Ret (NewSigner env k c)) w
        [EvInitKeys fqdn dataDir;
         EvStat (keysPath fqdn dataDir).1; EvStat (keysPath fqdn dataDir).2;
         EvReadPath (keysPath fqdn dataDir).1; EvReadPath (keysPath fqdn dataDir).2].
Proof.
  intros Hfqdn Hk Hc.
  pose proof (ReadKeys_files env fqdn dataDir w k pk c pc Hk Hc) as Hrd.
  unfold InitKeys, bind, ret.
  destruct (String.eqb_spec fqdn "") as [|_]; [contradiction |].
  unfold keysPath in *. cbn [fst snd] in *.
  run. reflexivity.
Qed.

(** C6, amended: for a non-empty domain name, with [kp] and [cp] the key
    and certificate paths of [keysPath]:
    (1) when a file is missing and the collaborators deliver, [InitKeys]
        generates a key pair, requests a host certificate for principal and
        issuer [fqdn] with validity 0, writes both files passing mode 0600
        and reads them back; a file it created has mode 0600, a file that
        was there keeps the mode it had;
    (2) when both files are there it generates and writes nothing;
    (3) a signer it returns is the one built from the bytes that are on disk
        when it returns, read as the last two calls. *)
Theorem InitKeys_spec env flt fqdn dataDir w :
  fqdn <> "" ->
  let kp := (keysPath fqdn dataDir).1 in
  let cp := (keysPath fqdn dataDir).2 in
  let r := InitKeys env flt fqdn dataDir w in
  (forall k pub c ca,
     fs w !! kp = None \/ fs w !! cp = None ->
     writable (fs w !! kp) -> writable (fs w !! cp) ->
     env_GenerateKeyPair env "" (entropy w) = Ok (k, pub) ->
     flt (EvGenerateHostCert pub fqdn fqdn 0) = None ->
     hostCA w = Some ca ->
     env_SignHostCert env ca pub fqdn fqdn 0 = Ok c ->
     out r = Ret (NewSigner env k c) /\
     trace r = [EvInitKeys fqdn dataDir; EvStat kp; EvStat cp;
                EvGenerateKeyPair ""; EvGenerateHostCert pub fqdn fqdn 0;
                EvWriteFile kp k perm0600; EvWriteFile cp c perm0600;
                EvReadPath kp; EvReadPath cp] /\
     exists pk pc,
       final r = draw (set_fs (<[cp := File c pc]> (<[kp := File k pk]> (fs w))) w) /\
       (fs w !! kp = None -> pk = perm0600) /\
       (fs w !! cp = None -> pc = perm0600) /\
       (forall d p, fs w !! kp = Some (File d p) -> pk = p) /\
       (forall d p, fs w !! cp = Some (File d p) -> pc = p)) /\
  (forall k pk c pc,
     fs w !! kp = Some (File k pk) -> fs w !! cp = Some (File c pc) ->
     r = mkRun (Ret (NewSigner env k c)) w
               [EvInitKeys fqdn dataDir; EvStat kp; EvStat cp;
                EvReadPath kp; EvReadPath cp]) /\
  (forall signer,
     out r = Ret (Some signer, None) ->
     exists k pk c pc,
       fs (final r) !! kp = Some (File k pk) /\
       fs (final r) !! cp = Some (File c pc) /\
       env_NewSigner env k c = Ok signer /\
       exists t, trace r = (t ++ [EvReadPath kp; EvReadPath cp])%list).
Proof.
  intros Hfqdn kp cp r.
  assert (Hne : kp <> cp) by apply keysPath_distinct.
  split; [| split].
  - intros k pub c ca Hmiss Hwk Hwc Hgen Hflt Hca Hsign.
    destruct (writeKeys_ok fqdn dataDir k c (draw w) Hwk Hwc)
      as (pk & pc & w' & Hw & -> & Hpk & Hpc & Hqk & Hqc).
    fold kp cp in Hw, Hpk, Hpc, Hqk, Hqc. simpl in Hpk, Hpc, Hqk, Hqc.
    assert (Hrd := ReadKeys_files env fqdn dataDir
              (set_fs (<[cp:=File c pc]> (<[kp:=File k pk]> (fs (draw w)))) (draw w))
              k pk c pc).
    fold kp cp in Hrd. simpl in Hrd.
    rewrite lookup_insert_ne, lookup_insert_eq in Hrd by congruence.
    rewrite lookup_insert_eq in Hrd.
    specialize (Hrd eq_refl eq_refl).
    subst r. unfold InitKeys, bind, ret.
    destruct (String.eqb_spec fqdn "") as [|_]; [contradiction |].
    unfold keysPath in *. cbn [fst snd] in *. subst kp cp.
    set (kp := Join dataDir (fqdn ++ ".key")) in *.
    set (cp := Join dataDir (fqdn ++ ".cert")) in *.
    rewrite !pathExists_eq.
    assert (Hex : negb match fs w !! kp with Some (File _ _) => true | _ => false end
                  || negb match fs w !! cp with Some (File _ _) => true | _ => false end
                  = true).
    { destruct Hmiss as [-> | ->]; [reflexivity | apply orb_true_r]. }
    unfold GenerateKeyPair, GenerateHostCert.
    destruct Hwk as [Hk | (dk & pk0 & Hk)], Hwc as [Hc | (dc & pc0 & Hc)];
      rewrite Hk, Hc in *; simpl in Hex; try discriminate; run.
    all: (split; [reflexivity | split; [reflexivity |]]).
    all: exists pk, pc; split; [reflexivity | repeat split; assumption].
  - intros k pk c pc Hk Hc. subst r.
    apply (InitKeys_present env flt fqdn dataDir w k pk c pc Hfqdn Hk Hc).
  - intros signer Hok.
    destruct r as [o w' t] eqn:Hr. subst r. simpl in Hok. subst o.
    destruct (InitKeys_run _ _ _ _ _ _ _ _ Hr) as (_ & _ & _ & _ & Hrd).
    destruct (Hrd _ eq_refl) as (Hout & t0 & Ht).
    destruct (ReadKeys_ok _ _ _ _ _ Hout) as (k & pk & c & pc & Hk & Hc & Hs).
    rewrite (ReadKeys_trace_ok _ _ _ _ _ Hout) in Ht.
    simpl. exists k, pk, c, pc. repeat split; try assumption.
    exists t0. exact Ht.
Qed.

(** C6, as written, fails where the key file is there with mode 0644 and
    the certificate is missing: [InitKeys] succeeds and the new private key
    is in a file that still has mode 0644. *)
Lemma persists_owner_only_counterexample :
  ~ persists_owner_only demoEnv noFaults "node1" "/var/lib/teleport" staleKeyWorld.
Proof.
  intros H.
  destruct (H ltac:(discriminate) ltac:(right; reflexivity)
              (mkSigner "priv" "cert:pub:node1:capriv"))
    as (k & c & Hk & _); [vm_compute; reflexivity |].
  assert (Hfile :
    fs (final (InitKeys demoEnv noFaults "node1" "/var/lib/teleport" staleKeyWorld))
    !! (keysPath "node1" "/var/lib/teleport").1 = Some (File "priv" perm0644))
    by (vm_compute; reflexivity).
  rewrite Hfile in Hk. discriminate Hk.
Qed.

Lemma InitKeys_spec_witness :
  let w := mkWorld ∅ ∅ (Some (mkCA "capub" "capriv")) None ∅ [] 0 in
  let r := InitKeys demoEnv noFaults "node1" "/var/lib/teleport" w in
  out r = Ret (Some (mkSigner "priv" "cert:pub:node1:capriv"), None) /\
  fs (final r) !! "/var/lib/teleport/node1.key" = Some (File "priv" perm0600) /\
  fs (final r) !! "/var/lib/teleport/node1.cert"
    = Some (File "cert:pub:node1:capriv" perm0600).
Proof.
  intros w r.
  assert (Hne : "node1" <> "") by discriminate.
  destruct (InitKeys_spec demoEnv noFaults "node1" "/var/lib/teleport" w Hne)
    as (Hgen & _ & _).
  destruct (Hgen "priv" "pub" "cert:pub:node1:capriv" (mkCA "capub" "capriv"))
    as (Hout & _ & pk & pc & Hfin & Hpk & Hpc & _);
    try reflexivity; try (left; reflexivity).
  subst r. rewrite Hout, Hfin. simpl.
  rewrite (Hpk eq_refl), (Hpc eq_refl).
  split; [reflexivity | split; reflexivity].
Defined.

(** ** Summaries of the blocks of [Init] *)


#[local] Arguments secretKeyPath : simpl never.
#[local] Arguments keysPath : simpl never.

(** Symbolic evaluation: rewrite with the equations of the helpers and the
    facts at hand, reduce, and split on what remains undetermined. *)
Ltac exec_step :=
  first
    [ rewrite pathExists_eq
    | rewrite ReadSecret_eq
    | rewrite lookup_insert_eq
    | progress unfold read_node, secretNew, EncodedStringToKey
    | match goal with
      | H : ?x = _ |- context [match ?x with _ => _ end] => rewrite H
      end
    | progress simpl
    | inner_case ].

Ltac exec := repeat exec_step.

Lemma InitSecret_run env dataDir secretKey w o w' t :
  InitSecret env dataDir secretKey w = mkRun o w' t ->
  (exists res, o = Ret res) /\
  same_backend w w' /\
  (forall q, q <> secretKeyPath dataDir -> fs w' !! q = fs w !! q) /\
  Forall quiet t /\
  (forall oscrt, o = Ret (oscrt, None) ->
     exists s data perm key,
       oscrt = Some s /\
       fs w' !! secretKeyPath dataDir = Some (File data perm) /\
       env_EncodedStringToKey env data = Ok key /\
       env_secretNew env key = Ok s).
Proof.
  unfold InitSecret, bind, ret, NewKey, WriteFile. cbv zeta.
  exec.
  all: intros [= <- <- <-].
  all: split; [eauto |].
  all: split; [repeat split; reflexivity |].
  all: split; [intros q Hq; simpl; rewrite ?lookup_insert_ne by congruence;
               reflexivity |].
  all: split; [repeat (constructor; [split; reflexivity |]); constructor |].
  all: intros oscrt Ho;
    first [ discriminate Ho
          | injection Ho as <-; do 4 eexists; simpl; rewrite ?lookup_insert_eq;
            eauto ].
Qed.


Ltac quiet_list := repeat (constructor; [split; reflexivity |]); constructor.

Lemma hostCABlock_run env flt cfg err b w o w' t :
  hostCABlock env flt cfg err b w = mkRun o w' t ->
  (exists c, o = Ret c) /\
  fs w' = fs w /\ locks w' = locks w /\ userCA w' = userCA w /\
  tokens w' = tokens w /\ remoteCerts w' = remoteCerts w /\
  Forall quiet t /\
  (forall b', o = Ret (Next b') ->
     is_Some (hostCA w') /\
     b' = match hostCA w with Some _ => b | None => true end) /\
  (forall r, o = Ret (Return_ r) -> exists oe, r = (None, None, oe)) /\
  (is_Some (hostCA w) -> w' = w).
Proof.
  unfold hostCABlock, bind, ret, GetHostCAPub, UpsertHostCA, ResetHostCA.
  exec.
  all: intros [= <- <- <-].
  all: split; [eauto |].
  all: do 5 (split; [reflexivity |]).
  all: split; [quiet_list |].
  all: split; [intros b' Ho;
               first [ discriminate Ho
                     | injection Ho as <-; simpl; split; [eauto | reflexivity] ] |].
  all: split; [intros r Ho;
               first [discriminate Ho | injection Ho as <-; eauto] |].
  all: intros [ca Hca]; first [reflexivity | congruence | discriminate].
Qed.

Lemma userCABlock_run env flt cfg err b w o w' t :
  userCABlock env flt cfg err b w = mkRun o w' t ->
  fs w' = fs w /\ locks w' = locks w /\ hostCA w' = hostCA w /\
  tokens w' = tokens w /\ remoteCerts w' = remoteCerts w /\
  Forall quiet t /\
  (forall b', o = Ret (Next b') ->
     is_Some (userCA w') /\
     b' = match userCA w with Some _ => b | None => true end) /\
  (forall r, o = Ret (Return_ r) -> exists oe, r = (None, None, oe)) /\
  (is_Some (userCA w) -> w' = w /\ exists c, o = Ret c).
Proof.
  unfold userCABlock, bind, ret, panic, GetUserCAPub, UpsertUserCA, ResetUserCA.
  exec.
  all: intros [= <- <- <-].
  all: do 5 (split; [reflexivity |]).
  all: split; [quiet_list |].
  all: split; [intros b' Ho;
               first [ discriminate Ho
                     | injection Ho as <-; simpl; split; [eauto | reflexivity] ] |].
  all: split; [intros r Ho;
               first [discriminate Ho | injection Ho as <-; eauto] |].
  all: intros [ca Hca];
    first [ solve [split; [reflexivity | eauto]] | congruence | discriminate ].
Qed.

(** The token loop: every call is a provisioning call; it touches only the
    token store; an entry of the store afterwards is an old one or comes
    from an entry the loop decoded; it falls through only after decoding and
    upserting every entry; it stops at the first entry that fails. *)
Lemma tokensLoop_run env flt scrt toks w o w' t :
  tokensLoop env flt scrt toks w = mkRun o w' t ->
  fs w' = fs w /\ locks w' = locks w /\ hostCA w' = hostCA w /\
  userCA w' = userCA w /\ remoteCerts w' = remoteCerts w /\
  entropy w' = entropy w /\
  Forall (fun e => isInitKeys e = false) t /\
  (forall r, o = Ret (Return_ r) -> exists oe, r = (None, None, oe)) /\
  (o = Ret (Next tt) ->
   forall fqdn tok, In (fqdn, tok) toks ->
     exists s pid, scrt = Some s /\ env_DecodeSID env tok s = Ok pid /\
                   In (EvUpsertToken pid fqdn (600 * Second)) t) /\
  (forall pre fqdn tok post,
     toks = (pre ++ (fqdn, tok) :: post)%list ->
     (forall s, scrt = Some s -> exists e, env_DecodeSID env tok s = Err e) ->
     o <> Ret (Next tt) /\
     forall id v, tokens w' !! id = Some v ->
       tokens w !! id = Some v \/
       exists f' tok' s, In (f', tok') pre /\ scrt = Some s /\
                         env_DecodeSID env tok' s = Ok id /\
                         v = (f', 600 * Second)).
Proof.
  revert w o w' t. induction toks as [| [fqdn token] rest IH]; intros w o w' t.
  - simpl. unfold ret. intros [= <- <- <-].
    do 6 (split; [reflexivity |]).
    split; [constructor |].
    split; [intros r [=] |].
    split; [intros _ f tk [] |].
    intros pre f tk post Hpre. destruct pre; discriminate Hpre.
  - simpl. unfold bind, ret, DecodeSID, UpsertToken.
    exec; intros [= <- <- <-].
    + do 6 (split; [reflexivity |]).
      split; [repeat constructor |].
      split; [intros r [= <-]; eauto |].
      split; [discriminate |].
      intros pre f tk post _ _. split; [discriminate | intros id v Hv; now left].
    + destruct (IH _ _ _ _ Heqr0)
        as (F1 & F2 & F3 & F4 & F5 & F6 & F7 & F8 & F9 & F10).
      do 6 (split; [assumption |]).
      split; [repeat (constructor; [reflexivity |]); assumption |].
      split; [assumption |].
      split.
      * intros Ho f tk [[= <- <-] | Hin].
        -- exists s, a. split; [reflexivity | split; [assumption |]].
           right. left. reflexivity.
        -- destruct (F9 Ho f tk Hin) as (s1 & pid & Hs & Hd & Hi).
           exists s1, pid. split; [assumption | split; [assumption |]].
           right. right. assumption.
      * intros pre f tk post Hpre Hbad.
        destruct pre as [| [f0 t0] pre'].
        -- injection Hpre as <- <- _. destruct (Hbad s eq_refl) as [e He].
           congruence.
        -- injection Hpre as <- <- Hrest.
           destruct (F10 pre' f tk post Hrest Hbad) as [Hn Hst].
           split; [assumption |].
           intros id v Hv. destruct (Hst id v Hv) as [Hold | (f' & tok' & s1 & Hin & Hs & Hd & Hv')].
           ++ simpl in Hold. destruct (decide (a = id)) as [<- | Hne].
              ** rewrite lookup_insert_eq in Hold. injection Hold as <-.
                 right. exists fqdn, token, s.
                 split; [left; reflexivity | auto].
              ** rewrite lookup_insert_ne in Hold by assumption. now left.
           ++ right. exists f', tok', s1. split; [right; assumption | auto].
    + do 6 (split; [reflexivity |]).
      split; [repeat constructor |].
      split; [intros r [= <-]; eauto |].
      split; [discriminate |].
      intros pre f tk post _ _. split; [discriminate | intros id v Hv; now left].
    + do 6 (split; [reflexivity |]).
      split; [repeat constructor |].
      split; [discriminate |].
      split; [discriminate |].
      intros pre f tk post _ _. split; [discriminate | intros id v Hv; now left].
Qed.

Lemma certsLoop_run env flt certs w o w' t :
  certsLoop env flt certs w = mkRun o w' t ->
  fs w' = fs w /\ locks w' = locks w /\ hostCA w' = hostCA w /\
  userCA w' = userCA w /\ tokens w' = tokens w /\ entropy w' = entropy w /\
  Forall (fun e => isInitKeys e = false) t /\
  (forall r, o = Ret (Return_ r) -> exists oe, r = (None, None, oe)) /\
  (o = Ret (Next tt) ->
   forall cert, In cert certs -> In (EvUpsertRemoteCert cert 0) t).
Proof.
  revert w o w' t. induction certs as [| cert rest IH]; intros w o w' t.
  - simpl. unfold ret. intros [= <- <- <-].
    do 6 (split; [reflexivity |]).
    split; [constructor |].
    split; [intros r [=] |].
    intros _ c [].
  - simpl. unfold bind, ret, UpsertRemoteCert.
    exec; intros [= <- <- <-].
    + do 6 (split; [reflexivity |]).
      split; [repeat constructor |].
      split; [intros r [= <-]; eauto |].
      discriminate.
    + destruct (IH _ _ _ _ Heqr) as (F1 & F2 & F3 & F4 & F5 & F6 & F7 & F8 & F9).
      do 6 (split; [assumption |]).
      split; [constructor; [reflexivity | assumption] |].
      split; [assumption |].
      intros Ho c [<- | Hin]; [left; reflexivity | right; auto].
Qed.

Lemma tokens_guard env flt scrt (toks : list (string * string)) :
  (if negb (length toks =? 0)%nat then tokensLoop env flt scrt toks else ret (Next tt))
  = tokensLoop env flt scrt toks.
Proof. destruct toks as [| [? ?] ?]; reflexivity. Qed.

Lemma certs_guard env flt (certs : list RemoteCert) :
  (if negb (length certs =? 0)%nat then certsLoop env flt certs else ret (Next tt))
  = certsLoop env flt certs.
Proof. destruct certs; reflexivity. Qed.

(** The provisioner: with the flag unset it does nothing; with the flag set
    it runs the two loops in order. *)
Lemma provisionBlock_run env flt cfg scrt b w o w' t :
  provisionBlock env flt cfg scrt b w = mkRun o w' t ->
  fs w' = fs w /\ locks w' = locks w /\ hostCA w' = hostCA w /\
  userCA w' = userCA w /\ entropy w' = entropy w /\
  Forall (fun e => isInitKeys e = false) t /\
  (forall r, o = Ret (Return_ r) -> exists oe, r = (None, None, oe)) /\
  (b = false -> o = Ret (Next tt) /\ w' = w /\ t = []) /\
  (b = true -> o = Ret (Next tt) ->
   (forall fqdn tok, In (fqdn, tok) (AllowedTokens cfg) ->
      exists s pid, scrt = Some s /\ env_DecodeSID env tok s = Ok pid /\
                    In (EvUpsertToken pid fqdn (600 * Second)) t) /\
   (forall cert, In cert (TrustedAuthorities cfg) ->
      In (EvUpsertRemoteCert cert 0) t)) /\
  (forall pre fqdn tok post,
     b = true ->
     AllowedTokens cfg = (pre ++ (fqdn, tok) :: post)%list ->
     (forall s, scrt = Some s -> exists e, env_DecodeSID env tok s = Err e) ->
     o <> Ret (Next tt) /\
     forall id v, tokens w' !! id = Some v ->
       tokens w !! id = Some v \/
       exists f' tok' s, In (f', tok') pre /\ scrt = Some s /\
                         env_DecodeSID env tok' s = Ok id /\
                         v = (f', 600 * Second)).
Proof.
  unfold provisionBlock. destruct b.
  - rewrite tokens_guard, certs_guard. unfold bind.
    destruct (tokensLoop env flt scrt (AllowedTokens cfg) w) as [o1 w1 t1] eqn:H1.
    destruct (tokensLoop_run _ _ _ _ _ _ _ _ H1)
      as (F1 & F2 & F3 & F4 & F5 & F6 & F7 & F8 & F9 & F10).
    destruct o1 as [[[] | r] | msg].
    + destruct (certsLoop env flt (TrustedAuthorities cfg) w1) as [o2 w2 t2] eqn:H2.
      destruct (certsLoop_run _ _ _ _ _ _ _ H2)
        as (G1 & G2 & G3 & G4 & G5 & G6 & G7 & G8 & G9).
      intros [= <- <- <-].
      split; [congruence |]. split; [congruence |]. split; [congruence |].
      split; [congruence |]. split; [congruence |].
      split; [apply Forall_app; split; assumption |].
      split; [assumption |].
      split; [discriminate |].
      split.
      * intros _ Ho. split.
        -- intros f tk Hin. destruct (F9 eq_refl f tk Hin) as (s & pid & ? & ? & ?).
           exists s, pid. split; [assumption | split; [assumption |]].
           apply in_or_app. now left.
        -- intros c Hin. apply in_or_app. right. auto.
      * intros pre f tk post _ Hpre Hbad.
        destruct (F10 pre f tk post Hpre Hbad) as [Hn _]. congruence.
    + unfold ret. intros [= <- <- <-].
      do 5 (split; [assumption |]).
      split; [rewrite app_nil_r; assumption |].
      split; [intros r0 [= <-]; eauto |].
      split; [discriminate |].
      split; [discriminate |].
      intros pre f tk post _ Hpre Hbad.
      destruct (F10 pre f tk post Hpre Hbad) as [_ Hst].
      split; [discriminate | exact Hst].
    + intros [= <- <- <-].
      do 5 (split; [assumption |]).
      split; [assumption |].
      split; [discriminate |].
      split; [discriminate |].
      split; [discriminate |].
      intros pre f tk post _ Hpre Hbad.
      destruct (F10 pre f tk post Hpre Hbad) as [_ Hst].
      split; [discriminate | exact Hst].
  - unfold ret. intros [= <- <- <-].
    do 5 (split; [reflexivity |]).
    split; [constructor |].
    split; [discriminate |].
    split; [auto |].
    split; [discriminate |].
    discriminate.
Qed.

(** ** Runs of [Init] *)

Lemma criticalSection_cs_run env flt cfg w :
  cs_run env flt cfg w (out (criticalSection env flt cfg w))
         (final (criticalSection env flt cfg w))
         (trace (criticalSection env flt cfg w)).
Proof.
  unfold criticalSection, bind, ret.
  destruct (InitSecret env (DataDir cfg) (SecretKey cfg) w) as [o1 w1 t1] eqn:H1.
  destruct (InitSecret_run _ _ _ _ _ _ _ H1) as ([[scrt err] ->] & _).
  destruct err as [e |]; simpl.
  { rewrite app_nil_r. eapply cs_secret; eassumption. }
  destruct (hostCABlock env flt cfg None false w1) as [o2 w2 t2] eqn:H2.
  destruct (hostCABlock_run _ _ _ _ _ _ _ _ _ H2) as ([c2 ->] & _).
  destruct c2 as [b1 | r]; simpl.
  2:{ rewrite app_nil_r. eapply cs_host; try eassumption. left. eauto. }
  destruct (userCABlock env flt cfg None b1 w2) as [o3 w3 t3] eqn:H3.
  destruct o3 as [[b2 | r] | msg]; simpl.
  2:{ rewrite app_nil_r. eapply cs_user; try eassumption. left. eauto. }
  2:{ eapply cs_user; try eassumption. right. eauto. }
  destruct (provisionBlock env flt cfg scrt b2 w3) as [o4 w4 t4] eqn:H4.
  destruct o4 as [[[] | r] | msg]; simpl.
  2:{ rewrite app_nil_r. eapply cs_prov; try eassumption. left. eauto. }
  2:{ eapply cs_prov; try eassumption. right. eauto. }
  destruct (InitKeys env flt (FQDN cfg) (DataDir cfg) w4) as [o5 w5 t5] eqn:H5.
  destruct (InitKeys_run _ _ _ _ _ _ _ _ H5) as ([[osig err] ->] & _).
  pose proof (cs_keys env flt cfg w _ _ _ _ _ _ _ _ _ _ _ _ _ _ H1 H2 H3 H4 H5) as Hk.
  destruct err as [e |]; simpl in *; rewrite ?app_nil_r; exact Hk.
Qed.

Lemma Init_init_run env flt cfg w :
  init_run env flt cfg w (out (Init env flt cfg w)) (final (Init env flt cfg w))
           (trace (Init env flt cfg w)).
Proof.
  unfold Init.
  destruct (String.eqb_spec (AuthDomain cfg) "") as [Hd | Hd].
  { apply init_no_domain. assumption. }
  destruct (String.eqb_spec (DataDir cfg) "") as [Hp | Hp].
  { apply init_no_dir; assumption. }
  unfold bind, ret, defer.
  destruct (MkdirAll (DataDir cfg) (Z.lor ModeDir perm0777) w) as [o1 w1 t1] eqn:H1.
  assert (exists oe, o1 = Ret oe) as [oe ->].
  { revert H1. unfold MkdirAll. destruct (mkdirChain _ _) as [m err].
    intros [= <- _ _]. eauto. }
  destruct oe as [e |]; simpl.
  { rewrite app_nil_r. eapply init_mkdir; eassumption. }
  destruct (AcquireLock flt (AuthDomain cfg) (60 * Second) w1) as [o2 w2 t2] eqn:H2.
  assert (exists oe, o2 = Ret oe) as [oe ->].
  { revert H2. unfold AcquireLock.
    destruct (flt _); [| destruct (decide _)]; intros [= <- _ _]; eauto. }
  destruct oe as [e |]; simpl.
  { rewrite app_nil_r. eapply init_lock; eassumption. }
  pose proof (criticalSection_cs_run env flt cfg w2) as Hcs.
  destruct (criticalSection env flt cfg w2) as [o3 w3 t3].
  destruct (ReleaseLock flt (AuthDomain cfg) w3) as [o4 w4 t4] eqn:H4.
  simpl in *. eapply init_locked; eassumption.
Qed.

Lemma set_fs_id (w : World) : set_fs (fs w) w = w.
Proof. destruct w. reflexivity. Qed.

Lemma mkdirChain_spec chain m m' oe :
  mkdirChain chain m = (m', oe) ->
  (forall q, m' !! q = m !! q \/
             (m !! q = None /\ m' !! q = Some Dir /\ In q chain)) /\
  (forall p up, chain = p :: up -> oe = None -> m' !! p = Some Dir) /\
  (forall p up, chain = p :: up -> m !! p = Some Dir -> m' = m /\ oe = None).
Proof.
  revert m' oe. induction chain as [| p up IH]; intros m' oe.
  - simpl. intros [= <- <-].
    split; [intros q; now left |]. split; intros p up [=].
  - simpl.
    destruct (mkdirChain up m) as [m1 oe1] eqn:Hup.
    destruct (IH _ _ eq_refl) as (F1 & _).
    assert (Hslow :
      match oe1 with
      | Some e => (m1, Some e)
      | None =>
          match m1 !! p with
          | Some (File _ _) => (m1, Some (PathError "mkdir" p ENOTDIR))
          | Some Dir => (m1, None)
          | Some Denied => (m1, Some (PathError "mkdir" p EACCES))
          | None => (<[p:=Dir]> m1, None)
          end
      end = (m', oe) ->
      m !! p <> Some Dir ->
      (forall q, m' !! q = m !! q \/
                 (m !! q = None /\ m' !! q = Some Dir /\ In q (p :: up))) /\
      (oe = None -> m' !! p = Some Dir)).
    { intros Hrun Hnd. destruct oe1 as [e |].
      - injection Hrun as <- <-. split; [| discriminate].
        intros q. destruct (F1 q) as [Hq | (Hq1 & Hq2 & Hq3)];
          [now left | right; repeat split; try assumption; now right].
      - destruct (m1 !! p) as [[? ? | |] |] eqn:Hp; injection Hrun as <- <-.
        + split; [| discriminate].
          intros q. destruct (F1 q) as [Hq | (Hq1 & Hq2 & Hq3)];
            [now left | right; repeat split; try assumption; now right].
        + split; [| intros _; exact Hp].
          intros q. destruct (F1 q) as [Hq | (Hq1 & Hq2 & Hq3)];
            [now left | right; repeat split; try assumption; now right].
        + split; [| discriminate].
          intros q. destruct (F1 q) as [Hq | (Hq1 & Hq2 & Hq3)];
            [now left | right; repeat split; try assumption; now right].
        + split; [| intros _; apply lookup_insert_eq].
          intros q. destruct (decide (q = p)) as [-> | Hne].
          * rewrite lookup_insert_eq.
            destruct (F1 p) as [Hq | (Hq1 & Hq2 & Hq3)]; [| congruence].
            right. rewrite <- Hq, Hp. repeat split. now left.
          * rewrite lookup_insert_ne by congruence.
            destruct (F1 q) as [Hq | (Hq1 & Hq2 & Hq3)];
              [now left | right; repeat split; try assumption; now right]. }
    destruct (m !! p) as [[d pm | |] |] eqn:Hmp.
    + intros [= <- <-]. split; [intros q; now left |].
      split; [intros p0 up0 _ [=] |].
      intros p0 up0 [= <- _] Hd. congruence.
    + intros [= <- <-]. split; [intros q; now left |].
      split; [intros p0 up0 [= <- _] _; exact Hmp |].
      intros p0 up0 _ _. split; reflexivity.
    + intros Hrun. destruct (Hslow Hrun ltac:(discriminate)) as [G1 G2].
      split; [exact G1 |].
      split; [intros p0 up0 [= <- _]; exact G2 |].
      intros p0 up0 [= <- _] Hd. congruence.
    + intros Hrun. destruct (Hslow Hrun ltac:(discriminate)) as [G1 G2].
      split; [exact G1 |].
      split; [intros p0 up0 [= <- _]; exact G2 |].
      intros p0 up0 [= <- _] Hd. congruence.
Qed.

Lemma dirsOf_head path : exists up, dirsOf path = path :: up.
Proof. unfold dirsOf. destruct (String.length path); simpl; eauto. Qed.

Lemma MkdirAll_run path perm w o w' t :
  MkdirAll path perm w = mkRun o w' t ->
  t = [EvMkdirAll path perm] /\
  same_backend w w' /\ entropy w' = entropy w /\
  (forall q, fs w' !! q = fs w !! q \/
             (fs w !! q = None /\ fs w' !! q = Some Dir /\ In q (dirsOf path))) /\
  (o = Ret None -> fs w' !! path = Some Dir) /\
  (fs w !! path = Some Dir -> w' = w /\ o = Ret None).
Proof.
  unfold MkdirAll.
  destruct (mkdirChain (dirsOf path) (fs w)) as [m err] eqn:Hm.
  destruct (mkdirChain_spec _ _ _ _ Hm) as (F1 & F2 & F3).
  destruct (dirsOf_head path) as [up Hup].
  intros [= <- <- <-].
  split; [reflexivity |]. split; [repeat split; reflexivity |].
  split; [reflexivity |]. split; [exact F1 |].
  split.
  - intros [= ->]. apply (F2 _ _ Hup eq_refl).
  - intros Hd. destruct (F3 _ _ Hup Hd) as [-> ->].
    split; [apply set_fs_id | reflexivity].
Qed.

Lemma MkdirAll_Dir path perm w :
  fs w !! path = Some Dir ->
  MkdirAll path perm w = mkRun (Ret None) w [EvMkdirAll path perm].
Proof.
  intros Hd. destruct (MkdirAll path perm w) as [o w' t] eqn:Hr.
  destruct (MkdirAll_run _ _ _ _ _ _ Hr) as (-> & _ & _ & _ & _ & M6).
  destruct (M6 Hd) as [-> ->]. reflexivity.
Qed.

Lemma AcquireLock_run flt name timeout w o w' t :
  AcquireLock flt name timeout w = mkRun o w' t ->
  t = [EvAcquireLock name timeout] /\
  fs w' = fs w /\ hostCA w' = hostCA w /\ userCA w' = userCA w /\
  tokens w' = tokens w /\ remoteCerts w' = remoteCerts w /\
  entropy w' = entropy w /\
  (o = Ret None ->
   (name ∉ locks w) /\ w' = set_locks (locks w ∪ {[name]}) w) /\
  (flt (EvAcquireLock name timeout) = None -> name ∉ locks w -> o = Ret None).
Proof.
  unfold AcquireLock.
  destruct (flt (EvAcquireLock name timeout)) eqn:Hf;
    [| destruct (decide (name ∈ locks w)) as [Hin | Hin]];
    intros [= <- <- <-];
    (split; [reflexivity |]); do 6 (split; [reflexivity |]);
    (split; [intros Ho; first [discriminate Ho | split; [assumption | reflexivity]] |]);
    intros H1 H2; first [discriminate H1 | contradiction | reflexivity].
Qed.

Lemma ReleaseLock_run flt name w o w' t :
  ReleaseLock flt name w = mkRun o w' t ->
  t = [EvReleaseLock name] /\
  fs w' = fs w /\ hostCA w' = hostCA w /\ userCA w' = userCA w /\
  tokens w' = tokens w /\ remoteCerts w' = remoteCerts w /\
  entropy w' = entropy w /\
  (flt (EvReleaseLock name) = None -> w' = set_locks (locks w ∖ {[name]}) w).
Proof.
  unfold ReleaseLock.
  destruct (flt (EvReleaseLock name)) eqn:Hf; intros [= <- <- <-];
    (split; [reflexivity |]); do 6 (split; [reflexivity |]);
    intros H; first [discriminate H | reflexivity].
Qed.

(** ** First-start gate *)



(** ** What a successful run leaves behind *)

Lemma InitKeys_empty env flt dataDir w :
  InitKeys env flt "" dataDir w =
  mkRun (Ret (None, Some (Errorf "fqdn can not be empty"))) w [EvInitKeys "" dataDir].
Proof. reflexivity. Qed.

Lemma stopped_not_success {A} (o : Outcome (Ctl Result A)) o' asrv osig :
  stopped o o' ->
  (forall r, o = Ret (Return_ r) -> exists oe, r = (None, None, oe)) ->
  o' <> Ret (Some asrv, osig, None).
Proof.
  intros [(r & -> & ->) | (msg & -> & ->)] Hr; [| discriminate].
  destruct (Hr r eq_refl) as [oe ->]. discriminate.
Qed.

(** The state a successful critical section leaves: a decodable secret
    file, both CAs, and the two key files the signer was built from. *)
Lemma cs_run_success env flt cfg w o w' t asrv signer :
  cs_run env flt cfg w o w' t ->
  o = Ret (Some asrv, Some signer, None) ->
  locks w' = locks w /\
  (forall q, q <> secretKeyPath (DataDir cfg) ->
             q <> (keysPath (FQDN cfg) (DataDir cfg)).1 ->
             q <> (keysPath (FQDN cfg) (DataDir cfg)).2 ->
             fs w' !! q = fs w !! q) /\
  (exists scrt data perm key,
     asrv = mkAuthServer (Some scrt) /\
     fs w' !! secretKeyPath (DataDir cfg) = Some (File data perm) /\
     env_EncodedStringToKey env data = Ok key /\
     env_secretNew env key = Ok scrt) /\
  is_Some (hostCA w') /\ is_Some (userCA w') /\
  FQDN cfg <> "" /\
  (exists k pk c pc,
     fs w' !! (keysPath (FQDN cfg) (DataDir cfg)).1 = Some (File k pk) /\
     fs w' !! (keysPath (FQDN cfg) (DataDir cfg)).2 = Some (File c pc) /\
     env_NewSigner env k c = Ok signer).
Proof.
  intros Hrun Ho.
  destruct Hrun as
    [ oscrt e w1 t1 H1
    | scrt w1 t1 o2 w2 t2 o H1 H2 Hs
    | scrt w1 t1 b1 w2 t2 o3 w3 t3 o H1 H2 H3 Hs
    | scrt w1 t1 b1 w2 t2 b2 w3 t3 o4 w4 t4 o H1 H2 H3 H4 Hs
    | scrt w1 t1 b1 w2 t2 b2 w3 t3 w4 t4 o5 w5 t5 H1 H2 H3 H4 H5 ].
  - discriminate.
  - exfalso. eapply stopped_not_success; [exact Hs | | exact Ho].
    apply (hostCABlock_run _ _ _ _ _ _ _ _ _ H2).
  - exfalso. eapply stopped_not_success; [exact Hs | | exact Ho].
    apply (userCABlock_run _ _ _ _ _ _ _ _ _ H3).
  - exfalso. eapply stopped_not_success; [exact Hs | | exact Ho].
    apply (provisionBlock_run _ _ _ _ _ _ _ _ _ H4).
  - destruct (InitSecret_run _ _ _ _ _ _ _ H1)
      as (_ & (S1 & S2 & S3 & S4 & S5) & S6 & _ & S7).
    destruct (hostCABlock_run _ _ _ _ _ _ _ _ _ H2)
      as (_ & A1 & A2 & A3 & A4 & A5 & _ & A7 & _).
    destruct (userCABlock_run _ _ _ _ _ _ _ _ _ H3)
      as (B1 & B2 & B3 & B4 & B5 & _ & B7 & _).
    destruct (provisionBlock_run _ _ _ _ _ _ _ _ _ H4)
      as (C1 & C2 & C3 & C4 & _).
    destruct (InitKeys_run _ _ _ _ _ _ _ _ H5)
      as (_ & (D1 & D2 & D3 & D4 & D5) & D6 & _ & D7).
    destruct o5 as [[osig [e |]] | msg]; try discriminate.
    injection Ho as <- ->.
    destruct (S7 _ eq_refl) as (s & data & perm & key & -> & Sf & Sk & Sn).
    destruct (D7 _ eq_refl) as (Hout & _).
    destruct (ReadKeys_ok _ _ _ _ _ Hout) as (k & pk & c & pc & Hk & Hc & Hsig).
    split; [congruence |].
    split.
    { intros q Q1 Q2 Q3. rewrite D6, C1, B1, A1 by assumption. apply S6, Q1. }
    split.
    { exists s, data, perm, key. split; [reflexivity |].
      split; [| split; assumption].
      rewrite D6, C1, B1, A1; [assumption | |].
      - apply secretKeyPath_not_key.
      - apply secretKeyPath_not_cert. }
    split. { rewrite D2, C3, B3. apply (A7 _ eq_refl). }
    split. { rewrite D3, C4. apply (B7 _ eq_refl). }
    split.
    { intros Hf. rewrite Hf, InitKeys_empty in H5. discriminate. }
    eauto 8.
Qed.

Lemma Init_success env flt cfg w asrv signer :
  out (Init env flt cfg w) = Ret (Some asrv, Some signer, None) ->
  bootstrapped env cfg asrv signer (final (Init env flt cfg w)) /\
  (flt (EvReleaseLock (AuthDomain cfg)) = None ->
   AuthDomain cfg ∉ locks (final (Init env flt cfg w))).
Proof.
  intros Ho.
  destruct (Init_init_run env flt cfg w) as
    [ Hd | Hd Hp | e w1 t1 Hd Hp H1 | w1 t1 e w2 t2 Hd Hp H1 H2
    | w1 t1 w2 t2 o w3 t3 orel w4 t4 Hd Hp H1 H2 Hcs H4 ]; try discriminate.
  subst o.
  destruct (MkdirAll_run _ _ _ _ _ _ H1) as (_ & _ & _ & _ & M5 & _).
  destruct (AcquireLock_run _ _ _ _ _ _ _ H2) as (_ & L1 & _ & _ & _ & _ & _ & L7 & _).
  destruct (L7 eq_refl) as [Lnot ->].
  destruct (ReleaseLock_run _ _ _ _ _ _ H4) as (_ & R1 & R2 & R3 & _ & _ & _ & R7).
  destruct (cs_run_success _ _ _ _ _ _ _ _ _ Hcs eq_refl)
    as (K1 & K2 & K3 & K4 & K5 & K6 & K7).
  split.
  - unfold bootstrapped. rewrite R1, R2, R3.
    split; [assumption |]. split; [assumption |]. split; [assumption |].
    split.
    { rewrite K2.
      - simpl. apply M5. reflexivity.
      - intros H. symmetry in H. revert H. apply Join_not_dir. assumption.
      - intros H. symmetry in H. revert H. apply Join_not_dir. assumption.
      - intros H. symmetry in H. revert H. apply Join_not_dir. assumption. }
    repeat split; assumption.
  - intros Hf. rewrite (R7 Hf). simpl.
    intros [_ Hn]%elem_of_difference. apply Hn, elem_of_singleton. reflexivity.
Qed.

Lemma release_acquired (w : World) (name : string) :
  name ∉ locks w ->
  set_locks (locks (set_locks (locks w ∪ {[name]}) w) ∖ {[name]})
            (set_locks (locks w ∪ {[name]}) w) = w.
Proof.
  intros Hn. destruct w as [f l h u tk rc en]. unfold set_locks. simpl in *.
  f_equal. apply set_eq. intros x.
  rewrite elem_of_difference, elem_of_union, elem_of_singleton.
  split; [intros [[H | H] Hx]; [exact H | contradiction] |].
  intros H. split; [left; exact H |]. intros ->. contradiction.
Qed.

(** From a bootstrapped state, [Init] only reads: it returns the same auth
    server and signer and leaves the state as it is. *)
Lemma Init_steady env flt cfg asrv signer w :
  bootstrapped env cfg asrv signer w ->
  AuthDomain cfg ∉ locks w ->
  NoFaults flt ->
  Init env flt cfg w =
  mkRun (Ret (Some asrv, Some signer, None)) w
        [EvMkdirAll (DataDir cfg) (Z.lor ModeDir perm0777);
         EvAcquireLock (AuthDomain cfg) (60 * Second);
         EvStat (secretKeyPath (DataDir cfg));
         EvReadFile (secretKeyPath (DataDir cfg));
         EvGetHostCAPub; EvGetUserCAPub;
         EvInitKeys (FQDN cfg) (DataDir cfg);
         EvStat (keysPath (FQDN cfg) (DataDir cfg)).1;
         EvStat (keysPath (FQDN cfg) (DataDir cfg)).2;
         EvReadPath (keysPath (FQDN cfg) (DataDir cfg)).1;
         EvReadPath (keysPath (FQDN cfg) (DataDir cfg)).2;
         EvReleaseLock (AuthDomain cfg)].
Proof.
  intros (Hd & Hp & Hf & Hdir & (scrt & data & perm & key & -> & Hs & Hk & Hn)
          & [hca Hh] & [uca Hu] & (k & pk & c & pc & Hkp & Hcp & Hsig)) Hlock Hflt.
  pose proof (InitKeys_present env flt (FQDN cfg) (DataDir cfg)
                (set_locks (locks w ∪ {[AuthDomain cfg]}) w) k pk c pc
                Hf Hkp Hcp) as Hkeys.
  destruct (InitSecret_present env (DataDir cfg) (SecretKey cfg)
              (set_locks (locks w ∪ {[AuthDomain cfg]}) w)) as (_ & _ & Hsec).
  { simpl. rewrite Hs. eauto. }
  specialize (Hsec data perm Hs). rewrite ReadSecret_eq in Hsec.
  unfold read_node in Hsec. simpl in Hsec. rewrite Hs, Hk in Hsec.
  unfold secretNew in Hsec. rewrite Hn in Hsec. simpl in Hsec.
  unfold Init.
  destruct (String.eqb_spec (AuthDomain cfg) "") as [| _]; [contradiction |].
  destruct (String.eqb_spec (DataDir cfg) "") as [| _]; [contradiction |].
  unfold bind, defer, ret.
  rewrite (MkdirAll_Dir _ _ _ Hdir).
  unfold AcquireLock, ReleaseLock. rewrite !Hflt.
  destruct (decide (AuthDomain cfg ∈ locks w)) as [| _]; [contradiction |].
  unfold criticalSection, bind, ret.
  rewrite Hsec.
  unfold hostCABlock, userCABlock, bind, ret, GetHostCAPub, GetUserCAPub.
  rewrite !Hflt. simpl. rewrite Hh. simpl. rewrite Hu. simpl.
  rewrite Hkeys. unfold NewSigner. rewrite Hsig. simpl.
  f_equal. apply (release_acquired w (AuthDomain cfg)). assumption.
Qed.


Lemma quiet_no_keys (l : list Event) :
  Forall quiet l -> Forall (fun e => isInitKeys e = false) l.
Proof. intros H. eapply Forall_impl; [exact H |]. intros e [_ He]. exact He. Qed.

(** The flag the provisioner receives, in terms of the backend at the start
    of the critical section. *)
Lemma firstStart_flag env flt cfg w scrt w1 t1 b1 w2 t2 b2 w3 t3 :
  InitSecret env (DataDir cfg) (SecretKey cfg) w = mkRun (Ret (scrt, None)) w1 t1 ->
  hostCABlock env flt cfg None false w1 = mkRun (Ret (Next b1)) w2 t2 ->
  userCABlock env flt cfg None b1 w2 = mkRun (Ret (Next b2)) w3 t3 ->
  b2 = match hostCA w, userCA w with Some _, Some _ => false | _, _ => true end.
Proof.
  intros H1 H2 H3.
  destruct (InitSecret_run _ _ _ _ _ _ _ H1) as (_ & (_ & S2 & S3 & _) & _).
  destruct (hostCABlock_run _ _ _ _ _ _ _ _ _ H2) as (_ & _ & _ & A3 & _ & _ & _ & A7 & _).
  destruct (userCABlock_run _ _ _ _ _ _ _ _ _ H3) as (_ & _ & _ & _ & _ & _ & B7 & _).
  destruct (A7 _ eq_refl) as [_ ->]. destruct (B7 _ eq_refl) as [_ ->].
  rewrite A3, S2, S3. destruct (hostCA w), (userCA w); reflexivity.
Qed.





(** ** Idempotence *)

(** C1, as written, fails: with a token that does not decode the first run
    aborts after it has created both CAs, and the second run, which finds
    them, succeeds. *)
Lemma idempotent_bootstrap_counterexample :
  ~ idempotent_bootstrap demoEnv noFaults badTokenCfg emptyWorld.
Proof.
  intros ((asrv & signer & H) & _). vm_compute in H. discriminate H.
Qed.

Lemma Init_bad_token_then_success :
  let r1 := Init demoEnv noFaults badTokenCfg emptyWorld in
  out r1 = Ret (None, None, Some (TraceErr (CollabError "malformed token"))) /\
  succeeded (Init demoEnv noFaults badTokenCfg (final r1)).
Proof.
  split; [vm_compute; reflexivity |].
  do 2 eexists. vm_compute. reflexivity.
Qed.

(** C1, amended: when a run of [Init] succeeds and releases its lock, a
    second run on the state it left, with no collaborator failure, returns
    the same auth server and the same signer, leaves the whole persisted
    state (both CAs, every file, the random source) exactly as it was, and
    makes no call that generates or writes key material, a CA or a
    secret. *)
Theorem Init_idempotent env flt1 flt2 cfg w asrv signer :
  out (Init env flt1 cfg w) = Ret (Some asrv, Some signer, None) ->
  flt1 (EvReleaseLock (AuthDomain cfg)) = None ->
  NoFaults flt2 ->
  let w1 := final (Init env flt1 cfg w) in
  let r2 := Init env flt2 cfg w1 in
  out r2 = Ret (Some asrv, Some signer, None) /\
  final r2 = w1 /\
  is_Some (hostCA w1) /\ is_Some (userCA w1) /\
  Forall (fun e => isGeneration e = false) (trace r2).
Proof.
  intros Ho Hrel Hflt w1 r2.
  destruct (Init_success _ _ _ _ _ _ Ho) as [Hb Hl].
  specialize (Hl Hrel). fold w1 in Hb, Hl.
  pose proof (Init_steady env flt2 cfg asrv signer w1 Hb Hl Hflt) as Hst.
  destruct Hb as (_ & _ & _ & _ & _ & Hh & Hu & _).
  subst r2. rewrite Hst. simpl.
  repeat split; try assumption.
  repeat (constructor; [reflexivity |]). constructor.
Qed.

Lemma Init_idempotent_witness :
  let w1 := final (Init demoEnv noFaults demoCfg emptyWorld) in
  let r2 := Init demoEnv noFaults demoCfg w1 in
  out r2 = Ret (Some (mkAuthServer (Some (mkSecretService "key"))),
                Some (mkSigner "priviii" "cert:pubiii:node1:caprivi"), None) /\
  final r2 = w1.
Proof.
  intros w1 r2.
  destruct (Init_idempotent demoEnv noFaults noFaults demoCfg emptyWorld
              (mkAuthServer (Some (mkSecretService "key")))
              (mkSigner "priviii" "cert:pubiii:node1:caprivi"))
    as (Hout & Hfin & _).
  - vm_compute. reflexivity.
  - reflexivity.
  - exact noFaults_NoFaults.
  - split; assumption.
Defined.

(** ** Token decode failure *)

(** *** Runs that nothing stops *)

Lemma locked_csStart flt cfg w w1 t1 w2 t2 :
  MkdirAll (DataDir cfg) (Z.lor ModeDir perm0777) w = mkRun (Ret None) w1 t1 ->
  AcquireLock flt (AuthDomain cfg) (60 * Second) w1 = mkRun (Ret None) w2 t2 ->
  w2 = csStart cfg w.
Proof.
  intros H1 H2.
  destruct (AcquireLock_run _ _ _ _ _ _ _ H2) as (_ & _ & _ & _ & _ & _ & _ & L8 & _).
  destruct (L8 eq_refl) as [_ ->]. unfold csStart. rewrite H1. reflexivity.
Qed.

Lemma runSecret_Some env cfg w s :
  runSecret env cfg w = Some s <->
  out (InitSecret env (DataDir cfg) (SecretKey cfg) (csStart cfg w))
  = Ret (Some s, None).
Proof.
  unfold runSecret.
  destruct (out (InitSecret env (DataDir cfg) (SecretKey cfg) (csStart cfg w)))
    as [[[s' |] [e |]] | msg]; split; intros H; try discriminate H.
  - injection H as ->. reflexivity.
  - injection H as ->. reflexivity.
Qed.

(** With the directory made, the lock free and no failure of the lock
    service, [Init] is its critical section between acquire and release. *)
Lemma Init_unobstructed env flt cfg w :
  AuthDomain cfg <> "" -> DataDir cfg <> "" ->
  out (MkdirAll (DataDir cfg) (Z.lor ModeDir perm0777) w) = Ret None ->
  AuthDomain cfg ∉ locks w ->
  flt (EvAcquireLock (AuthDomain cfg) (60 * Second)) = None ->
  exists o w3 t3 orel w4 t4,
    cs_run env flt cfg (csStart cfg w) o w3 t3 /\
    ReleaseLock flt (AuthDomain cfg) w3 = mkRun orel w4 t4 /\
    Init env flt cfg w =
    mkRun o w4 (EvMkdirAll (DataDir cfg) (Z.lor ModeDir perm0777)
                :: EvAcquireLock (AuthDomain cfg) (60 * Second)
                :: t3 ++ t4).
Proof.
  intros Hd Hp Hmk Hfree Hflt.
  pose proof (Init_init_run env flt cfg w) as Hrun.
  destruct (Init env flt cfg w) as [o0 w0 t0]. simpl in Hrun.
  destruct Hrun as
    [ Hd' | Hd' Hp' | e w1 t1 Hd' Hp' H1 | w1 t1 e w2 t2 Hd' Hp' H1 H2
    | w1 t1 w2 t2 o w3 t3 orel w4 t4 Hd' Hp' H1 H2 Hcs H4 ].
  - contradiction.
  - contradiction.
  - rewrite H1 in Hmk. discriminate Hmk.
  - exfalso.
    destruct (MkdirAll_run _ _ _ _ _ _ H1) as (_ & (M1 & _) & _).
    destruct (AcquireLock_run _ _ _ _ _ _ _ H2) as (_ & _ & _ & _ & _ & _ & _ & _ & L9).
    rewrite M1 in L9. specialize (L9 Hflt Hfree). discriminate L9.
  - pose proof (locked_csStart _ _ _ _ _ _ _ H1 H2) as ->.
    destruct (MkdirAll_run _ _ _ _ _ _ H1) as (-> & _).
    destruct (AcquireLock_run _ _ _ _ _ _ _ H2) as (-> & _).
    exists o, w3, t3, orel, w4, t4. repeat split; assumption.
Qed.

Lemma hostCABlock_ok env flt cfg err b w :
  NoFaults flt ->
  (forall ty n, exists ca, env_GenerateCA env ty "" n = Ok ca) ->
  exists b' w' t, hostCABlock env flt cfg err b w = mkRun (Ret (Next b')) w' t.
Proof.
  intros Hflt Hgen.
  unfold hostCABlock, bind, ret, GetHostCAPub, UpsertHostCA, ResetHostCA.
  rewrite !Hflt.
  destruct (hostCA w) as [ca |]; simpl; [eauto |].
  destruct (HostCA cfg) as [h |]; simpl; rewrite ?Hflt; simpl.
  - eauto.
  - destruct (Hgen HostCAType (entropy w)) as [ca ->]. simpl. eauto.
Qed.

Lemma userCABlock_ok env flt cfg err b w :
  NoFaults flt ->
  (forall ty n, exists ca, env_GenerateCA env ty "" n = Ok ca) ->
  (userCA w = None -> is_Some (HostCA cfg) -> is_Some (UserCA cfg)) ->
  exists b' w' t, userCABlock env flt cfg err b w = mkRun (Ret (Next b')) w' t.
Proof.
  intros Hflt Hgen Hnil.
  unfold userCABlock, bind, ret, panic, GetUserCAPub, UpsertUserCA, ResetUserCA.
  rewrite !Hflt.
  destruct (userCA w) as [ca |]; simpl; [eauto |].
  destruct (HostCA cfg) as [h |]; simpl.
  - destruct (Hnil eq_refl ltac:(eauto)) as [u ->]. rewrite ?Hflt. simpl. eauto.
  - rewrite ?Hflt. simpl.
    destruct (Hgen UserCAType (entropy w)) as [ca ->]. simpl. eauto.
Qed.





Lemma not_stopped_Next {A} (a : A) (o : Outcome Result) :
  ~ stopped (Ret (Next (R := Result) a)) o.
Proof. intros [(r & Hr & _) | (m & Hm & _)]; discriminate. Qed.

(** A critical section that nothing stops gets to the provisioner with
    both CAs in place. *)
Lemma cs_run_to_prov env flt cfg w o w' t s :
  cs_run env flt cfg w o w' t ->
  NoFaults flt ->
  out (InitSecret env (DataDir cfg) (SecretKey cfg) w) = Ret (Some s, None) ->
  (forall ty n, exists ca, env_GenerateCA env ty "" n = Ok ca) ->
  (userCA w = None -> is_Some (HostCA cfg) -> is_Some (UserCA cfg)) ->
  exists w1 t1 b1 w2 t2 b2 w3 t3 o4 w4 t4,
    InitSecret env (DataDir cfg) (SecretKey cfg) w = mkRun (Ret (Some s, None)) w1 t1 /\
    hostCABlock env flt cfg None false w1 = mkRun (Ret (Next b1)) w2 t2 /\
    userCABlock env flt cfg None b1 w2 = mkRun (Ret (Next b2)) w3 t3 /\
    provisionBlock env flt cfg (Some s) b2 w3 = mkRun o4 w4 t4 /\
    ((stopped o4 o /\ w' = w4 /\ t = (t1 ++ t2 ++ t3 ++ t4)%list) \/
     (o4 = Ret (Next tt) /\
      exists o5 t5,
        InitKeys env flt (FQDN cfg) (DataDir cfg) w4 = mkRun o5 w' t5 /\
        o = finish (Some s) o5 /\ t = (t1 ++ t2 ++ t3 ++ t4 ++ t5)%list)).
Proof.
  intros Hrun Hflt Hsec Hgen Hnil.
  destruct Hrun as
    [ oscrt e w1 t1 H1
    | scrt w1 t1 o2 w2 t2 o H1 H2 Hs
    | scrt w1 t1 b1 w2 t2 o3 w3 t3 o H1 H2 H3 Hs
    | scrt w1 t1 b1 w2 t2 b2 w3 t3 o4 w4 t4 o H1 H2 H3 H4 Hs
    | scrt w1 t1 b1 w2 t2 b2 w3 t3 w4 t4 o5 w5 t5 H1 H2 H3 H4 H5 ].
  all: rewrite H1 in Hsec; simpl in Hsec; try discriminate Hsec.
  all: injection Hsec as ->.
  all: destruct (InitSecret_run _ _ _ _ _ _ _ H1) as (_ & (_ & _ & S3 & _) & _).
  - exfalso.
    destruct (hostCABlock_ok env flt cfg None false w1 Hflt Hgen) as (b & v & u & E).
    rewrite E in H2. injection H2 as <- _ _. exact (not_stopped_Next _ _ Hs).
  - exfalso.
    destruct (hostCABlock_run _ _ _ _ _ _ _ _ _ H2) as (_ & _ & _ & A3 & _).
    destruct (userCABlock_ok env flt cfg None b1 w2 Hflt Hgen) as (b & v & u & E).
    { rewrite A3, S3. exact Hnil. }
    rewrite E in H3. injection H3 as <- _ _. exact (not_stopped_Next _ _ Hs).
  - exists w1, t1, b1, w2, t2, b2, w3, t3, o4, w4, t4.
    repeat (split; [assumption |]). left. repeat split. assumption.
  - exists w1, t1, b1, w2, t2, b2, w3, t3, (Ret (Next tt)), w4, t4.
    repeat (split; [assumption |]). right. split; [reflexivity |].
    exists o5, t5. repeat split. assumption.
Qed.


(** *** A token that does not decode *)

Lemma cs_run_bad_token env flt cfg w o w' t pre fqdn tok post :
  cs_run env flt cfg w o w' t ->
  hostCA w = None \/ userCA w = None ->
  AllowedTokens cfg = (pre ++ (fqdn, tok) :: post)%list ->
  (forall s, out (InitSecret env (DataDir cfg) (SecretKey cfg) w) = Ret (Some s, None) ->
             exists e, env_DecodeSID env tok s = Err e) ->
  Forall (fun e => isInitKeys e = false) t /\
  (forall asrv osig, o <> Ret (Some asrv, osig, None)) /\
  (forall id v, tokens w' !! id = Some v ->
     tokens w !! id = Some v \/
     exists f' tok' s,
       In (f', tok') pre /\
       out (InitSecret env (DataDir cfg) (SecretKey cfg) w) = Ret (Some s, None) /\
       env_DecodeSID env tok' s = Ok id /\
       v = (f', 600 * Second)).
Proof.
  intros Hrun Habs Hpre Hbad.
  destruct Hrun as
    [ oscrt e w1 t1 H1
    | scrt w1 t1 o2 w2 t2 o H1 H2 Hs
    | scrt w1 t1 b1 w2 t2 o3 w3 t3 o H1 H2 H3 Hs
    | scrt w1 t1 b1 w2 t2 b2 w3 t3 o4 w4 t4 o H1 H2 H3 H4 Hs
    | scrt w1 t1 b1 w2 t2 b2 w3 t3 w4 t4 o5 w5 t5 H1 H2 H3 H4 H5 ].
  all: rewrite H1 in Hbad; cbn [out] in Hbad.
  all: destruct (InitSecret_run _ _ _ _ _ _ _ H1)
         as (_ & (_ & _ & _ & S4 & _) & _ & S6%quiet_no_keys & _).
  all: try (destruct (hostCABlock_run _ _ _ _ _ _ _ _ _ H2)
              as (_ & _ & _ & _ & A4 & _ & A6%quiet_no_keys & _ & A8 & _)).
  all: try (destruct (userCABlock_run _ _ _ _ _ _ _ _ _ H3)
              as (_ & _ & _ & B4 & _ & B6%quiet_no_keys & _ & B8 & _)).
  2-5: assert (Hbad' : forall s, scrt = Some s ->
                        exists e, env_DecodeSID env tok s = Err e)
         by (intros s0 ->; apply Hbad; reflexivity).
  - split; [assumption |]. split; [discriminate |].
    intros id v Hv. left. congruence.
  - split; [apply Forall_app; split; assumption |].
    split; [intros a s0; eapply stopped_not_success; eassumption |].
    intros id v Hv. left. congruence.
  - split; [rewrite !Forall_app; repeat split; assumption |].
    split; [intros a s0; eapply stopped_not_success; eassumption |].
    intros id v Hv. left. congruence.
  - pose proof (firstStart_flag _ _ _ _ _ _ _ _ _ _ _ _ _ H1 H2 H3) as Hb.
    assert (Hb2 : b2 = true).
    { rewrite Hb. destruct Habs as [-> | ->]; [reflexivity |].
      destruct (hostCA w); reflexivity. }
    destruct (provisionBlock_run _ _ _ _ _ _ _ _ _ H4)
      as (_ & _ & _ & _ & _ & C6 & C7 & _ & _ & C10).
    destruct (C10 pre fqdn tok post Hb2 Hpre Hbad') as [_ Hst].
    split; [rewrite !Forall_app; repeat split; assumption |].
    split; [intros a s0; eapply stopped_not_success; eassumption |].
    intros id v Hv.
    destruct (Hst id v Hv) as [Hold | (f' & tok' & s & Hin & -> & Hd & Hv')].
    + left. congruence.
    + right. exists f', tok', s. rewrite H1. repeat split; assumption.
  - exfalso.
    pose proof (firstStart_flag _ _ _ _ _ _ _ _ _ _ _ _ _ H1 H2 H3) as Hb.
    assert (Hb2 : b2 = true).
    { rewrite Hb. destruct Habs as [-> | ->]; [reflexivity |].
      destruct (hostCA w); reflexivity. }
    destruct (provisionBlock_run _ _ _ _ _ _ _ _ _ H4)
      as (_ & _ & _ & _ & _ & _ & _ & _ & _ & C10).
    destruct (C10 pre fqdn tok post Hb2 Hpre Hbad') as [Hn _]. congruence.
Qed.

(** The loop stops at the first token that does not decode, with the
    tokens before it in the store. *)
Lemma tokensLoop_bad env flt s pre fqdn tok post e w :
  NoFaults flt ->
  (forall f tk, In (f, tk) pre -> exists pid, env_DecodeSID env tk s = Ok pid) ->
  env_DecodeSID env tok s = Err e ->
  exists w' t,
    tokensLoop env flt (Some s) (pre ++ (fqdn, tok) :: post) w
    = mkRun (Ret (Return_ (None, None, Some (TraceErr e)))) w' t /\
    (forall id v, tokens w !! id = Some v ->
       tokens w' !! id = Some v \/
       exists f' tok', In (f', tok') pre /\ env_DecodeSID env tok' s = Ok id /\
                       tokens w' !! id = Some (f', 600 * Second)) /\
    (forall f tk, In (f, tk) pre ->
       exists pid f' tok',
         env_DecodeSID env tk s = Ok pid /\
         In (f', tok') pre /\ env_DecodeSID env tok' s = Ok pid /\
         tokens w' !! pid = Some (f', 600 * Second)).
Proof.
  intros Hflt. revert w. induction pre as [| [f0 t0] pre IH]; intros w Hdec Hbad.
  - exists w, [EvDecodeSID tok]. split; [| split].
    + simpl. unfold bind, ret, DecodeSID. rewrite Hbad. reflexivity.
    + intros id v Hv. now left.
    + intros f tk [].
  - destruct (Hdec f0 t0 (or_introl eq_refl)) as [pid Hpid].
    destruct (IH (set_tokens (<[pid := (f0, 600 * Second)]> (tokens w)) w))
      as (w' & t & E & Hkeep & Hnew); [| exact Hbad |].
    { intros f tk Hin. apply (Hdec f tk). right. exact Hin. }
    exists w', (EvDecodeSID t0 :: EvUpsertToken pid f0 (600 * Second) :: t).
    assert (Hpid' : exists f' tok',
               In (f', tok') ((f0, t0) :: pre) /\
               env_DecodeSID env tok' s = Ok pid /\
               tokens w' !! pid = Some (f', 600 * Second)).
    { destruct (Hkeep pid (f0, 600 * Second)) as [Hv | (f' & tok' & Hin & Hd & Hv)].
      - simpl. apply lookup_insert_eq.
      - exists f0, t0. split; [left; reflexivity | split; assumption].
      - exists f', tok'. split; [right; assumption | split; assumption]. }
    split; [| split].
    + simpl. unfold bind, ret, DecodeSID, UpsertToken.
      rewrite Hpid. simpl. rewrite Hflt. simpl.
      change (tokensLoop env flt (Some s) (pre ++ (fqdn, tok) :: post))
        with (tokensLoop env flt (Some s) (pre ++ (fqdn, tok) :: post)).
      rewrite E. reflexivity.
    + intros id v Hv. destruct (decide (pid = id)) as [<- | Hne].
      * right. exact Hpid'.
      * destruct (Hkeep id v) as [Hold | (f' & tok' & Hin & Hd & Hst)].
        -- simpl. rewrite lookup_insert_ne by assumption. exact Hv.
        -- now left.
        -- right. exists f', tok'. split; [right; assumption | split; assumption].
    + intros f tk [[= <- <-] | Hin].
      * destruct Hpid' as (f' & tok' & Hin & Hd & Hst).
        exists pid, f', tok'. repeat split; assumption.
      * destruct (Hnew f tk Hin) as (pid1 & f' & tok' & Hd & Hin' & Hd' & Hst).
        exists pid1, f', tok'.
        split; [assumption |]. split; [right; assumption |]. split; assumption.
Qed.

(** A first start that nothing stops before the token loop returns the
    decode error of the first token that does not decode, with the tokens
    before it stored. *)
Lemma cs_run_bad_token_stored env flt cfg w o w' t s pre fqdn tok post e :
  cs_run env flt cfg w o w' t ->
  NoFaults flt ->
  out (InitSecret env (DataDir cfg) (SecretKey cfg) w) = Ret (Some s, None) ->
  (forall ty n, exists ca, env_GenerateCA env ty "" n = Ok ca) ->
  (userCA w = None -> is_Some (HostCA cfg) -> is_Some (UserCA cfg)) ->
  hostCA w = None \/ userCA w = None ->
  AllowedTokens cfg = (pre ++ (fqdn, tok) :: post)%list ->
  (forall f tk, In (f, tk) pre -> exists pid, env_DecodeSID env tk s = Ok pid) ->
  env_DecodeSID env tok s = Err e ->
  o = Ret (None, None, Some (TraceErr e)) /\
  (forall f tk, In (f, tk) pre ->
     exists pid f' tok',
       env_DecodeSID env tk s = Ok pid /\
       In (f', tok') pre /\ env_DecodeSID env tok' s = Ok pid /\
       tokens w' !! pid = Some (f', 600 * Second)).
Proof.
  intros Hrun Hflt Hsec Hgen Hnil Habs Hpre Hdec Hbad.
  destruct (cs_run_to_prov _ _ _ _ _ _ _ _ Hrun Hflt Hsec Hgen Hnil)
    as (w1 & t1 & b1 & w2 & t2 & b2 & w3 & t3 & o4 & w4 & t4
        & H1 & H2 & H3 & H4 & Hend).
  pose proof (firstStart_flag _ _ _ _ _ _ _ _ _ _ _ _ _ H1 H2 H3) as Hb.
  assert (Hb2 : b2 = true).
  { rewrite Hb. destruct Habs as [-> | ->]; [reflexivity |].
    destruct (hostCA w); reflexivity. }
  clear Hb. subst b2.
  destruct (tokensLoop_bad env flt s pre fqdn tok post e w3 Hflt Hdec Hbad)
    as (v & u & E & _ & Hst).
  revert H4. unfold provisionBlock. rewrite tokens_guard, Hpre. unfold bind.
  rewrite E. unfold ret. intros [= <- <- <-].
  destruct Hend as [(Hs & -> & _) | (Hn & _)]; [| discriminate Hn].
  split; [| exact Hst].
  destruct Hs as [(r & Hr & ->) | (m & Hm & _)]; [| discriminate Hm].
  injection Hr as <-. reflexivity.
Qed.

(** C4, as written, fails: the token before the malformed one is decoded
    and upserted before the loop reaches the malformed one, and nothing
    takes it back. *)
Lemma no_partial_import_counterexample :
  ~ no_partial_import demoEnv noFaults badTokenCfg emptyWorld.
Proof.
  intros H.
  destruct H as [_ Htok].
  - left. reflexivity.
  - exists "n3", "garbage". split; [right; left; reflexivity |].
    intros s. eexists. reflexivity.
  - assert (Hst : tokens (final (Init demoEnv noFaults badTokenCfg emptyWorld))
                  !! "abc" = Some ("n2", 600 * Second))
      by (vm_compute; reflexivity).
    rewrite Htok in Hst. discriminate Hst.
Qed.

(** C4, amended: on a first start whose token map, in the order this run
    visits it, has a token that does not decode under the secret of the
    run, after the entries [pre]:
    (fail fast) [Init] never enters [InitKeys] and does not succeed;
    (nothing later) a token in the store afterwards was there before or is
    the token of an entry of [pre];
    (no rollback) when nothing stops the run before the token loop and the
    tokens of [pre] decode, [Init] returns the wrapped decode error, and
    the id of every token of [pre] is in the store afterwards with a
    lifetime of 600 seconds, under the name of an entry of [pre] with that
    id. *)
Theorem Init_bad_token env flt cfg w pre fqdn tok post :
  hostCA w = None \/ userCA w = None ->
  AllowedTokens cfg = (pre ++ (fqdn, tok) :: post)%list ->
  (forall s, runSecret env cfg w = Some s ->
             exists e, env_DecodeSID env tok s = Err e) ->
  let r := Init env flt cfg w in
  Forall (fun e => isInitKeys e = false) (trace r) /\
  ~ succeeded r /\
  (forall id v, tokens (final r) !! id = Some v ->
     tokens w !! id = Some v \/
     exists f' tok' s,
       In (f', tok') pre /\ runSecret env cfg w = Some s /\
       env_DecodeSID env tok' s = Ok id /\ v = (f', 600 * Second)) /\
  (forall s,
     unobstructed env flt cfg w s ->
     (forall f tk, In (f, tk) pre -> exists pid, env_DecodeSID env tk s = Ok pid) ->
     (exists e, env_DecodeSID env tok s = Err e /\
                out r = Ret (None, None, Some (TraceErr e))) /\
     (forall f tk, In (f, tk) pre ->
        exists pid f' tok',
          env_DecodeSID env tk s = Ok pid /\
          In (f', tok') pre /\ env_DecodeSID env tok' s = Ok pid /\
          tokens (final r) !! pid = Some (f', 600 * Second))).
Proof.
  intros Habs Hpre Hbad r.
  split; [| split; [| split]].
  4: {
    intros s (Hd & Hp & Hmk & Hfree & Hflt & Hsec & Hgen & Hnil) Hdec.
    destruct (Hbad s Hsec) as [e He].
    apply runSecret_Some in Hsec.
    destruct (Init_unobstructed env flt cfg w Hd Hp Hmk Hfree (Hflt _))
      as (o & w3 & t3 & orel & w4 & t4 & Hcs & H4 & HI).
    destruct (MkdirAll (DataDir cfg) (Z.lor ModeDir perm0777) w)
      as [o1 w1 t1] eqn:H1.
    destruct (MkdirAll_run _ _ _ _ _ _ H1) as (_ & (_ & M2 & M3 & _) & _).
    assert (Hs2 : hostCA (csStart cfg w) = hostCA w /\
                  userCA (csStart cfg w) = userCA w).
    { unfold csStart. rewrite H1. simpl. split; assumption. }
    destruct Hs2 as [Hh Hu].
    destruct (ReleaseLock_run _ _ _ _ _ _ H4) as (_ & _ & _ & _ & R4 & _).
    destruct (cs_run_bad_token_stored _ _ _ _ _ _ _ s pre fqdn tok post e
                Hcs Hflt Hsec Hgen) as [Ko Kst]; try assumption.
    { rewrite Hu. exact Hnil. }
    { rewrite Hh, Hu. exact Habs. }
    subst r. rewrite HI. cbn [out final]. split.
    - exists e. split; [exact He | congruence].
    - intros f tk Hin. rewrite R4. apply (Kst f tk Hin). }
  all: pose proof (Init_init_run env flt cfg w) as Hrun; fold r in Hrun.
  all: destruct r as [o0 w0 t0]; unfold succeeded; simpl in *.
  all: destruct Hrun as
    [ Hd | Hd Hp | e w1 t1 Hd Hp H1 | w1 t1 e w2 t2 Hd Hp H1 H2
    | w1 t1 w2 t2 o w3 t3 orel w4 t4 Hd Hp H1 H2 Hcs H4 ].
  all: try (destruct (MkdirAll_run _ _ _ _ _ _ H1) as (-> & (_ & M2 & M3 & M4 & _) & _)).
  all: try (destruct (AcquireLock_run _ _ _ _ _ _ _ H2) as (-> & _ & L2 & L3 & L4 & _)).
  all: try (destruct (ReleaseLock_run _ _ _ _ _ _ H4) as (-> & _ & _ & _ & R4 & _)).
  all: try (pose proof (locked_csStart _ _ _ _ _ _ _ H1 H2) as Ecs;
            assert (Habs2 : hostCA w2 = None \/ userCA w2 = None)
              by (rewrite L2, L3, M2, M3; assumption);
            assert (Hbad2 : forall s,
                      out (InitSecret env (DataDir cfg) (SecretKey cfg) w2)
                      = Ret (Some s, None) ->
                      exists e, env_DecodeSID env tok s = Err e)
              by (intros s Hs; apply Hbad, runSecret_Some; rewrite <- Ecs; exact Hs);
            destruct (cs_run_bad_token _ _ _ _ _ _ _ _ _ _ _ Hcs Habs2 Hpre Hbad2)
              as (K1 & K2 & K3)).
  (* the trace *)
  1-2: constructor.
  1-2: repeat constructor.
  1: { constructor; [reflexivity |]. constructor; [reflexivity |].
       apply Forall_app. split; [assumption | repeat constructor]. }
  (* no success *)
  1-4: intros (? & ? & [=]).
  1: intros (a & s0 & Ho); exact (K2 _ _ Ho).
  (* the store *)
  1-2: auto.
  1-2: intros id v Hv; left; congruence.
  intros id v Hv. rewrite R4 in Hv. destruct (K3 id v Hv) as [Hold | Hnew].
  - left. congruence.
  - right. destruct Hnew as (f' & tok' & s & Hin & Hs & Hd' & Hv').
    exists f', tok', s. split; [assumption |].
    split; [apply runSecret_Some; rewrite <- Ecs; exact Hs |].
    split; assumption.
Qed.

Lemma Init_bad_token_witness :
  let r := Init demoEnv noFaults badTokenCfg emptyWorld in
  out r = Ret (None, None, Some (TraceErr (CollabError "malformed token"))) /\
  tokens (final r) !! "abc" = Some ("n2", 600 * Second).
Proof.
  intros r.
  destruct (Init_bad_token demoEnv noFaults badTokenCfg emptyWorld
              [("n2", "tok:abc")] "n3" "garbage" [])
    as (_ & _ & _ & Hst).
  - left. reflexivity.
  - reflexivity.
  - intros s _. eexists. reflexivity.
  - destruct (Hst (mkSecretService "key")) as [(e & He & Ho) Htok].
    + split; [discriminate |]. split; [discriminate |].
      split; [vm_compute; reflexivity |].
      split; [vm_compute; intros H; discriminate H |].
      split; [exact noFaults_NoFaults |].
      split; [vm_compute; reflexivity |].
      split; [intros ty n; eexists; reflexivity |].
      intros _ [h Hh]. discriminate Hh.
    + intros f tk [[= <- <-] | []]. eexists. reflexivity.
    + injection He as <-. split; [exact Ho |].
      destruct (Htok "n2" "tok:abc" (or_introl eq_refl))
        as (pid & f' & tok' & Hd & Hin & _ & Hv).
      destruct Hin as [[= <- <-] | []].
      injection Hd as <-. exact Hv.
Defined.

(** ** Empty FQDN *)






(** ** The user CA block *)

(** Membership of an event in an evaluated trace. *)
Ltac find_event := solve [repeat first [left; reflexivity | right]].


(** C2: the user CA block, entered with the user CA absent, chooses by the
    host CA of the configuration: without one it resets the user CA with an
    empty passphrase, whatever user CA the configuration brings; with one
    it upserts the configured user CA, and dereferences nil when there is
    none. *)
Theorem userCABlock_tests_HostCA env flt cfg err b w :
  flt EvGetUserCAPub = None -> userCA w = None ->
  let r := userCABlock env flt cfg err b w in
  match HostCA cfg, UserCA cfg with
  | None, _ => trace r = [EvGetUserCAPub; EvResetUserCA ""]
  | Some _, Some ca => trace r = [EvGetUserCAPub; EvUpsertUserCA ca]
  | Some _, None =>
      r = mkRun (Panic "invalid memory address or nil pointer dereference") w
                [EvGetUserCAPub]
  end.
Proof.
  intros Hflt Hu r. subst r.
  unfold userCABlock, bind, ret, panic, GetUserCAPub, UpsertUserCA, ResetUserCA.
  rewrite Hflt, Hu. simpl.
  destruct (HostCA cfg) as [h |], (UserCA cfg) as [ca |]; simpl.
  - destruct (flt (EvUpsertUserCA ca)); reflexivity.
  - reflexivity.
  - destruct (flt (EvResetUserCA "")); [reflexivity |].
    destruct (env_GenerateCA env UserCAType "" (entropy w)); reflexivity.
  - destruct (flt (EvResetUserCA "")); [reflexivity |].
    destruct (env_GenerateCA env UserCAType "" (entropy w)); reflexivity.
Qed.

Lemma userCABlock_tests_HostCA_witness :
  trace (userCABlock demoEnv noFaults userCAOnlyCfg None true emptyWorld)
  = [EvGetUserCAPub; EvResetUserCA ""].
Proof.
  apply (userCABlock_tests_HostCA demoEnv noFaults userCAOnlyCfg None true
           emptyWorld); reflexivity.
Defined.

(** C2 fails on a first start that brings a user CA and no host CA: [Init]
    succeeds, generates a user CA and never upserts the one supplied. *)
Lemma user_ca_follows_UserCA_counterexample :
  ~ user_ca_follows_UserCA demoEnv noFaults userCAOnlyCfg emptyWorld.
Proof.
  intros H.
  assert (Hin : In (EvUpsertUserCA suppliedUserCA)
                   (trace (Init demoEnv noFaults userCAOnlyCfg emptyWorld))).
  { apply H; [reflexivity |]. vm_compute. find_event. }
  assert (Hno : forallb (fun e => negb (isUpsertUserCA e))
                  (trace (Init demoEnv noFaults userCAOnlyCfg emptyWorld)) = true)
    by (vm_compute; reflexivity).
  rewrite forallb_forall in Hno. specialize (Hno _ Hin). discriminate Hno.
Qed.

(** With a host CA and no user CA in the configuration, a first start
    dereferences nil in the user CA block; the deferred release still
    runs. *)
Lemma Init_host_ca_only_panics :
  out (Init demoEnv noFaults hostCAOnlyCfg emptyWorld)
  = Panic "invalid memory address or nil pointer dereference" /\
  hostCA (final (Init demoEnv noFaults hostCAOnlyCfg emptyWorld))
  = Some suppliedHostCA /\
  locks (final (Init demoEnv noFaults hostCAOnlyCfg emptyWorld)) = ∅.
Proof. vm_compute. repeat split. Qed.

(** ** Failing CA probes *)

Lemma InitSecret_no_probe env dataDir secretKey w o w' t :
  InitSecret env dataDir secretKey w = mkRun o w' t ->
  Forall (fun e => isProbe e = false) t.
Proof.
  unfold InitSecret, bind, ret, NewKey, WriteFile. cbv zeta.
  exec.
  all: intros [= <- <- <-].
  all: repeat (constructor; [reflexivity |]); constructor.
Qed.

Lemma hostCABlock_no_user_probe env flt cfg err b w o w' t :
  hostCABlock env flt cfg err b w = mkRun o w' t ->
  ~ In EvGetUserCAPub t.
Proof.
  unfold hostCABlock, bind, ret, GetHostCAPub, UpsertHostCA, ResetHostCA.
  exec.
  all: intros [= <- <- <-] Hin.
  all: repeat (destruct Hin as [Hin | Hin]; [discriminate Hin |]).
  all: destruct Hin.
Qed.

Lemma not_in_no_probe (l : list Event) e :
  isProbe e = true -> Forall (fun e => isProbe e = false) l -> ~ In e l.
Proof.
  intros He Hall Hin. rewrite Forall_forall in Hall.
  apply list_elem_of_In in Hin. specialize (Hall _ Hin). congruence.
Qed.

Lemma hostCABlock_fault env flt cfg err b w msg :
  flt EvGetHostCAPub = Some msg ->
  hostCABlock env flt cfg err b w
  = mkRun (Ret (Return_ (None, None, Wrap env err))) w [EvGetHostCAPub].
Proof.
  intros Hf. unfold hostCABlock, bind, ret, GetHostCAPub. rewrite Hf.
  reflexivity.
Qed.

Lemma userCABlock_fault env flt cfg err b w msg :
  flt EvGetUserCAPub = Some msg ->
  userCABlock env flt cfg err b w
  = mkRun (Ret (Return_ (None, None, Wrap env err))) w [EvGetUserCAPub].
Proof.
  intros Hf. unfold userCABlock, bind, ret, GetUserCAPub. rewrite Hf.
  reflexivity.
Qed.

Lemma stopped_Return {A} r (o : Outcome Result) :
  stopped (A := A) (Ret (Return_ r)) o -> o = Ret r.
Proof.
  intros [(r' & Hr & ->) | (m & Hm & _)]; [| discriminate Hm].
  injection Hr as ->. reflexivity.
Qed.

(** A critical section whose CA probe fails returns [trace.Wrap] of the
    error variable of [Init], which is nil there. *)
Lemma cs_run_probe_fault env flt cfg w o w' t msg :
  cs_run env flt cfg w o w' t ->
  (flt EvGetHostCAPub = Some msg /\ In EvGetHostCAPub t) \/
  (flt EvGetUserCAPub = Some msg /\ In EvGetUserCAPub t) ->
  o = Ret (None, None, wrap_nil env).
Proof.
  intros Hrun Hprobe.
  destruct Hrun as
    [ oscrt e w1 t1 H1
    | scrt w1 t1 o2 w2 t2 o H1 H2 Hs
    | scrt w1 t1 b1 w2 t2 o3 w3 t3 o H1 H2 H3 Hs
    | scrt w1 t1 b1 w2 t2 b2 w3 t3 o4 w4 t4 o H1 H2 H3 H4 Hs
    | scrt w1 t1 b1 w2 t2 b2 w3 t3 w4 t4 o5 w5 t5 H1 H2 H3 H4 H5 ].
  all: pose proof (InitSecret_no_probe _ _ _ _ _ _ _ H1) as Q1.
  all: destruct Hprobe as [[Hf Hin] | [Hf Hin]].
  - exfalso. revert Hin. apply not_in_no_probe; [reflexivity | assumption].
  - exfalso. revert Hin. apply not_in_no_probe; [reflexivity | assumption].
  - rewrite (hostCABlock_fault _ _ _ _ _ _ _ Hf) in H2.
    injection H2 as <- <- <-. apply stopped_Return in Hs. exact Hs.
  - exfalso. apply in_app_iff in Hin. destruct Hin as [Hin | Hin].
    + revert Hin. apply not_in_no_probe; [reflexivity | assumption].
    + revert Hin. apply (hostCABlock_no_user_probe _ _ _ _ _ _ _ _ _ H2).
  - rewrite (hostCABlock_fault _ _ _ _ _ _ _ Hf) in H2. discriminate H2.
  - rewrite (userCABlock_fault _ _ _ _ _ _ _ Hf) in H3.
    injection H3 as <- <- <-. apply stopped_Return in Hs. exact Hs.
  - rewrite (hostCABlock_fault _ _ _ _ _ _ _ Hf) in H2. discriminate H2.
  - rewrite (userCABlock_fault _ _ _ _ _ _ _ Hf) in H3. discriminate H3.
  - rewrite (hostCABlock_fault _ _ _ _ _ _ _ Hf) in H2. discriminate H2.
  - rewrite (userCABlock_fault _ _ _ _ _ _ _ Hf) in H3. discriminate H3.
Qed.

(** C3: when the probe of the host CA or of the user CA fails with an error
    that is not a NotFoundError, [Init] stops and returns [trace.Wrap] of
    its own error variable, which is nil at both places: the value returned
    is the same whatever the probe failure was. *)
Theorem Init_probe_failure_lost env flt cfg w msg :
  let r := Init env flt cfg w in
  (flt EvGetHostCAPub = Some msg /\ In EvGetHostCAPub (trace r)) \/
  (flt EvGetUserCAPub = Some msg /\ In EvGetUserCAPub (trace r)) ->
  out r = Ret (None, None, wrap_nil env).
Proof.
  intros r Hprobe. subst r.
  pose proof (Init_init_run env flt cfg w) as Hrun.
  destruct (Init env flt cfg w) as [o0 w0 t0]. simpl in *.
  destruct Hrun as
    [ Hd | Hd Hp | e w1 t1 Hd Hp H1 | w1 t1 e w2 t2 Hd Hp H1 H2
    | w1 t1 w2 t2 o w3 t3 orel w4 t4 Hd Hp H1 H2 Hcs H4 ].
  - destruct Hprobe as [[_ []] | [_ []]].
  - destruct Hprobe as [[_ []] | [_ []]].
  - destruct (MkdirAll_run _ _ _ _ _ _ H1) as (-> & _).
    destruct Hprobe as [[_ [Hin | []]] | [_ [Hin | []]]]; discriminate Hin.
  - destruct (MkdirAll_run _ _ _ _ _ _ H1) as (-> & _).
    destruct (AcquireLock_run _ _ _ _ _ _ _ H2) as (-> & _).
    destruct Hprobe as [[_ [Hin | [Hin | []]]] | [_ [Hin | [Hin | []]]]];
      discriminate Hin.
  - destruct (MkdirAll_run _ _ _ _ _ _ H1) as (-> & _).
    destruct (AcquireLock_run _ _ _ _ _ _ _ H2) as (-> & _).
    destruct (ReleaseLock_run _ _ _ _ _ _ H4) as (-> & _).
    apply (cs_run_probe_fault _ _ _ _ _ _ _ msg Hcs).
    destruct Hprobe as [[Hf Hin] | [Hf Hin]]; [left | right]; (split; [exact Hf |]);
      simpl in Hin; destruct Hin as [Hin | [Hin | Hin]]; try discriminate Hin;
      apply in_app_iff in Hin; destruct Hin as [Hin | [Hin | []]];
      first [assumption | discriminate Hin].
Qed.

Lemma Init_probe_failure_lost_witness :
  out (Init demoEnv hostProbeFault demoCfg emptyWorld) = Ret (None, None, None).
Proof.
  apply (Init_probe_failure_lost demoEnv hostProbeFault demoCfg emptyWorld
           "backend unavailable").
  left. split; [reflexivity |].
  vm_compute. find_event.
Defined.

(** C3 fails on a first start whose host CA probe the backend fails: [Init]
    returns no server, no signer and a nil error. *)
Lemma probe_failure_surfaced_counterexample :
  ~ probe_failure_surfaced demoEnv hostProbeFault demoCfg emptyWorld.
Proof.
  intros H.
  destruct (H "backend unavailable") as (e & He & _).
  { left. split; [reflexivity |]. vm_compute. find_event. }
  assert (Hout : out (Init demoEnv hostProbeFault demoCfg emptyWorld)
                 = Ret (None, None, None)) by (vm_compute; reflexivity).
  rewrite Hout in He. discriminate He.
Qed.

(** The same with the user CA probe. *)
Lemma Init_user_probe_failure_nil :
  out (Init demoEnv userProbeFault demoCfg emptyWorld) = Ret (None, None, None).
Proof. vm_compute. reflexivity. Qed.

(** ** The key files: [HaveKeys], [writeKeys], [ReadKeys] *)

(** X1: [HaveKeys] changes nothing; it answers (true, nil) exactly when
    os.Stat succeeds on both paths; with the key path missing it answers
    (false, nil) without looking at the certificate path; a Stat error
    other than not-exist on the key path comes back with false. *)
Theorem HaveKeys_spec fqdn dataDir w :
  let kp := (keysPath fqdn dataDir).1 in
  let cp := (keysPath fqdn dataDir).2 in
  let r := HaveKeys fqdn dataDir w in
  final r = w /\
  (out r = Ret (true, None) <->
   statOk (fs w !! kp) = true /\ statOk (fs w !! cp) = true) /\
  (fs w !! kp = None -> r = mkRun (Ret (false, None)) w [EvStat kp]) /\
  (fs w !! kp = Some Denied ->
   r = mkRun (Ret (false, Some (PathError "stat" kp EACCES))) w [EvStat kp]) /\
  (statOk (fs w !! kp) = true -> fs w !! cp = None ->
   r = mkRun (Ret (false, None)) w [EvStat kp; EvStat cp]).
Proof.
  intros kp cp r. subst r kp cp.
  unfold HaveKeys, keysPath, bind, ret. cbn [fst snd].
  rewrite !pathExists_eq.
  destruct (fs w !! Join dataDir (fqdn ++ ".key")) as [[? ? | |] |];
    simpl; rewrite ?pathExists_eq;
    destruct (fs w !! Join dataDir (fqdn ++ ".cert")) as [[? ? | |] |];
    simpl;
    repeat split; intros; try reflexivity; try congruence;
    try match goal with H : _ /\ _ |- _ => destruct H; congruence end.
Qed.

(** X2: when [HaveKeys] answers (true, nil), [InitKeys] for a non-empty
    name generates and writes nothing: it leaves the state as it is and
    returns what [ReadKeys] returns. *)
Theorem HaveKeys_InitKeys env flt fqdn dataDir w :
  fqdn <> "" ->
  out (HaveKeys fqdn dataDir w) = Ret (true, None) ->
  let r := InitKeys env flt fqdn dataDir w in
  final r = w /\
  out r = out (ReadKeys env fqdn dataDir w) /\
  Forall (fun e => isGeneration e = false) (trace r).
Proof.
  intros Hf Hh r. subst r. revert Hh.
  destruct (fs w !! Join dataDir (fqdn ++ ".key")) as [[? ? | |] |] eqn:Hk;
    destruct (fs w !! Join dataDir (fqdn ++ ".cert")) as [[? ? | |] |] eqn:Hc;
    unfold HaveKeys, InitKeys, ReadKeys, keysPath, bind, ret, ReadPath, read_node;
    cbn [fst snd];
    (destruct (String.eqb_spec fqdn "") as [| _]; [contradiction |]);
    run; intros Hh; try discriminate Hh;
    (split; [reflexivity | split; [reflexivity |]]);
    repeat (constructor; [reflexivity |]); constructor.
Qed.

Lemma HaveKeys_InitKeys_witness :
  let w := mkWorld (<[ "/d/n.key" := File "k" perm0600 ]>
                      (<[ "/d/n.cert" := File "c" perm0600 ]> ∅))
                   ∅ None None ∅ [] 0 in
  final (InitKeys demoEnv noFaults "n" "/d" w) = w.
Proof.
  intros w.
  apply (HaveKeys_InitKeys demoEnv noFaults "n" "/d" w);
    [discriminate | vm_compute; reflexivity].
Defined.

(** X3: with a key or certificate file missing and no other Stat failure,
    [InitKeys] for a non-empty name asks for a new key pair; without the
    key pair, or without the certificate because the backend holds no host
    CA, it returns the error and writes no file. *)
Theorem InitKeys_generation_failure env flt fqdn dataDir w :
  fqdn <> "" ->
  fs w !! (keysPath fqdn dataDir).1 = None \/
  fs w !! (keysPath fqdn dataDir).2 = None ->
  fs w !! (keysPath fqdn dataDir).1 <> Some Denied ->
  fs w !! (keysPath fqdn dataDir).2 <> Some Denied ->
  let r := InitKeys env flt fqdn dataDir w in
  In (EvGenerateKeyPair "") (trace r) /\
  (forall e, env_GenerateKeyPair env "" (entropy w) = Err e ->
     out r = Ret (None, Some e) /\ final r = w) /\
  (forall k pub, env_GenerateKeyPair env "" (entropy w) = Ok (k, pub) ->
     flt (EvGenerateHostCert pub fqdn fqdn 0) = None ->
     hostCA w = None ->
     out r = Ret (None, Some (NotFoundError "host CA not found")) /\
     fs (final r) = fs w).
Proof.
  unfold keysPath. cbn [fst snd].
  intros Hf Hmiss Hdk Hdc.
  destruct (fs w !! Join dataDir (fqdn ++ ".key")) as [[? ? | |] |] eqn:Hk;
    destruct (fs w !! Join dataDir (fqdn ++ ".cert")) as [[? ? | |] |] eqn:Hc;
    try congruence; try (destruct Hmiss; congruence);
    unfold InitKeys, keysPath, bind, ret, GenerateKeyPair, GenerateHostCert;
    cbn [fst snd];
    (destruct (String.eqb_spec fqdn "") as [| _]; [contradiction |]);
    run.
  all: split; [| split].
  all: try (intros e He; rewrite He; simpl; split; reflexivity).
  all: try (intros k pub Hg Hflt Hca; rewrite Hg; simpl; rewrite Hflt, Hca; simpl;
            split; reflexivity).
  all: repeat match goal with
       | |- context [match ?x with _ => _ end] =>
           lazymatch x with
           | context [match _ with _ => _ end] => fail
           | _ => destruct x eqn:?; simpl
           end
       end.
  all: solve [repeat first [left; reflexivity | right]].
Qed.

Lemma InitKeys_generation_failure_witness :
  out (InitKeys demoEnv noFaults "n" "/d" emptyWorld)
  = Ret (None, Some (NotFoundError "host CA not found")) /\
  fs (final (InitKeys demoEnv noFaults "n" "/d" emptyWorld)) = fs emptyWorld.
Proof.
  destruct (InitKeys_generation_failure demoEnv noFaults "n" "/d" emptyWorld)
    as (_ & _ & H);
    [discriminate | left; reflexivity | discriminate | discriminate |].
  apply (H "priv" "pub"); reflexivity.
Defined.

Lemma HaveKeys_true fqdn dataDir w :
  statOk (fs w !! (keysPath fqdn dataDir).1) = true ->
  statOk (fs w !! (keysPath fqdn dataDir).2) = true ->
  HaveKeys fqdn dataDir w =
  mkRun (Ret (true, None)) w
        [EvStat (keysPath fqdn dataDir).1; EvStat (keysPath fqdn dataDir).2].
Proof.
  unfold keysPath. cbn [fst snd]. intros Hk Hc.
  destruct (fs w !! Join dataDir (fqdn ++ ".key")) as [[? ? | |] |] eqn:Ek;
    try discriminate Hk;
    destruct (fs w !! Join dataDir (fqdn ++ ".cert")) as [[? ? | |] |] eqn:Ec;
    try discriminate Hc;
    unfold HaveKeys, keysPath, bind, ret; cbn [fst snd]; run; reflexivity.
Qed.

Lemma writeKeys_None fqdn dataDir key cert w :
  out (writeKeys fqdn dataDir key cert w) = Ret None ->
  writable (fs w !! (keysPath fqdn dataDir).1) /\
  writable (fs w !! (keysPath fqdn dataDir).2).
Proof.
  pose proof (keysPath_distinct fqdn dataDir) as Hne. revert Hne.
  unfold keysPath. cbn [fst snd]. intros Hne.
  unfold writeKeys, keysPath, bind, ret, WriteFile, writable. cbn [fst snd].
  destruct (fs w !! Join dataDir (fqdn ++ ".key")) as [[? ? | |] |] eqn:Ek;
    simpl; try discriminate;
    rewrite lookup_insert_ne by assumption;
    destruct (fs w !! Join dataDir (fqdn ++ ".cert")) as [[? ? | |] |] eqn:Ec;
    simpl; try discriminate; intros _; split; eauto.
Qed.

(** X4: when [writeKeys] returns nil, [ReadKeys] on the state it left
    builds the signer from exactly the key and certificate written,
    [HaveKeys] answers (true, nil), and no other path has changed. *)
Theorem writeKeys_ReadKeys env fqdn dataDir key cert w :
  out (writeKeys fqdn dataDir key cert w) = Ret None ->
  let w' := final (writeKeys fqdn dataDir key cert w) in
  out (ReadKeys env fqdn dataDir w') = Ret (NewSigner env key cert) /\
  out (HaveKeys fqdn dataDir w') = Ret (true, None) /\
  (forall q, q <> (keysPath fqdn dataDir).1 -> q <> (keysPath fqdn dataDir).2 ->
     fs w' !! q = fs w !! q).
Proof.
  intros Hok w'. subst w'.
  pose proof (keysPath_distinct fqdn dataDir) as Hne.
  destruct (writeKeys_None _ _ _ _ _ Hok) as [Hwk Hwc].
  destruct (writeKeys_ok fqdn dataDir key cert w Hwk Hwc)
    as (pk & pc & w' & -> & -> & _).
  cbn [final].
  assert (Hk : fs (set_fs (<[(keysPath fqdn dataDir).2 := File cert pc]>
                     (<[(keysPath fqdn dataDir).1 := File key pk]> (fs w))) w)
               !! (keysPath fqdn dataDir).1 = Some (File key pk)).
  { cbn [fs set_fs]. rewrite lookup_insert_ne by congruence.
    apply lookup_insert_eq. }
  assert (Hc : fs (set_fs (<[(keysPath fqdn dataDir).2 := File cert pc]>
                     (<[(keysPath fqdn dataDir).1 := File key pk]> (fs w))) w)
               !! (keysPath fqdn dataDir).2 = Some (File cert pc)).
  { cbn [fs set_fs]. apply lookup_insert_eq. }
  split; [| split].
  - rewrite (ReadKeys_files env _ _ _ _ _ _ _ Hk Hc). reflexivity.
  - rewrite HaveKeys_true; [reflexivity | rewrite Hk | rewrite Hc]; reflexivity.
  - intros q Hq1 Hq2. cbn [fs set_fs].
    rewrite !lookup_insert_ne by congruence. reflexivity.
Qed.

Lemma writeKeys_ReadKeys_witness :
  out (ReadKeys demoEnv "n" "/d"
         (final (writeKeys "n" "/d" "k" "c" emptyWorld)))
  = Ret (Some (mkSigner "k" "c"), None).
Proof.
  apply (writeKeys_ReadKeys demoEnv "n" "/d" "k" "c" emptyWorld).
  vm_compute. reflexivity.
Defined.

(** X5: [writeKeys] does not undo: when the key path cannot be written
    nothing changes and the certificate is not attempted; when the key is
    written and the certificate path cannot be, the error comes back and
    the new key is on disk beside the old certificate path. *)
Theorem writeKeys_no_rollback fqdn dataDir key cert w :
  let kp := (keysPath fqdn dataDir).1 in
  let cp := (keysPath fqdn dataDir).2 in
  let r := writeKeys fqdn dataDir key cert w in
  (~ writable (fs w !! kp) ->
   (exists e, out r = Ret (Some e)) /\ final r = w /\
   trace r = [EvWriteFile kp key perm0600]) /\
  (writable (fs w !! kp) -> ~ writable (fs w !! cp) ->
   (exists e, out r = Ret (Some e)) /\
   (exists p, fs (final r) !! kp = Some (File key p)) /\
   fs (final r) !! cp = fs w !! cp /\
   trace r = [EvWriteFile kp key perm0600; EvWriteFile cp cert perm0600]).
Proof.
  pose proof (keysPath_distinct fqdn dataDir) as Hne. revert Hne.
  unfold keysPath. cbn [fst snd]. intros Hne.
  unfold writeKeys, keysPath, bind, ret, WriteFile, writable. cbn [fst snd].
  destruct (fs w !! Join dataDir (fqdn ++ ".key")) as [[dk pk | |] |] eqn:Ek;
    simpl; rewrite ?lookup_insert_ne by assumption;
    destruct (fs w !! Join dataDir (fqdn ++ ".cert")) as [[dc pc | |] |] eqn:Ec;
    simpl; rewrite ?lookup_insert_ne by assumption; rewrite ?lookup_insert_eq;
    rewrite ?Ec.
  all: split; [intros Hk | intros Hk Hc].
  all: try (exfalso; apply Hk; solve [left; reflexivity | right; eauto]).
  all: try (exfalso; apply Hc; solve [left; reflexivity | right; eauto]).
  all: try (exfalso; destruct Hk as [Hk | (? & ? & Hk)]; discriminate Hk).
  all: repeat split; eauto; cbn [fs set_fs];
    rewrite ?lookup_insert_ne by assumption; rewrite ?lookup_insert_eq;
    eauto.
Qed.

(** ** The secret file *)

(** X6: with no secret file, [InitSecret] writes the key it was given, as
    it is, with mode 0600, and asks for no new key; given the empty string
    it asks for a new key and writes its encoding; when no new key can be
    made it writes nothing. *)
Theorem InitSecret_first_write env dataDir secretKey w :
  fs w !! secretKeyPath dataDir = None ->
  let p := secretKeyPath dataDir in
  let r := InitSecret env dataDir secretKey w in
  (secretKey <> "" ->
   trace r = [EvStat p; EvWriteFile p secretKey perm0600; EvReadFile p] /\
   final r = set_fs (<[p := File secretKey perm0600]> (fs w)) w) /\
  (secretKey = "" -> forall k, env_NewKey env (entropy w) = Ok k ->
   trace r = [EvStat p; EvNewKey;
              EvWriteFile p (env_KeyToEncodedString env k) perm0600;
              EvReadFile p] /\
   final r = set_fs (<[p := File (env_KeyToEncodedString env k) perm0600]> (fs w))
                    (draw w)) /\
  (secretKey = "" -> forall e, env_NewKey env (entropy w) = Err e ->
   r = mkRun (Ret (None, Some e)) w [EvStat p; EvNewKey]).
Proof.
  intros Habs p r. subst p r.
  unfold InitSecret, bind, ret, NewKey, WriteFile, KeyToEncodedString. cbv zeta.
  rewrite pathExists_eq, Habs. simpl.
  split; [| split].
  - intros Hne. destruct (String.eqb_spec secretKey "") as [| _]; [contradiction |].
    simpl. rewrite Habs. simpl. rewrite ReadSecret_eq. simpl.
    split; reflexivity.
  - intros -> k Hk. simpl. rewrite Hk. simpl. rewrite Habs. simpl.
    rewrite ReadSecret_eq. simpl. split; reflexivity.
  - intros -> e He. simpl. rewrite He. reflexivity.
Qed.

Lemma InitSecret_first_write_witness :
  final (InitSecret demoEnv "/d" "enc:abc" emptyWorld)
  = set_fs (<[ "/d/teleport.secret" := File "enc:abc" perm0600 ]> ∅) emptyWorld.
Proof.
  pose proof (InitSecret_first_write demoEnv "/d" "enc:abc" emptyWorld eq_refl)
    as (H & _).
  apply H. discriminate.
Defined.

(** X7: [InitSecret] writes the key it was given before it checks it: with
    no secret file and a key that does not decode, the error comes back,
    the key is on disk, and every later [InitSecret], whatever key it is
    given, reads that file and fails the same way. *)
Theorem InitSecret_bad_key_persists env dataDir secretKey w e :
  fs w !! secretKeyPath dataDir = None ->
  secretKey <> "" ->
  env_EncodedStringToKey env secretKey = Err e ->
  let p := secretKeyPath dataDir in
  let r := InitSecret env dataDir secretKey w in
  out r = Ret (None, Some e) /\
  fs (final r) !! p = Some (File secretKey perm0600) /\
  forall key',
    InitSecret env dataDir key' (final r)
    = mkRun (Ret (None, Some e)) (final r) [EvStat p; EvReadFile p].
Proof.
  intros Habs Hne Hbad p r. subst p r.
  assert (Hrun : InitSecret env dataDir secretKey w =
                 mkRun (Ret (None, Some e))
                       (set_fs (<[secretKeyPath dataDir := File secretKey perm0600]>
                                  (fs w)) w)
                       [EvStat (secretKeyPath dataDir);
                        EvWriteFile (secretKeyPath dataDir) secretKey perm0600;
                        EvReadFile (secretKeyPath dataDir)]).
  { unfold InitSecret, bind, ret, WriteFile. cbv zeta.
    rewrite pathExists_eq, Habs. simpl.
    destruct (String.eqb_spec secretKey "") as [| _]; [contradiction |].
    simpl. rewrite Habs. simpl. rewrite ReadSecret_eq.
    unfold read_node. simpl. rewrite lookup_insert_eq, Hbad. reflexivity. }
  rewrite Hrun. cbn [out final].
  split; [reflexivity |].
  split; [simpl; apply lookup_insert_eq |].
  intros key'.
  unfold InitSecret, bind, ret. cbv zeta.
  rewrite pathExists_eq. simpl. rewrite lookup_insert_eq. simpl.
  rewrite ReadSecret_eq. unfold read_node. simpl.
  rewrite lookup_insert_eq, Hbad. reflexivity.
Qed.

Lemma InitSecret_bad_key_persists_witness :
  let r := InitSecret demoEnv "/d" "plain" emptyWorld in
  out r = Ret (None, Some (CollabError "bad key encoding")) /\
  InitSecret demoEnv "/d" "enc:abc" (final r)
  = mkRun (Ret (None, Some (CollabError "bad key encoding"))) (final r)
          [EvStat "/d/teleport.secret"; EvReadFile "/d/teleport.secret"].
Proof.
  intros r.
  destruct (InitSecret_bad_key_persists demoEnv "/d" "plain" emptyWorld
              (CollabError "bad key encoding"))
    as (Ho & _ & Hl); [reflexivity | discriminate | reflexivity |].
  split; [exact Ho | apply Hl].
Defined.

(** X8: [InitKeys] is idempotent once it has succeeded: called again on the
    state it left, whatever the collaborators then do, it returns the same
    signer, only probes and reads the two files, and changes nothing. *)
Theorem InitKeys_idempotent env flt flt' fqdn dataDir w signer :
  out (InitKeys env flt fqdn dataDir w) = Ret (Some signer, None) ->
  let w' := final (InitKeys env flt fqdn dataDir w) in
  InitKeys env flt' fqdn dataDir w' =
  mkRun (Ret (Some signer, None)) w'
        [EvInitKeys fqdn dataDir;
         EvStat (keysPath fqdn dataDir).1; EvStat (keysPath fqdn dataDir).2;
         EvReadPath (keysPath fqdn dataDir).1; EvReadPath (keysPath fqdn dataDir).2].
Proof.
  intros Hok w'. subst w'.
  assert (Hf : fqdn <> "").
  { intros ->. rewrite InitKeys_empty in Hok. discriminate Hok. }
  destruct (InitKeys env flt fqdn dataDir w) as [o w' t] eqn:Hr.
  simpl in Hok. subst o. cbn [final].
  destruct (InitKeys_run _ _ _ _ _ _ _ _ Hr) as (_ & _ & _ & _ & Hrd).
  destruct (Hrd _ eq_refl) as (Hout & _).
  destruct (ReadKeys_ok _ _ _ _ _ Hout) as (k & pk & c & pc & Hk & Hc & Hs).
  rewrite (InitKeys_present env flt' fqdn dataDir w' k pk c pc Hf Hk Hc).
  unfold NewSigner. rewrite Hs. reflexivity.
Qed.

Lemma InitKeys_idempotent_witness :
  let w := mkWorld ∅ ∅ (Some (mkCA "capub" "capriv")) None ∅ [] 0 in
  let w' := final (InitKeys demoEnv noFaults "n" "/d" w) in
  final (InitKeys demoEnv hostProbeFault "n" "/d" w') = w'.
Proof.
  intros w w'.
  pose proof (InitKeys_idempotent demoEnv noFaults hostProbeFault "n" "/d" w
                (mkSigner "priv" "cert:pub:n:capriv")) as H.
  cbv zeta in H. fold w' in H. rewrite H; [reflexivity |].
  vm_compute. reflexivity.
Defined.

(** ** Invariants of [Init] *)

(** What every run of the critical section leaves alone. *)
Lemma cs_run_frame env flt cfg w o w' t :
  cs_run env flt cfg w o w' t ->
  locks w' = locks w /\
  (forall ca, hostCA w = Some ca -> hostCA w' = Some ca) /\
  (forall ca, userCA w = Some ca -> userCA w' = Some ca) /\
  (forall q, q <> secretKeyPath (DataDir cfg) ->
             q <> (keysPath (FQDN cfg) (DataDir cfg)).1 ->
             q <> (keysPath (FQDN cfg) (DataDir cfg)).2 ->
             fs w' !! q = fs w !! q).
Proof.
  intros Hrun.
  destruct Hrun as
    [ oscrt e w1 t1 H1
    | scrt w1 t1 o2 w2 t2 o H1 H2 Hs
    | scrt w1 t1 b1 w2 t2 o3 w3 t3 o H1 H2 H3 Hs
    | scrt w1 t1 b1 w2 t2 b2 w3 t3 o4 w4 t4 o H1 H2 H3 H4 Hs
    | scrt w1 t1 b1 w2 t2 b2 w3 t3 w4 t4 o5 w5 t5 H1 H2 H3 H4 H5 ].
  all: destruct (InitSecret_run _ _ _ _ _ _ _ H1)
         as (_ & (S1 & S2 & S3 & _) & S5 & _).
  all: try (destruct (hostCABlock_run _ _ _ _ _ _ _ _ _ H2)
              as (_ & A1 & A2 & A3 & _ & _ & _ & _ & _ & A9)).
  all: try (destruct (userCABlock_run _ _ _ _ _ _ _ _ _ H3)
              as (B1 & B2 & B3 & _ & _ & _ & _ & _ & B9)).
  all: try (destruct (provisionBlock_run _ _ _ _ _ _ _ _ _ H4)
              as (C1 & C2 & C3 & C4 & _)).
  all: try (destruct (InitKeys_run _ _ _ _ _ _ _ _ H5)
              as (_ & (D1 & D2 & D3 & _) & D5 & _)).
  all: split; [congruence |].
  all: split; [intros ca Hca | split; [intros ca Hca | intros q Hq1 Hq2 Hq3]].
  all: try (rewrite <- S2 in Hca). all: try (rewrite <- S3 in Hca).
  all: try (assert (E2 : w2 = w1) by (apply A9; rewrite Hca; eauto); subst w2).
  all: try congruence.
  all: try (assert (E3 : w3 = w2)
              by (apply B9; rewrite A3, Hca; eauto); subst w3).
  all: try congruence.
  all: try (rewrite ?D5, ?C1, ?B1, ?A1 by assumption; apply S5; assumption).
Qed.

(** X9: [Init] leaves the lock table as it found it, however it ends
    (return, error or panic), provided the release itself does not fail: a
    lock it acquired is released, a lock someone else holds is not. *)
Theorem Init_lock_balanced env flt cfg w :
  flt (EvReleaseLock (AuthDomain cfg)) = None ->
  locks (final (Init env flt cfg w)) = locks w.
Proof.
  intros Hrel.
  pose proof (Init_init_run env flt cfg w) as Hrun.
  destruct (Init env flt cfg w) as [o0 w0 t0]. simpl in *.
  destruct Hrun as
    [ Hd | Hd Hp | e w1 t1 Hd Hp H1 | w1 t1 e w2 t2 Hd Hp H1 H2
    | w1 t1 w2 t2 o w3 t3 orel w4 t4 Hd Hp H1 H2 Hcs H4 ].
  - reflexivity.
  - reflexivity.
  - destruct (MkdirAll_run _ _ _ _ _ _ H1) as (_ & (M1 & _) & _). exact M1.
  - destruct (MkdirAll_run _ _ _ _ _ _ H1) as (_ & (M1 & _) & _).
    rewrite <- M1. revert H2. unfold AcquireLock.
    destruct (flt (EvAcquireLock _ _));
      [intros H; injection H as _ <- _; reflexivity |].
    destruct (decide _); intros H;
      first [discriminate H | injection H as _ <- _; reflexivity].
  - destruct (MkdirAll_run _ _ _ _ _ _ H1) as (_ & (M1 & _) & _).
    destruct (AcquireLock_run _ _ _ _ _ _ _ H2) as (_ & _ & _ & _ & _ & _ & _ & L8 & _).
    destruct (L8 eq_refl) as [Lfree ->].
    destruct (cs_run_frame _ _ _ _ _ _ _ Hcs) as (K1 & _).
    destruct (ReleaseLock_run _ _ _ _ _ _ H4) as (_ & _ & _ & _ & _ & _ & _ & R8).
    rewrite (R8 Hrel). cbn [locks set_locks]. rewrite K1. cbn [locks set_locks].
    rewrite <- M1.
    pose proof (f_equal locks (release_acquired w1 (AuthDomain cfg) Lfree)) as E.
    exact E.
Qed.

Lemma Init_lock_balanced_witness :
  locks (final (Init demoEnv noFaults hostCAOnlyCfg emptyWorld)) = ∅.
Proof.
  apply (Init_lock_balanced demoEnv noFaults hostCAOnlyCfg emptyWorld).
  reflexivity.
Defined.

(** X10: [Init] never replaces a CA the backend already holds, whatever CA
    the configuration brings and however the run ends. *)
Theorem Init_keeps_CAs env flt cfg w :
  (forall ca, hostCA w = Some ca -> hostCA (final (Init env flt cfg w)) = Some ca) /\
  (forall ca, userCA w = Some ca -> userCA (final (Init env flt cfg w)) = Some ca).
Proof.
  pose proof (Init_init_run env flt cfg w) as Hrun.
  destruct (Init env flt cfg w) as [o0 w0 t0]. simpl in *.
  destruct Hrun as
    [ Hd | Hd Hp | e w1 t1 Hd Hp H1 | w1 t1 e w2 t2 Hd Hp H1 H2
    | w1 t1 w2 t2 o w3 t3 orel w4 t4 Hd Hp H1 H2 Hcs H4 ].
  1-2: split; intros ca Hca; exact Hca.
  all: destruct (MkdirAll_run _ _ _ _ _ _ H1) as (_ & (_ & M2 & M3 & _) & _).
  1: split; intros ca Hca; congruence.
  all: destruct (AcquireLock_run _ _ _ _ _ _ _ H2) as (_ & _ & L2 & L3 & _).
  1: split; intros ca Hca; congruence.
  destruct (cs_run_frame _ _ _ _ _ _ _ Hcs) as (_ & K2 & K3 & _).
  destruct (ReleaseLock_run _ _ _ _ _ _ H4) as (_ & _ & R2 & R3 & _).
  split; intros ca Hca.
  - rewrite R2. apply K2. congruence.
  - rewrite R3. apply K3. congruence.
Qed.

(** X11: what [Init] does to the filesystem, however the run ends: it may
    write the secret file and the two key files of the node, and it may
    create the data directory and the directories above it where nothing
    was; every other path is as it was. *)
Theorem Init_fs_frame env flt cfg w q :
  q <> secretKeyPath (DataDir cfg) ->
  q <> (keysPath (FQDN cfg) (DataDir cfg)).1 ->
  q <> (keysPath (FQDN cfg) (DataDir cfg)).2 ->
  fs (final (Init env flt cfg w)) !! q = fs w !! q \/
  (fs w !! q = None /\ fs (final (Init env flt cfg w)) !! q = Some Dir /\
   In q (dirsOf (DataDir cfg))).
Proof.
  intros Hq1 Hq2 Hq3.
  pose proof (Init_init_run env flt cfg w) as Hrun.
  destruct (Init env flt cfg w) as [o0 w0 t0]. simpl in *.
  destruct Hrun as
    [ Hd | Hd Hp | e w1 t1 Hd Hp H1 | w1 t1 e w2 t2 Hd Hp H1 H2
    | w1 t1 w2 t2 o w3 t3 orel w4 t4 Hd Hp H1 H2 Hcs H4 ].
  1-2: left; reflexivity.
  all: destruct (MkdirAll_run _ _ _ _ _ _ H1) as (_ & _ & _ & M4 & _).
  1: apply M4.
  all: destruct (AcquireLock_run _ _ _ _ _ _ _ H2) as (_ & L1 & _).
  1: rewrite L1; apply M4.
  destruct (cs_run_frame _ _ _ _ _ _ _ Hcs) as (_ & _ & _ & K4).
  destruct (ReleaseLock_run _ _ _ _ _ _ H4) as (_ & R1 & _).
  rewrite R1, K4, L1 by assumption. apply M4.
Qed.

Lemma Init_fs_frame_witness :
  fs (final (Init demoEnv noFaults demoCfg emptyWorld)) !! "/etc/passwd" = None.
Proof.
  destruct (Init_fs_frame demoEnv noFaults demoCfg emptyWorld "/etc/passwd")
    as [H | (_ & _ & Hin)]; [discriminate | discriminate | discriminate | | ].
  - exact H.
  - exfalso. vm_compute in Hin.
    repeat (destruct Hin as [Hin | Hin]; [discriminate Hin |]). exact Hin.
Defined.

(** ** Successful runs, step by step *)

Lemma cs_run_success_steps env flt cfg w o w' t asrv signer :
  cs_run env flt cfg w o w' t ->
  o = Ret (Some asrv, Some signer, None) ->
  exists scrt w1 t1 b1 w2 t2 b2 w3 t3 w4 t4 t5,
    asrv = mkAuthServer scrt /\
    InitSecret env (DataDir cfg) (SecretKey cfg) w = mkRun (Ret (scrt, None)) w1 t1 /\
    hostCABlock env flt cfg None false w1 = mkRun (Ret (Next b1)) w2 t2 /\
    userCABlock env flt cfg None b1 w2 = mkRun (Ret (Next b2)) w3 t3 /\
    provisionBlock env flt cfg scrt b2 w3 = mkRun (Ret (Next tt)) w4 t4 /\
    InitKeys env flt (FQDN cfg) (DataDir cfg) w4 = mkRun (Ret (Some signer, None)) w' t5 /\
    t = (t1 ++ t2 ++ t3 ++ t4 ++ t5)%list.
Proof.
  intros Hrun Ho.
  destruct Hrun as
    [ oscrt e w1 t1 H1
    | scrt w1 t1 o2 w2 t2 o H1 H2 Hs
    | scrt w1 t1 b1 w2 t2 o3 w3 t3 o H1 H2 H3 Hs
    | scrt w1 t1 b1 w2 t2 b2 w3 t3 o4 w4 t4 o H1 H2 H3 H4 Hs
    | scrt w1 t1 b1 w2 t2 b2 w3 t3 w4 t4 o5 w5 t5 H1 H2 H3 H4 H5 ].
  - discriminate.
  - exfalso. eapply stopped_not_success; [exact Hs | | exact Ho].
    apply (hostCABlock_run _ _ _ _ _ _ _ _ _ H2).
  - exfalso. eapply stopped_not_success; [exact Hs | | exact Ho].
    apply (userCABlock_run _ _ _ _ _ _ _ _ _ H3).
  - exfalso. eapply stopped_not_success; [exact Hs | | exact Ho].
    apply (provisionBlock_run _ _ _ _ _ _ _ _ _ H4).
  - destruct o5 as [[osig [e |]] | msg]; try discriminate.
    injection Ho as <- ->.
    exists scrt, w1, t1, b1, w2, t2, b2, w3, t3, w4, t4, t5.
    repeat (split; [first [reflexivity | assumption] |]). reflexivity.
Qed.

Lemma Init_success_steps env flt cfg w asrv signer :
  out (Init env flt cfg w) = Ret (Some asrv, Some signer, None) ->
  exists w1 t1 w2 t2 w3 t3 orel t4,
    MkdirAll (DataDir cfg) (Z.lor ModeDir perm0777) w = mkRun (Ret None) w1 t1 /\
    AcquireLock flt (AuthDomain cfg) (60 * Second) w1 = mkRun (Ret None) w2 t2 /\
    cs_run env flt cfg w2 (Ret (Some asrv, Some signer, None)) w3 t3 /\
    ReleaseLock flt (AuthDomain cfg) w3
    = mkRun orel (final (Init env flt cfg w)) t4 /\
    trace (Init env flt cfg w) = (t1 ++ t2 ++ t3 ++ t4)%list.
Proof.
  intros Ho.
  destruct (Init_init_run env flt cfg w) as
    [ Hd | Hd Hp | e w1 t1 Hd Hp H1 | w1 t1 e w2 t2 Hd Hp H1 H2
    | w1 t1 w2 t2 o w3 t3 orel w4 t4 Hd Hp H1 H2 Hcs H4 ]; try discriminate.
  subst o. exists w1, t1, w2, t2, w3, t3, orel, t4.
  repeat (split; [assumption |]). reflexivity.
Qed.

(** ** The CA of the configuration *)

Lemma hostCABlock_adopt env flt cfg err b w b' w' t ca :
  hostCA w = None -> HostCA cfg = Some ca ->
  hostCABlock env flt cfg err b w = mkRun (Ret (Next b')) w' t ->
  w' = set_hostCA (Some ca) w /\ t = [EvGetHostCAPub; EvUpsertHostCA ca].
Proof.
  intros Hw Hc. unfold hostCABlock, bind, ret, GetHostCAPub, UpsertHostCA.
  rewrite Hw, Hc.
  destruct (flt EvGetHostCAPub); simpl; [discriminate |].
  destruct (flt (EvUpsertHostCA ca)); simpl; [discriminate |].
  intros [= _ <- <-]. split; reflexivity.
Qed.

Lemma userCABlock_adopt env flt cfg err b w b' w' t h :
  userCA w = None -> HostCA cfg = Some h ->
  userCABlock env flt cfg err b w = mkRun (Ret (Next b')) w' t ->
  exists u, UserCA cfg = Some u /\ w' = set_userCA (Some u) w /\
            t = [EvGetUserCAPub; EvUpsertUserCA u].
Proof.
  intros Hw Hc. unfold userCABlock, bind, ret, panic, GetUserCAPub, UpsertUserCA.
  rewrite Hw, Hc.
  destruct (flt EvGetUserCAPub); simpl; [discriminate |].
  destruct (UserCA cfg) as [u |]; simpl; [| discriminate].
  destruct (flt (EvUpsertUserCA u)); simpl; [discriminate |].
  intros [= _ <- <-]. exists u. repeat split.
Qed.

(** X12: a successful first start with a host CA in the configuration and
    none in the backend installs exactly that CA, by an upsert; and when
    the backend has no user CA either, the user CA it installs is the one
    of the configuration. *)
Theorem Init_adopts_HostCA env flt cfg w asrv signer ca :
  hostCA w = None -> HostCA cfg = Some ca ->
  out (Init env flt cfg w) = Ret (Some asrv, Some signer, None) ->
  hostCA (final (Init env flt cfg w)) = Some ca /\
  In (EvUpsertHostCA ca) (trace (Init env flt cfg w)) /\
  (userCA w = None -> userCA (final (Init env flt cfg w)) = UserCA cfg).
Proof.
  intros Hw Hc Ho.
  destruct (Init_success_steps _ _ _ _ _ _ Ho)
    as (w1 & t1 & w2 & t2 & w3 & t3 & orel & t4 & H1 & H2 & Hcs & H4 & ->).
  destruct (MkdirAll_run _ _ _ _ _ _ H1) as (_ & (_ & M2 & M3 & _) & _).
  destruct (AcquireLock_run _ _ _ _ _ _ _ H2) as (_ & _ & L2 & L3 & _).
  destruct (ReleaseLock_run _ _ _ _ _ _ H4) as (_ & _ & R2 & R3 & _).
  destruct (cs_run_success_steps _ _ _ _ _ _ _ _ _ Hcs eq_refl)
    as (scrt & v1 & s1 & b1 & v2 & s2 & b2 & v3 & s3 & v4 & s4 & s5
        & _ & K1 & K2 & K3 & K4 & K5 & ->).
  destruct (InitSecret_run _ _ _ _ _ _ _ K1) as (_ & (_ & S2 & S3 & _) & _).
  destruct (userCABlock_run _ _ _ _ _ _ _ _ _ K3) as (_ & _ & B3 & _).
  destruct (provisionBlock_run _ _ _ _ _ _ _ _ _ K4) as (_ & _ & C3 & C4 & _).
  destruct (InitKeys_run _ _ _ _ _ _ _ _ K5) as (_ & (_ & D2 & D3 & _) & _).
  assert (Hv1 : hostCA v1 = None) by congruence.
  destruct (hostCABlock_adopt _ _ _ _ _ _ _ _ _ _ Hv1 Hc K2) as [E2 ->].
  split; [| split].
  - rewrite R2, D2, C3, B3, E2. reflexivity.
  - rewrite !in_app_iff. right. right. left. right. left.
    right. left. reflexivity.
  - intros Hu.
    assert (Hv2 : userCA v2 = None) by (rewrite E2; simpl; congruence).
    destruct (userCABlock_adopt _ _ _ _ _ _ _ _ _ _ Hv2 Hc K3)
      as (u & Eu & E3 & _).
    rewrite R3, D3, C4, E3, Eu. reflexivity.
Qed.

Lemma Init_adopts_HostCA_witness :
  let cfg := mkInitConfig "node1" "example.com" "/var/lib/teleport" "" [] []
               (Some suppliedHostCA) (Some suppliedUserCA) in
  hostCA (final (Init demoEnv noFaults cfg emptyWorld)) = Some suppliedHostCA.
Proof.
  intros cfg.
  eapply (Init_adopts_HostCA demoEnv noFaults cfg emptyWorld);
    [reflexivity | reflexivity | vm_compute; reflexivity].
Defined.

(** ** A lock that is held *)

(** X13: when the lock of the domain is held, [Init] gives up with the
    lock error right after creating the data directory: it does not
    release the lock it does not hold, and it reads or writes no secret,
    CA, token or key; the state it leaves is the one os.MkdirAll left. *)
Theorem Init_lock_held env flt cfg w :
  AuthDomain cfg <> "" -> DataDir cfg <> "" ->
  out (MkdirAll (DataDir cfg) (Z.lor ModeDir perm0777) w) = Ret None ->
  flt (EvAcquireLock (AuthDomain cfg) (60 * Second)) = None ->
  AuthDomain cfg ∈ locks w ->
  let r := Init env flt cfg w in
  out r = Ret (None, None, Some (LockTimeout (AuthDomain cfg))) /\
  trace r = [EvMkdirAll (DataDir cfg) (Z.lor ModeDir perm0777);
             EvAcquireLock (AuthDomain cfg) (60 * Second)] /\
  same_backend w (final r) /\
  final r = final (MkdirAll (DataDir cfg) (Z.lor ModeDir perm0777) w).
Proof.
  intros Hd Hp Hdir Hflt Hheld r. subst r.
  unfold Init.
  destruct (String.eqb_spec (AuthDomain cfg) "") as [| _]; [contradiction |].
  destruct (String.eqb_spec (DataDir cfg) "") as [| _]; [contradiction |].
  unfold bind, defer, ret.
  destruct (MkdirAll (DataDir cfg) (Z.lor ModeDir perm0777) w) as [o1 w1 t1] eqn:H1.
  simpl in Hdir. subst o1.
  destruct (MkdirAll_run _ _ _ _ _ _ H1) as (-> & Hsame & _).
  unfold AcquireLock. rewrite Hflt.
  assert (Hheld1 : AuthDomain cfg ∈ locks w1).
  { destruct Hsame as (-> & _). exact Hheld. }
  destruct (decide (AuthDomain cfg ∈ locks w1)) as [_ | Hn]; [| contradiction].
  simpl. repeat split; try reflexivity; apply Hsame.
Qed.

Lemma Init_lock_held_witness :
  let w := mkWorld ∅ {[ "example.com" ]} None None ∅ [] 0 in
  out (Init demoEnv noFaults demoCfg w)
  = Ret (None, None, Some (LockTimeout "example.com")).
Proof.
  intros w.
  assert (Hin : AuthDomain demoCfg ∈ locks w)
    by (vm_compute; reflexivity).
  apply (Init_lock_held demoEnv noFaults demoCfg w);
    [discriminate | discriminate | vm_compute; reflexivity | reflexivity
    | exact Hin].
Defined.

(** ** What a successful first start leaves in the backend *)

Lemma tokensLoop_Next env flt scrt fqdn token rest w w' t :
  tokensLoop env flt scrt ((fqdn, token) :: rest) w = mkRun (Ret (Next tt)) w' t ->
  exists s pid t',
    scrt = Some s /\ env_DecodeSID env token s = Ok pid /\
    tokensLoop env flt scrt rest
      (set_tokens (<[pid := (fqdn, 600 * Second)]> (tokens w)) w)
    = mkRun (Ret (Next tt)) w' t'.
Proof.
  simpl. unfold bind, ret, DecodeSID, UpsertToken.
  destruct scrt as [s |]; [| discriminate].
  destruct (env_DecodeSID env token s) as [pid | e] eqn:Hdec; simpl;
    [| discriminate].
  destruct (flt (EvUpsertToken pid fqdn (600 * Second))); simpl; [discriminate |].
  destruct (tokensLoop env flt (Some s) rest _) as [o1 w1 t1] eqn:Hrest.
  intros [= -> -> _]. exists s, pid, t1.
  split; [reflexivity | split; assumption].
Qed.

Lemma tokensLoop_stored env flt scrt toks w w' t :
  tokensLoop env flt scrt toks w = mkRun (Ret (Next tt)) w' t ->
  (forall id v, tokens w !! id = Some v ->
     tokens w' !! id = Some v \/
     exists f' tok' s, In (f', tok') toks /\ scrt = Some s /\
                       env_DecodeSID env tok' s = Ok id /\
                       tokens w' !! id = Some (f', 600 * Second)) /\
  (forall fqdn tok, In (fqdn, tok) toks ->
     exists s pid f' tok',
       scrt = Some s /\ env_DecodeSID env tok s = Ok pid /\
       In (f', tok') toks /\ env_DecodeSID env tok' s = Ok pid /\
       tokens w' !! pid = Some (f', 600 * Second)).
Proof.
  revert w w' t. induction toks as [| [fqdn token] rest IH]; intros w w' t Hrun.
  - injection Hrun as <- _. split; [intros id v Hv; now left | intros f tk []].
  - destruct (tokensLoop_Next _ _ _ _ _ _ _ _ _ Hrun)
      as (s & pid & t' & -> & Hdec & Hrest).
    destruct (IH _ _ _ Hrest) as [Hkeep Hnew].
    assert (Hpid : exists f' tok',
               In (f', tok') ((fqdn, token) :: rest) /\
               env_DecodeSID env tok' s = Ok pid /\
               tokens w' !! pid = Some (f', 600 * Second)).
    { destruct (Hkeep pid (fqdn, 600 * Second)) as [Hv | (f' & tok' & s1 & Hin & Hs & Hd & Hv)].
      - simpl. apply lookup_insert_eq.
      - exists fqdn, token. split; [left; reflexivity | split; assumption].
      - injection Hs as <-. exists f', tok'.
        split; [right; assumption | split; assumption]. }
    split.
    + intros id v Hv. destruct (decide (pid = id)) as [<- | Hne].
      * right. destruct Hpid as (f' & tok' & Hin & Hd & Hst).
        exists f', tok', s. repeat split; assumption.
      * destruct (Hkeep id v) as [Hold | (f' & tok' & s1 & Hin & Hs & Hd & Hst)].
        -- simpl. rewrite lookup_insert_ne by assumption. exact Hv.
        -- now left.
        -- right. exists f', tok', s1.
           split; [right; assumption | repeat split; assumption].
    + intros f tk [[= <- <-] | Hin].
      * destruct Hpid as (f' & tok' & Hin & Hd & Hst).
        exists s, pid, f', tok'. repeat split; assumption.
      * destruct (Hnew f tk Hin) as (s1 & pid1 & f' & tok' & Hs & Hd & Hin' & Hd' & Hst).
        exists s1, pid1, f', tok'.
        split; [assumption |]. split; [assumption |].
        split; [right; assumption |]. split; assumption.
Qed.

Lemma certsLoop_stored env flt certs w w' t :
  certsLoop env flt certs w = mkRun (Ret (Next tt)) w' t ->
  (forall x, In x (remoteCerts w) -> In x (remoteCerts w')) /\
  (forall cert, In cert certs -> In (cert, 0) (remoteCerts w')).
Proof.
  revert w w' t. induction certs as [| cert rest IH]; intros w w' t.
  - intros [= <- _]. split; [auto | intros c []].
  - simpl. unfold bind, ret, UpsertRemoteCert.
    destruct (flt (EvUpsertRemoteCert cert 0)); simpl; [discriminate |].
    destruct (certsLoop env flt rest _) as [o1 w1 t1] eqn:Hrest.
    intros [= -> -> _].
    destruct (IH _ _ _ Hrest) as [Hkeep Hnew]. split.
    + intros x Hx. apply Hkeep. simpl. right. exact Hx.
    + intros c [<- | Hin]; [apply Hkeep; simpl; left; reflexivity | auto].
Qed.

(** X14: after a successful first start, every configured token decodes
    under the secret of the server returned and its id is in the token
    store with a lifetime of 600 seconds, under the name of a configured
    entry with that id; every configured trusted authority is in the trust
    store with no expiry. *)
Theorem Init_first_start_provisioned env flt cfg w asrv signer :
  hostCA w = None \/ userCA w = None ->
  out (Init env flt cfg w) = Ret (Some asrv, Some signer, None) ->
  let w' := final (Init env flt cfg w) in
  (forall fqdn tok, In (fqdn, tok) (AllowedTokens cfg) ->
     exists s pid f' tok',
       asrv_scrt asrv = Some s /\ env_DecodeSID env tok s = Ok pid /\
       In (f', tok') (AllowedTokens cfg) /\ env_DecodeSID env tok' s = Ok pid /\
       tokens w' !! pid = Some (f', 600 * Second)) /\
  (forall cert, In cert (TrustedAuthorities cfg) -> In (cert, 0) (remoteCerts w')).
Proof.
  intros Habs Ho w'. subst w'.
  destruct (Init_success_steps _ _ _ _ _ _ Ho)
    as (w1 & t1 & w2 & t2 & w3 & t3 & orel & t4 & H1 & H2 & Hcs & H4 & _).
  destruct (MkdirAll_run _ _ _ _ _ _ H1) as (_ & (_ & M2 & M3 & _) & _).
  destruct (AcquireLock_run _ _ _ _ _ _ _ H2) as (_ & _ & L2 & L3 & _).
  destruct (ReleaseLock_run _ _ _ _ _ _ H4) as (_ & _ & _ & _ & R4 & R5 & _).
  destruct (cs_run_success_steps _ _ _ _ _ _ _ _ _ Hcs eq_refl)
    as (scrt & v1 & s1 & b1 & v2 & s2 & b2 & v3 & s3 & v4 & s4 & s5
        & -> & K1 & K2 & K3 & K4 & K5 & _).
  destruct (InitKeys_run _ _ _ _ _ _ _ _ K5) as (_ & (_ & _ & _ & D4 & D5) & _).
  pose proof (firstStart_flag _ _ _ _ _ _ _ _ _ _ _ _ _ K1 K2 K3) as Hb.
  assert (Hb2 : b2 = true).
  { rewrite Hb, L2, L3, M2, M3. destruct Habs as [-> | ->]; [reflexivity |].
    destruct (hostCA w); reflexivity. }
  clear Hb. subst b2. revert K4. unfold provisionBlock.
  rewrite tokens_guard, certs_guard. unfold bind.
  destruct (tokensLoop env flt scrt (AllowedTokens cfg) v3) as [o1 u1 r1] eqn:T1.
  destruct o1 as [[[] | r] | msg]; try discriminate.
  destruct (certsLoop env flt (TrustedAuthorities cfg) u1) as [o2 u2 r2] eqn:T2.
  intros [= -> -> _].
  destruct (tokensLoop_stored _ _ _ _ _ _ _ T1) as [_ Htok].
  destruct (certsLoop_stored _ _ _ _ _ _ T2) as [_ Hcert].
  destruct (certsLoop_run _ _ _ _ _ _ _ T2) as (_ & _ & _ & _ & G5 & _).
  split.
  - intros f tk Hin. rewrite R4, D4, G5.
    destruct (Htok f tk Hin) as (s & pid & f' & tok' & -> & ?).
    exists s, pid, f', tok'. split; [reflexivity | assumption].
  - intros cert Hin. rewrite R5, D5. apply Hcert, Hin.
Qed.

Lemma Init_first_start_provisioned_witness :
  tokens (final (Init demoEnv noFaults demoCfg emptyWorld)) !! "abc"
  = Some ("n2", 600 * Second).
Proof.
  destruct (Init_first_start_provisioned demoEnv noFaults demoCfg emptyWorld
              (mkAuthServer (Some (mkSecretService "key")))
              (mkSigner "priviii" "cert:pubiii:node1:caprivi"))
    as [Htok _]; [left; reflexivity | vm_compute; reflexivity |].
  destruct (Htok "n2" "tok:abc") as (s & pid & f' & tok' & Hs & Hd & Hin & Hd' & Hst);
    [left; reflexivity |].
  destruct Hin as [[= <- <-] | []].
  injection Hs as <-. vm_compute in Hd. injection Hd as <-. exact Hst.
Defined.

(** ** Reading back what [Init] left *)

(** X15: after a successful [Init], the read-only functions of the file
    give back what [Init] returned: [ReadSecret] the sealing service of the
    server, [ReadKeys] the signer, and [HaveKeys] answers (true, nil). *)
Theorem Init_success_readback env flt cfg w asrv signer :
  out (Init env flt cfg w) = Ret (Some asrv, Some signer, None) ->
  let w' := final (Init env flt cfg w) in
  out (ReadSecret env (DataDir cfg) w') = Ret (asrv_scrt asrv, None) /\
  out (ReadKeys env (FQDN cfg) (DataDir cfg) w') = Ret (Some signer, None) /\
  out (HaveKeys (FQDN cfg) (DataDir cfg) w') = Ret (true, None).
Proof.
  intros Ho w'. subst w'.
  destruct (Init_success _ _ _ _ _ _ Ho) as [Hb _].
  destruct Hb as (_ & _ & _ & _ & (scrt & data & perm & key & -> & Hs & Hk & Hn)
                  & _ & _ & (k & pk & c & pc & Hkp & Hcp & Hsig)).
  split; [| split].
  - rewrite ReadSecret_eq. unfold read_node. rewrite Hs. simpl. rewrite Hk.
    unfold secretNew. rewrite Hn. reflexivity.
  - rewrite (ReadKeys_files env _ _ _ _ _ _ _ Hkp Hcp). simpl.
    unfold NewSigner. rewrite Hsig. reflexivity.
  - rewrite HaveKeys_true; [reflexivity | rewrite Hkp | rewrite Hcp]; reflexivity.
Qed.

Lemma Init_success_readback_witness :
  out (ReadKeys demoEnv "node1" "/var/lib/teleport"
         (final (Init demoEnv noFaults demoCfg emptyWorld)))
  = Ret (Some (mkSigner "priviii" "cert:pubiii:node1:caprivi"), None).
Proof.
  apply (Init_success_readback demoEnv noFaults demoCfg emptyWorld
           (mkAuthServer (Some (mkSecretService "key")))).
  vm_compute. reflexivity.
Defined.

(** X16: the secret and the node keys live in different files: [InitKeys]
    leaves the secret file as it is, for every node name, and [InitSecret]
    leaves both key files as they are. *)
Theorem secret_and_keys_apart env flt fqdn dataDir secretKey w :
  fs (final (InitKeys env flt fqdn dataDir w)) !! secretKeyPath dataDir
  = fs w !! secretKeyPath dataDir /\
  fs (final (InitSecret env dataDir secretKey w)) !! (keysPath fqdn dataDir).1
  = fs w !! (keysPath fqdn dataDir).1 /\
  fs (final (InitSecret env dataDir secretKey w)) !! (keysPath fqdn dataDir).2
  = fs w !! (keysPath fqdn dataDir).2.
Proof.
  destruct (InitKeys env flt fqdn dataDir w) as [o1 w1 t1] eqn:H1.
  destruct (InitSecret env dataDir secretKey w) as [o2 w2 t2] eqn:H2.
  destruct (InitKeys_run _ _ _ _ _ _ _ _ H1) as (_ & _ & D3 & _).
  destruct (InitSecret_run _ _ _ _ _ _ _ H2) as (_ & _ & S3 & _).
  pose proof (secretKeyPath_not_key fqdn dataDir) as N1.
  pose proof (secretKeyPath_not_cert fqdn dataDir) as N2.
  cbn [final]. split; [| split].
  - apply D3; assumption.
  - apply S3. congruence.
  - apply S3. congruence.
Qed.

(** ** How [Init] ends *)

Lemma tokensLoop_no_panic env flt s toks w :
  exists c, out (tokensLoop env flt (Some s) toks w) = Ret c.
Proof.
  revert w. induction toks as [| [fqdn token] rest IH]; intros w.
  - eexists. reflexivity.
  - simpl. unfold bind, ret, DecodeSID, UpsertToken.
    destruct (env_DecodeSID env token s) as [pid | e]; simpl; [| eauto].
    destruct (flt (EvUpsertToken pid fqdn (600 * Second))); simpl; [eauto |].
    destruct (IH (set_tokens (<[pid := (fqdn, 600 * Second)]> (tokens w)) w))
      as [c Hc].
    destruct (tokensLoop env flt (Some s) rest _) as [o1 w1 t1].
    simpl in Hc. subst o1. eauto.
Qed.

Lemma certsLoop_no_panic env flt certs w :
  exists c, out (certsLoop env flt certs w) = Ret c.
Proof.
  revert w. induction certs as [| cert rest IH]; intros w.
  - eexists. reflexivity.
  - simpl. unfold bind, ret, UpsertRemoteCert.
    destruct (flt (EvUpsertRemoteCert cert 0)); simpl; [eauto |].
    destruct (IH (set_remoteCerts ((cert, 0) :: remoteCerts w) w)) as [c Hc].
    destruct (certsLoop env flt rest _) as [o1 w1 t1].
    simpl in Hc. subst o1. eauto.
Qed.

Lemma provisionBlock_no_panic env flt cfg s b w :
  exists c, out (provisionBlock env flt cfg (Some s) b w) = Ret c.
Proof.
  unfold provisionBlock. destruct b; [| eexists; reflexivity].
  rewrite tokens_guard, certs_guard. unfold bind.
  destruct (tokensLoop_no_panic env flt s (AllowedTokens cfg) w) as [c Hc].
  destruct (tokensLoop env flt (Some s) (AllowedTokens cfg) w) as [o1 w1 t1].
  simpl in Hc. subst o1. destruct c as [[] | r]; [| eexists; reflexivity].
  destruct (certsLoop_no_panic env flt (TrustedAuthorities cfg) w1) as [c Hc].
  destruct (certsLoop env flt (TrustedAuthorities cfg) w1) as [o2 w2 t2].
  simpl in Hc. subst o2. eauto.
Qed.

Lemma userCABlock_panic env flt cfg err b w msg :
  out (userCABlock env flt cfg err b w) = Panic msg ->
  userCA w = None /\ is_Some (HostCA cfg) /\ UserCA cfg = None /\
  msg = "invalid memory address or nil pointer dereference".
Proof.
  unfold userCABlock, bind, ret, panic, GetUserCAPub, UpsertUserCA, ResetUserCA.
  destruct (flt EvGetUserCAPub); simpl; [discriminate |].
  destruct (userCA w); simpl; [discriminate |].
  destruct (HostCA cfg) as [h |]; simpl.
  - destruct (UserCA cfg) as [u |]; simpl.
    + destruct (flt (EvUpsertUserCA u)); discriminate.
    + intros [= <-]. repeat split. eauto.
  - destruct (flt (EvResetUserCA "")); simpl; [discriminate |].
    destruct (env_GenerateCA env UserCAType "" (entropy w)); discriminate.
Qed.

Lemma stopped_Panic {A} (o : Outcome (Ctl Result A)) msg :
  stopped o (Panic msg) -> o = Panic msg.
Proof.
  intros [(r & _ & Hr) | (m & -> & Hm)]; [discriminate Hr |].
  injection Hm as ->. reflexivity.
Qed.

Lemma cs_run_panic env flt cfg w w' t msg :
  cs_run env flt cfg w (Panic msg) w' t ->
  is_Some (HostCA cfg) /\ UserCA cfg = None /\
  msg = "invalid memory address or nil pointer dereference" /\
  (userCA w = None).
Proof.
  intros Hrun. remember (Panic msg) as o eqn:Ho.
  destruct Hrun as
    [ oscrt e w1 t1 H1
    | scrt w1 t1 o2 w2 t2 o H1 H2 Hs
    | scrt w1 t1 b1 w2 t2 o3 w3 t3 o H1 H2 H3 Hs
    | scrt w1 t1 b1 w2 t2 b2 w3 t3 o4 w4 t4 o H1 H2 H3 H4 Hs
    | scrt w1 t1 b1 w2 t2 b2 w3 t3 w4 t4 o5 w5 t5 H1 H2 H3 H4 H5 ].
  - discriminate Ho.
  - subst o. apply stopped_Panic in Hs. subst o2.
    destruct (hostCABlock_run _ _ _ _ _ _ _ _ _ H2) as ([c Hc] & _).
    discriminate Hc.
  - subst o. apply stopped_Panic in Hs. subst o3.
    destruct (InitSecret_run _ _ _ _ _ _ _ H1) as (_ & (_ & _ & S3 & _) & _).
    destruct (hostCABlock_run _ _ _ _ _ _ _ _ _ H2) as (_ & _ & _ & A3 & _).
    pose proof (userCABlock_panic env flt cfg None b1 w2 msg) as Hp.
    rewrite H3 in Hp. destruct (Hp eq_refl) as (P1 & P2 & P3 & P4).
    repeat split; try assumption. congruence.
  - subst o. apply stopped_Panic in Hs. subst o4.
    destruct (InitSecret_run _ _ _ _ _ _ _ H1) as (_ & _ & _ & _ & S7).
    destruct (S7 _ eq_refl) as (s & _ & _ & _ & -> & _).
    destruct (provisionBlock_no_panic env flt cfg s b2 w3) as [c Hc].
    rewrite H4 in Hc. discriminate Hc.
  - destruct (InitKeys_run _ _ _ _ _ _ _ _ H5) as ([res ->] & _).
    destruct res as [osig [e |]]; discriminate Ho.
Qed.

(** X17: the one way [Init] panics is the nil dereference of the user CA
    of the configuration: the backend had no user CA, and the configuration
    brought a host CA and no user CA. *)
Theorem Init_panic_only_nil_UserCA env flt cfg w msg :
  out (Init env flt cfg w) = Panic msg ->
  userCA w = None /\ is_Some (HostCA cfg) /\ UserCA cfg = None /\
  msg = "invalid memory address or nil pointer dereference".
Proof.
  intros Ho.
  pose proof (Init_init_run env flt cfg w) as Hrun.
  rewrite Ho in Hrun.
  remember (Panic msg) as o eqn:Eo.
  destruct Hrun as
    [ Hd | Hd Hp | e w1 t1 Hd Hp H1 | w1 t1 e w2 t2 Hd Hp H1 H2
    | w1 t1 w2 t2 o w3 t3 orel w4 t4 Hd Hp H1 H2 Hcs H4 ]; try discriminate Eo.
  subst o.
  destruct (MkdirAll_run _ _ _ _ _ _ H1) as (_ & (_ & _ & M3 & _) & _).
  destruct (AcquireLock_run _ _ _ _ _ _ _ H2) as (_ & _ & _ & L3 & _).
  destruct (cs_run_panic _ _ _ _ _ _ _ Hcs) as (P1 & P2 & P3 & P4).
  repeat split; try assumption. congruence.
Qed.

Lemma Init_panic_only_nil_UserCA_witness :
  is_Some (HostCA hostCAOnlyCfg) /\ UserCA hostCAOnlyCfg = None.
Proof.
  destruct (Init_panic_only_nil_UserCA demoEnv noFaults hostCAOnlyCfg emptyWorld
              "invalid memory address or nil pointer dereference")
    as (_ & H1 & H2 & _); [vm_compute; reflexivity |].
  split; assumption.
Defined.

Lemma ReadKeys_Some env fqdn dataDir w osig :
  out (ReadKeys env fqdn dataDir w) = Ret (osig, None) -> is_Some osig.
Proof.
  rewrite ReadKeys_eq. unfold NewSigner.
  destruct (read_node "open" _ w) as [key [e |]]; simpl; [discriminate |].
  destruct (read_node "open" _ w) as [cert [e |]]; simpl; [discriminate |].
  destruct (env_NewSigner env key cert); intros [= <-]; eauto.
Qed.

(** X18: [Init] returns all or nothing: either a server and a signer with a
    nil error, or neither of them. *)
Theorem Init_all_or_nothing env flt cfg w oa os oe :
  out (Init env flt cfg w) = Ret (oa, os, oe) ->
  (oa = None /\ os = None) \/ (is_Some oa /\ is_Some os /\ oe = None).
Proof.
  intros Ho.
  pose proof (Init_init_run env flt cfg w) as Hrun.
  rewrite Ho in Hrun.
  remember (Ret (oa, os, oe)) as o eqn:Eo.
  destruct Hrun as
    [ Hd | Hd Hp | e w1 t1 Hd Hp H1 | w1 t1 e w2 t2 Hd Hp H1 H2
    | w1 t1 w2 t2 o w3 t3 orel w4 t4 Hd Hp H1 H2 Hcs H4 ].
  1-4: injection Eo as <- <- _; left; split; reflexivity.
  destruct Hcs as
    [ oscrt e v1 s1 K1
    | scrt v1 s1 o2 v2 s2 o K1 K2 Hs
    | scrt v1 s1 b1 v2 s2 o3 v3 s3 o K1 K2 K3 Hs
    | scrt v1 s1 b1 v2 s2 b2 v3 s3 o4 v4 s4 o K1 K2 K3 K4 Hs
    | scrt v1 s1 b1 v2 s2 b2 v3 s3 v4 s4 o5 v5 s5 K1 K2 K3 K4 K5 ].
  - injection Eo as <- <- _. left. split; reflexivity.
  - subst o. destruct Hs as [(r & -> & Hr) | (m & _ & Hm)]; [| discriminate Hm].
    destruct (hostCABlock_run _ _ _ _ _ _ _ _ _ K2)
      as (_ & _ & _ & _ & _ & _ & _ & _ & A8 & _).
    destruct (A8 _ eq_refl) as [oe' ->]. injection Hr as <- <- _.
    left. split; reflexivity.
  - subst o. destruct Hs as [(r & -> & Hr) | (m & _ & Hm)]; [| discriminate Hm].
    destruct (userCABlock_run _ _ _ _ _ _ _ _ _ K3)
      as (_ & _ & _ & _ & _ & _ & _ & B8 & _).
    destruct (B8 _ eq_refl) as [oe' ->]. injection Hr as <- <- _.
    left. split; reflexivity.
  - subst o. destruct Hs as [(r & -> & Hr) | (m & _ & Hm)]; [| discriminate Hm].
    destruct (provisionBlock_run _ _ _ _ _ _ _ _ _ K4)
      as (_ & _ & _ & _ & _ & _ & C7 & _).
    destruct (C7 _ eq_refl) as [oe' ->]. injection Hr as <- <- _.
    left. split; reflexivity.
  - destruct (InitKeys_run _ _ _ _ _ _ _ _ K5) as ([res ->] & _ & _ & _ & D5).
    destruct res as [osig [e |]]; simpl in Eo.
    + injection Eo as <- <- _. left. split; reflexivity.
    + injection Eo as <- <- <-. right.
      destruct (D5 _ eq_refl) as [Hrd _].
      split; [eauto | split; [| reflexivity]].
      apply (ReadKeys_Some _ _ _ _ _ Hrd).
Qed.

Lemma Init_all_or_nothing_witness :
  (@None AuthServer = None /\ @None Signer = None) \/
  (is_Some (@None AuthServer) /\ is_Some (@None Signer) /\ @None error = None).
Proof.
  apply (Init_all_or_nothing demoEnv hostProbeFault demoCfg emptyWorld).
  vm_compute. reflexivity.
Defined.

(** X19: [ReadKeys] changes nothing and reads the key before the
    certificate: with the key file missing it fails with a not-exist error
    on the key path and does not read the certificate; with only the
    certificate missing the error is on the certificate path; and a signer
    it returns is the one built from the two files on disk. *)
Theorem ReadKeys_missing env fqdn dataDir w :
  let kp := (keysPath fqdn dataDir).1 in
  let cp := (keysPath fqdn dataDir).2 in
  let r := ReadKeys env fqdn dataDir w in
  final r = w /\
  (fs w !! kp = None ->
   r = mkRun (Ret (None, Some (PathError "open" kp ENOENT))) w [EvReadPath kp] /\
   IsNotExist (PathError "open" kp ENOENT) = true) /\
  (forall k pk, fs w !! kp = Some (File k pk) -> fs w !! cp = None ->
   r = mkRun (Ret (None, Some (PathError "open" cp ENOENT))) w
             [EvReadPath kp; EvReadPath cp]) /\
  (forall signer, out r = Ret (Some signer, None) ->
   exists k pk c pc,
     fs w !! kp = Some (File k pk) /\ fs w !! cp = Some (File c pc) /\
     env_NewSigner env k c = Ok signer).
Proof.
  intros kp cp r. subst kp cp r.
  split; [apply ReadKeys_final |].
  split; [| split].
  - intros Hk. rewrite ReadKeys_eq. unfold read_node. rewrite Hk.
    split; reflexivity.
  - intros k pk Hk Hc. rewrite ReadKeys_eq. unfold read_node. rewrite Hk, Hc.
    reflexivity.
  - intros signer Ho. apply (ReadKeys_ok _ _ _ _ _ Ho).
Qed.
